(** * XAU copy-signal bot (pending orders): a shallow embedding

    Source: [xaucopysignal_v5_pending_orders.py].

    - Python [float] is IEEE 754 binary64; it is modelled by [spec_float]
      with precision 53 and maximal exponent 1024, whose operations are
      the executable specification of the standard library.
    - Python [str] is a sequence of Unicode code points: [text] is a list of
      code points.
    - The compiled patterns of [MessageProcessor] are terms of a small
      regular-expression syntax, run by a backtracking matcher with the
      priorities of [re] (greedy quantifiers, ordered alternation,
      leftmost start).
    - The MetaTrader 5 terminal is a record of the answers it gives; the
      manager threads its registry and the list of requests it has sent
      through a state monad. *)

From Stdlib Require Import ZArith NArith PArith List String Ascii Bool Lia.
From Stdlib Require Import SpecFloat.
Import ListNotations.

Set Implicit Arguments.

(* ================================================================== *)
(** ** Python floats *)

Module Float64.

Definition float := spec_float.

Definition prec : Z := 53.
Definition emax : Z := 1024.

Definition add (x y : float) : float := SFadd prec emax x y.
Definition sub (x y : float) : float := SFsub prec emax x y.
Definition mul (x y : float) : float := SFmul prec emax x y.

(** [x == y], [x < y], [x > y], [x <= y] *)
Definition eqb (x y : float) : bool := SFeqb x y.
Definition ltb (x y : float) : bool := SFltb x y.
Definition gtb (x y : float) : bool := SFltb y x.
Definition leb (x y : float) : bool := SFleb x y.

Definition zero : float := S754_zero false.

(** [x != 0] *)
Definition nonzero (x : float) : bool := negb (eqb x zero).

(** [bool(x)] of a float: false exactly for [0.0] and [-0.0]. *)
Definition truthy (x : float) : bool := nonzero x.

(** [x / y]; [None] is [ZeroDivisionError]. *)
Definition div (x y : float) : option float :=
  if eqb y zero then None else Some (SFdiv prec emax x y).

Definition pow10 (k : nat) : positive := Nat.iter k (Pos.mul 10) 1%positive.

(** The double nearest to [(-1)^neg * n / 10^k] (ties to even): the value
    [float] gives to a decimal literal with digits [n] and [k] digits
    after the point. *)
Definition of_decimal (neg : bool) (n : N) (k : nat) : float :=
  match n with
  | N0 => S754_zero neg
  | Npos p =>
      SFdiv prec emax (S754_finite neg p 0) (S754_finite false (pow10 k) 0)
  end.

(** [float(n)] for a non-negative integer literal. *)
Definition of_N (n : N) : float := of_decimal false n 0.

(** [min(a, b)] and [max(a, b)] of the interpreter: the first argument is
    kept unless the second is strictly smaller (resp. larger). *)
Definition py_min (a b : float) : float := if ltb b a then b else a.
Definition py_max (a b : float) : float := if gtb b a then b else a.

(** Floats that are neither NaN nor negative. *)
Definition nonneg (x : float) : Prop :=
  match x with
  | S754_zero _ => True
  | S754_infinity s => s = false
  | S754_nan => False
  | S754_finite s _ _ => s = false
  end.

(** Floats of sign [s] (true: negative), NaN apart. *)
Definition has_sign (s : bool) (x : float) : Prop :=
  match x with
  | S754_zero s' | S754_infinity s' | S754_finite s' _ _ => s' = s
  | S754_nan => False
  end.

End Float64.

Abbreviation float := Float64.float.

(* ================================================================== *)
(** ** Python strings *)

Module PyStr.

(** A [str]: its code points. *)
Definition text := list N.

(** An ASCII literal of the source as a [str]. *)
Definition txt (s : string) : text := map N_of_ascii (list_ascii_of_string s).

Definition text_eqb (a b : text) : bool :=
  if list_eq_dec N.eq_dec a b then true else false.

Definition in_range (lo hi c : N) : bool := ((lo <=? c) && (c <=? hi))%N.

(** [str.isspace] on one code point; also the class [\s] of [re] on a
    [str] pattern.  The table of the interpreter, written out. *)
Definition isspace (c : N) : bool :=
  (in_range 9 13 c || in_range 28 32 c || (c =? 133) || (c =? 160)
   || (c =? 5760) || in_range 8192 8202 c || (c =? 8232) || (c =? 8233)
   || (c =? 8239) || (c =? 8287) || (c =? 12288))%N.

Definition isdigit_ascii (c : N) : bool := in_range 48 57 c.
Definition isupper_ascii (c : N) : bool := in_range 65 90 c.
Definition islower_ascii (c : N) : bool := in_range 97 122 c.

(** [s.strip()] *)
Fixpoint lstrip (s : text) : text :=
  match s with
  | c :: t => if isspace c then lstrip t else s
  | [] => []
  end.

Definition rstrip (s : text) : text := rev (lstrip (rev s)).

Definition strip (s : text) : text := rstrip (lstrip s).

(** [s.lower()] on the letters A-Z.  Other code points are left as they
    are.  The source only compares the result with ["min"] and ["max"], and
    for that the answer is the one of the interpreter: outside A-Z the only
    code points whose lowercase holds an ASCII letter are U+212A (which gives
    [k]) and U+0130 (which gives [i] followed by U+0307). *)
Definition lower_char (c : N) : N := if isupper_ascii c then (c + 32)%N else c.
Definition lower (s : text) : text := map lower_char s.

(** The number written by a text of ASCII digits, most significant first. *)
Fixpoint digits_value (acc : N) (s : text) : option N :=
  match s with
  | [] => Some acc
  | c :: t =>
      if isdigit_ascii c then digits_value (acc * 10 + (c - 48))%N t
      else None
  end.

(** The text before the first point and, if there is one, the text after. *)
Fixpoint split_point (s : text) : text * option text :=
  match s with
  | [] => ([], None)
  | c :: t =>
      if (c =? 46)%N then ([], Some t)
      else let '(a, b) := split_point t in (c :: a, b)
  end.

(** Digits with at most one point and at least one digit, as a float of
    sign [neg]. *)
Definition unsigned_float (neg : bool) (s : text) : option float :=
  let '(ip, fp) := split_point s in
  let fp := match fp with Some f => f | None => [] end in
  match ip ++ fp with
  | [] => None
  | ds =>
      match digits_value 0 ds with
      | Some n => Some (Float64.of_decimal neg n (List.length fp))
      | None => None
      end
  end.

(** [float(s)] for the literals made of an optional sign, digits and at
    most one point with at least one digit around it; [None] is
    [ValueError].  The patterns of the source capture only unsigned
    literals of this form, which all convert (lemma
    [captured_number_converts] below); the other spellings [float] accepts
    (exponent, [inf], [nan], underscores, blanks around) are never passed to
    it and are not modelled. *)
Definition float_of_str (s : text) : option float :=
  match s with
  | c :: t =>
      if (c =? 45)%N then unsigned_float true t          (* "-" *)
      else if (c =? 43)%N then unsigned_float false t    (* "+" *)
      else unsigned_float false s
  | [] => None
  end.

(** What [[0-9]+\.?[0-9]*] matches: digits, at least one, then possibly a
    point, then digits. *)
Definition all_digits (ds : text) : Prop := Forall (fun c => isdigit_ascii c = true) ds.

Definition decimal_shape (g : text) : Prop :=
  exists d1 d2,
    d1 <> [] /\ all_digits d1 /\ all_digits d2 /\
    (g = d1 ++ d2 \/ g = d1 ++ 46%N :: d2).

End PyStr.

Abbreviation text := PyStr.text.
Abbreviation txt := PyStr.txt.

(* ================================================================== *)
(** ** Regular expressions of [re], as far as the source uses them *)

Module Re.

(** Sets of one character.  [Lit c] is the literal [c] of a pattern
    compiled with [re.IGNORECASE]. *)
Inductive cset :=
| Lit (c : N)
| Digit          (* [0-9] *)
| Space.         (* \s *)

(** Quantifiers are applied to single characters only in the source
    ([\s*], [\s+], [[0-9]+], [[0-9]*], [\.?], [:?], [1?], [s?]). *)
Inductive regex :=
| Eps
| One (cs : cset)
| Opt (cs : cset)            (* x?  greedy *)
| Star (cs : cset)           (* x*  greedy *)
| Plus (cs : cset)           (* x+  greedy *)
| Cat (r1 r2 : regex)
| Alt (r1 r2 : regex)        (* r1|r2, r1 tried first *)
| Grp (n : nat) (r : regex)  (* capturing group number n *)
| WordB.                     (* \b *)

Definition seq (rs : list regex) : regex := fold_right Cat Eps rs.

Fixpoint alt (rs : list regex) : regex :=
  match rs with
  | [] => Eps
  | [r] => r
  | r :: rs' => Alt r (alt rs')
  end.

(** A literal word of a pattern. *)
Definition word (s : string) : regex := seq (map (fun c => One (Lit c)) (txt s)).

(** Case-insensitive match of a pattern literal [p] against [c] on a
    [str] pattern: [c] lowercases to the lowercase of [p], or is one of
    the extra equivalents of the interpreter: U+0130 and U+0131 for [i],
    U+017F for [s], U+212A for [k]. *)
Definition lit_match (p c : N) : bool :=
  let lp := PyStr.lower_char p in
  if PyStr.islower_ascii lp then
    ((c =? lp) || (c =? lp - 32)
     || ((lp =? 105) && ((c =? 304) || (c =? 305)))
     || ((lp =? 115) && (c =? 383))
     || ((lp =? 107) && (c =? 8490)))%N
  else (c =? p)%N.

Definition cset_mem (cs : cset) (c : N) : bool :=
  match cs with
  | Lit p => lit_match p c
  | Digit => PyStr.isdigit_ascii c
  | Space => PyStr.isspace c
  end.

(** State of the matcher: the character before the cursor, the text
    from the cursor on, the groups captured so far (latest first). *)
Record mstate := MState {
  m_prev : option N;
  m_rest : text;
  m_caps : list (nat * text)
}.

Fixpoint group (n : nat) (caps : list (nat * text)) : option text :=
  match caps with
  | [] => None
  | (k, g) :: caps' => if Nat.eqb k n then Some g else group n caps'
  end.

(** The number syntax of the patterns: [[0-9]+\.?[0-9]*]. *)
Definition number : regex := Cat (Plus Digit) (Cat (Opt (Lit 46)) (Star Digit)).

Definition cset_eq_dec (a b : cset) : {a = b} + {a <> b}.
Proof. decide equality. apply N.eq_dec. Defined.

Definition regex_eq_dec (a b : regex) : {a = b} + {a <> b}.
Proof. decide equality; try apply cset_eq_dec. apply Nat.eq_dec. Defined.

(** Patterns in which every capturing group holds exactly [number]. *)
Fixpoint num_only (r : regex) : bool :=
  match r with
  | Grp _ r1 => if regex_eq_dec r1 number then true else false
  | Cat r1 r2 | Alt r1 r2 => num_only r1 && num_only r2
  | _ => true
  end.

(** Patterns that set group [n] in every match. *)
Fixpoint sets_group (n : nat) (r : regex) : bool :=
  match r with
  | Grp k r1 => Nat.eqb k n || sets_group n r1
  | Cat r1 r2 => sets_group n r1 || sets_group n r2
  | Alt r1 r2 => sets_group n r1 && sets_group n r2
  | _ => false
  end.

(** Captures that are all decimal literals. *)
Definition numeric_groups (caps : list (nat * text)) : Prop :=
  Forall (fun p => PyStr.decimal_shape (snd p)) caps.

Section Matcher.

(** [Py_UNICODE_ISALNUM] on the code points above 127: a table of the
    interpreter, not of the source. *)
Variable unicode_isalnum : N -> bool.

(** The class [\w] on a [str] pattern. *)
Definition isword (c : N) : bool :=
  if (c <? 128)%N then
    PyStr.isdigit_ascii c || PyStr.isupper_ascii c
    || PyStr.islower_ascii c || (c =? 95)%N
  else unicode_isalnum c.

Definition isword_opt (c : option N) : bool :=
  match c with Some c => isword c | None => false end.

(** All the ways [cs*] matches at the cursor, longest first. *)
Fixpoint run_star (cs : cset) (prev : option N) (rest : text)
         (caps : list (nat * text)) : list mstate :=
  match rest with
  | c :: t =>
      if cset_mem cs c
      then run_star cs (Some c) t caps ++ [MState prev rest caps]
      else [MState prev rest caps]
  | [] => [MState prev rest caps]
  end.

(** The text consumed between two states of one run. *)
Definition consumed (st st' : mstate) : text :=
  firstn (List.length (m_rest st) - List.length (m_rest st')) (m_rest st).

(** All the ways [r] matches at the cursor, in the order in which a
    backtracking matcher tries them. *)
Fixpoint run (r : regex) (st : mstate) : list mstate :=
  match r with
  | Eps => [st]
  | One cs =>
      match m_rest st with
      | c :: t => if cset_mem cs c then [MState (Some c) t (m_caps st)] else []
      | [] => []
      end
  | Opt cs =>
      match m_rest st with
      | c :: t =>
          if cset_mem cs c then [MState (Some c) t (m_caps st); st] else [st]
      | [] => [st]
      end
  | Star cs => run_star cs (m_prev st) (m_rest st) (m_caps st)
  | Plus cs =>
      match m_rest st with
      | c :: t => if cset_mem cs c then run_star cs (Some c) t (m_caps st) else []
      | [] => []
      end
  | Cat r1 r2 => flat_map (run r2) (run r1 st)
  | Alt r1 r2 => run r1 st ++ run r2 st
  | Grp n r1 =>
      map (fun st' =>
             MState (m_prev st') (m_rest st')
                    ((n, consumed st st') :: m_caps st'))
          (run r1 st)
  | WordB =>
      if xorb (isword_opt (m_prev st)) (isword_opt (hd_error (m_rest st)))
      then [st] else []
  end.

(** [pattern.search(s)]: the first match at the leftmost position that
    has one; the result is the groups of the match. *)
Fixpoint search_from (r : regex) (prev : option N) (s : text)
  : option (list (nat * text)) :=
  match run r (MState prev s []) with
  | st :: _ => Some (m_caps st)
  | [] =>
      match s with
      | [] => None
      | c :: t => search_from r (Some c) t
      end
  end.

Definition search (r : regex) (s : text) : option (list (nat * text)) :=
  search_from r None s.

(** [if pattern.search(s):] *)
Definition matches (r : regex) (s : text) : bool :=
  match search r s with Some _ => true | None => false end.

End Matcher.

End Re.

Import Re.

(* ================================================================== *)
(** ** [MessageProcessor]: the compiled patterns *)

Module Patterns.

Local Open Scope string_scope.

Definition sp := Star Space.      (* \s* *)
Definition sp1 := Plus Space.     (* \s+ *)
Definition chr (s : string) : cset :=
  match txt s with c :: _ => Lit c | [] => Lit 0 end.

(** Group [n] holding a number: one or more digits, an optional point,
    any number of digits. *)
Definition NUM (n : nat) : regex := Grp n number.

Definition words (ws : list string) : regex := alt (map word ws).

Definition BUY_PATTERN : regex :=
  seq [WordB; Grp 1 (words ["buy"; "long"; "bullish"; "compra"; "largo"]); WordB].

Definition SELL_PATTERN : regex :=
  seq [WordB; Grp 1 (words ["sell"; "short"; "bearish"; "venta"; "corto"]); WordB].

(** The dictionary, in insertion order (the order in which [items()]
    yields it). *)
Definition TRADE_TYPE_PATTERNS : list (string * regex) :=
  [ ("buy", BUY_PATTERN); ("sell", SELL_PATTERN) ].

Definition IMMEDIATE_PATTERNS : list regex :=
  [ seq [WordB; Grp 1 (words ["buy"; "sell"]); sp1;
         Grp 2 (words ["gold"; "xauusd"]); sp1; word "now"; WordB];
    seq [WordB; word "gold"; sp1; Grp 1 (words ["buy"; "sell"]); sp1;
         word "now"; WordB];
    seq [WordB; word "scalping"; sp1; Grp 1 (words ["buy"; "sell"]); WordB];
    seq [WordB; word "let"; Opt (chr "s"); sp1; word "scalping"; WordB] ].

Definition RANGE_PATTERNS : list regex :=
  [ seq [word "@"; sp; NUM 1; sp; word "-"; sp; NUM 2];
    seq [word "gold"; sp; word "@"; sp; NUM 1; sp; word "-"; sp; NUM 2] ].

Definition ENTRY_PATTERNS : list regex :=
  [ seq [word "@"; sp; NUM 1];
    seq [alt [word "entry"; word "enter"]; sp; Opt (chr ":"); sp; NUM 1];
    seq [word "gold"; sp; word "@"; sp; NUM 1] ].

Definition SL_PATTERNS : list regex :=
  [ seq [alt [word "sl"; seq [word "stop"; sp; word "loss"]; word "stop"];
         sp; Opt (chr ":"); sp; NUM 1];
    seq [One (chr "s"); Opt (chr "."); One (chr "l"); Opt (chr ".");
         sp; Opt (chr ":"); sp; NUM 1] ].

Definition TP_PATTERNS : list regex :=
  [ seq [alt [word "tp"; seq [word "take"; sp; word "profit"]; word "target"];
         sp; Opt (chr "1"); sp; Opt (chr ":"); sp; NUM 1];
    seq [word "tp1"; sp; Opt (chr ":"); sp; NUM 1] ].

Definition to_at : regex := alt [word "to"; word "at"].

Definition SL_UPDATE_PATTERNS : list regex :=
  [ seq [word "move"; sp1; word "sl"; sp1; to_at; sp1; NUM 1];
    seq [word "update"; sp1; word "sl"; sp1; to_at; sp1; NUM 1];
    seq [word "sl"; sp1; to_at; sp1; NUM 1];
    seq [word "new"; sp1; word "sl"; sp1; alt [word "to"; word "at"; word "is"];
         sp1; NUM 1];
    seq [word "change"; sp1; word "sl"; sp1; to_at; sp1; NUM 1] ].

End Patterns.

(* ================================================================== *)
(** ** [TradeParams] *)

Local Open Scope string_scope.
Local Open Scope list_scope.

Record TradeParams := {
  trade_type : string;                      (* 'buy' or 'sell' *)
  entry_price : option float;
  entry_range : option (float * float);
  stop_loss : float;
  take_profit : option float;
  raw_message : text
}.

Definition is_range_entry (self : TradeParams) : bool :=
  match entry_range self with Some _ => true | None => false end.

(** [TradeParams.get_pending_price].  The result is [None] when the method
    returns the [None] held by [entry_price]. *)
Definition get_pending_price (self : TradeParams) (entry_strategy : text)
           (central_zone : float) : option float :=
  match entry_range self with
  | Some (min_p, max_p) =>
      let price :=
        if PyStr.text_eqb entry_strategy (txt "auto") then
          if trade_type self =? "buy" then min_p else max_p
        else
          let base := PyStr.lower (PyStr.strip entry_strategy) in
          if PyStr.text_eqb base (txt "min") then
            if trade_type self =? "buy" then min_p else max_p
          else if PyStr.text_eqb base (txt "max") then
            if trade_type self =? "buy" then max_p else min_p
          else
            if trade_type self =? "buy" then min_p else max_p in
      let price :=
        if Float64.nonzero central_zone then
          if trade_type self =? "buy" then Float64.add price central_zone
          else Float64.sub price central_zone
        else price in
      Some price
  | None => entry_price self
  end.

Record PendingOrder := {
  ticket : Z;
  po_symbol : string;
  po_trade_type : string;
  po_entry_price : float;
  po_stop_loss : float;
  po_take_profit : float;
  po_volume : float;
  timestamp : Z;
  is_activated : bool
}.

(* ================================================================== *)
(** ** [MessageProcessor] *)

Section MessageProcessor.

Variable unicode_isalnum : N -> bool.

Let search := Re.search unicode_isalnum.
Let matches := Re.matches unicode_isalnum.

Definition is_immediate_execution_message (message : text) : bool :=
  existsb (fun pattern => matches pattern message) Patterns.IMMEDIATE_PATTERNS.

(** [float(match.group(n))]; [None] is the exception the conversion
    raises.  In every pattern this is used with, group [n] takes part in
    every match and holds a decimal literal, so the conversion always
    succeeds (lemma [captured_number_converts] below). *)
Definition float_of_group (n : nat) (caps : list (nat * text)) : option float :=
  match group n caps with
  | Some g => PyStr.float_of_str g
  | None => None
  end.

(** The loop shared by [is_sl_update_message], [_extract_stop_loss],
    [_extract_take_profit] and the single-price part of
    [_extract_entry_price]: the first pattern, in list order, that matches
    and whose group 1 converts. *)
Fixpoint first_float (patterns : list regex) (message : text) : option float :=
  match patterns with
  | [] => None
  | pattern :: rest =>
      match search pattern message with
      | Some caps =>
          match float_of_group 1 caps with
          | Some v => Some v
          | None => first_float rest message
          end
      | None => first_float rest message
      end
  end.

Definition is_sl_update_message (message : text) : option float :=
  first_float Patterns.SL_UPDATE_PATTERNS message.

(** The loop of [_detect_trade_type] over the items of the dictionary. *)
Fixpoint detect_in (patterns : list (string * regex)) (message : text)
  : option string :=
  match patterns with
  | [] => None
  | (trade_type, pattern) :: rest =>
      if matches pattern message then Some trade_type
      else detect_in rest message
  end.

Definition _detect_trade_type (message : text) : option string :=
  detect_in Patterns.TRADE_TYPE_PATTERNS message.

(** The dictionaries returned by [_extract_entry_price]. *)
Inductive EntryData :=
| EntryRange (min_price max_price : float)
| EntrySingle (price : float).

(** The loop over [RANGE_PATTERNS] of [_extract_entry_price]. *)
Fixpoint first_range (patterns : list regex) (message : text) : option EntryData :=
  match patterns with
  | [] => None
  | pattern :: rest =>
      match search pattern message with
      | Some caps =>
          match float_of_group 1 caps, float_of_group 2 caps with
          | Some price1, Some price2 =>
              Some (EntryRange (Float64.py_min price1 price2)
                               (Float64.py_max price1 price2))
          | _, _ => first_range rest message
          end
      | None => first_range rest message
      end
  end.

Definition _extract_entry_price (message : text) : option EntryData :=
  match first_range Patterns.RANGE_PATTERNS message with
  | Some d => Some d
  | None =>
      match first_float Patterns.ENTRY_PATTERNS message with
      | Some price => Some (EntrySingle price)
      | None => None
      end
  end.

Definition _extract_stop_loss (message : text) : option float :=
  first_float Patterns.SL_PATTERNS message.

Definition _extract_take_profit (message : text) : option float :=
  first_float Patterns.TP_PATTERNS message.

(** [not x] for an [Optional[float]]. *)
Definition falsy (x : option float) : bool :=
  match x with
  | None => true
  | Some v => negb (Float64.truthy v)
  end.

Definition extract_parameters (message : text) : option TradeParams :=
  match message with
  | [] => None
  | _ =>
      if is_immediate_execution_message message then None
      else
        match _detect_trade_type message with
        | None => None
        | Some trade_type =>
            let entry_data := _extract_entry_price message in
            let stop_loss := _extract_stop_loss message in
            let take_profit := _extract_take_profit message in
            match entry_data, stop_loss with
            | Some entry_data, Some sl =>
                if falsy stop_loss then None
                else
                  match entry_data with
                  | EntryRange min_price max_price =>
                      Some {| trade_type := trade_type;
                              entry_price := None;
                              entry_range := Some (min_price, max_price);
                              stop_loss := sl;
                              take_profit := take_profit;
                              raw_message := message |}
                  | EntrySingle price =>
                      Some {| trade_type := trade_type;
                              entry_price := Some price;
                              entry_range := None;
                              stop_loss := sl;
                              take_profit := take_profit;
                              raw_message := message |}
                  end
            | _, _ => None
            end
        end
  end.

End MessageProcessor.

(* ================================================================== *)
(** ** The MetaTrader 5 terminal *)

Module MT5.

Inductive order_type :=
| ORDER_TYPE_BUY_LIMIT
| ORDER_TYPE_SELL_LIMIT
| ORDER_TYPE_BUY_STOP
| ORDER_TYPE_SELL_STOP.

Definition TRADE_RETCODE_DONE : Z := 10009.

(** The three request dictionaries the manager builds, by their
    ["action"]. *)
Inductive request :=
| TRADE_ACTION_PENDING (symbol : string) (volume : float) (type : order_type)
    (price sl tp : float) (deviation magic : Z) (comment : string)
    (expiration : Z)
| TRADE_ACTION_SLTP (symbol : string) (position : Z) (sl tp : float)
| TRADE_ACTION_MODIFY (order : Z) (symbol : string) (price sl tp : float).

Record OrderSendResult := {
  retcode : Z;
  order : Z;
  result_comment : string
}.

Record Tick := { bid : float; ask : float }.

Record SymbolInfo := {
  volume_min : float;
  trade_tick_value : float;
  trade_tick_size : float
}.

Record TradePosition := {
  pos_ticket : Z;
  pos_symbol : string;
  pos_tp : float
}.

Record TradeOrder := {
  ord_ticket : Z;
  ord_symbol : string;
  ord_price_open : float;
  ord_tp : float
}.

(** What the terminal answers.  A query that returns [None] or an empty
    tuple is the empty list; [order_send] returning [None] is [None];
    [now] is [datetime.now()] in seconds.  The answers are those of one
    moment: they do not change during a call of a method of the manager,
    and the functions of the package do not raise. *)
Record terminal := {
  symbol_info_tick : string -> option Tick;
  symbol_info : string -> option SymbolInfo;
  positions_get_symbol : string -> list TradePosition;
  orders_get_symbol : string -> list TradeOrder;
  positions_get_ticket : Z -> list TradePosition;
  orders_get_ticket : Z -> list TradeOrder;
  order_send : request -> option OrderSendResult;
  now : Z
}.

End MT5.

Import MT5.

(* ================================================================== *)
(** ** [MT5Manager] *)

(** The keys of [trading_config] the modelled methods read; a key that is
    absent from the JSON file is [None]. *)
Record TradingConfig := {
  cfg_symbol : string;
  cfg_target_profit_usd : float;
  cfg_entry_strategy : option text;
  cfg_central_zone : option float
}.

(** [dict.get(key, default)] *)
Definition get {A : Type} (v : option A) (default : A) : A :=
  match v with Some x => x | None => default end.

Record MT5Manager := {
  trading_config : TradingConfig;
  symbol : string;
  target_profit : float;
  pending_orders : list PendingOrder
}.

(** [MT5Manager.__init__] *)
Definition MT5Manager_init (trading_config : TradingConfig) : MT5Manager :=
  {| trading_config := trading_config;
     symbol := cfg_symbol trading_config;
     target_profit := cfg_target_profit_usd trading_config;
     pending_orders := [] |}.

(** The manager and the requests passed to [mt5.order_send] so far,
    oldest first. *)
Record State := {
  self : MT5Manager;
  sent : list request
}.

Definition M (A : Type) : Type := State -> A * State.

Definition ret {A : Type} (x : A) : M A := fun s => (x, s).

Definition bind {A B : Type} (m : M A) (f : A -> M B) : M B :=
  fun s => let '(x, s') := m s in f x s'.

Notation "x <- m ;; k" := (bind m (fun x => k))
  (at level 61, m at next level, right associativity).
Notation "m ;;; k" := (bind m (fun _ => k))
  (at level 61, right associativity).

Definition read {A : Type} (f : MT5Manager -> A) : M A := fun s => (f (self s), s).

Definition set_pending_orders (l : list PendingOrder) : M unit :=
  fun s =>
    (tt, {| self := {| trading_config := trading_config (self s);
                       symbol := symbol (self s);
                       target_profit := target_profit (self s);
                       pending_orders := l |};
            sent := sent s |}).

Section Manager.

Variable mt5 : terminal.

(** [mt5.order_send(request)] *)
Definition send (req : request) : M (option OrderSendResult) :=
  fun s => (order_send mt5 req, {| self := self s; sent := sent s ++ [req] |}).

Definition get_current_price : M (option (float * float)) :=
  sym <- read symbol ;;
  ret (match symbol_info_tick mt5 sym with
       | Some tick => Some (bid tick, ask tick)
       | None => None
       end).

Definition f_0_01 : float := Eval vm_compute in Float64.of_decimal false 1 2.
Definition f_1_0 : float := Eval vm_compute in Float64.of_N 1.

Definition get_minimum_volume : M float :=
  sym <- read symbol ;;
  ret (match symbol_info mt5 sym with
       | Some info => volume_min info
       | None => f_0_01
       end).

(** [x or d] on floats. *)
Definition or_else (x d : float) : float := if Float64.truthy x then x else d.

(** The price distance of [calculate_tp_for_profit]:
    [(target_profit * tick_size) / (tick_value * volume)]; [None] is
    [ZeroDivisionError]. *)
Definition points_needed (target : float) (info : SymbolInfo) (volume : float)
  : option float :=
  let tick_value := or_else (trade_tick_value info) f_1_0 in
  let tick_size := or_else (trade_tick_size info) f_0_01 in
  Float64.div (Float64.mul target tick_size) (Float64.mul tick_value volume).

(** [entry_price + points_needed] for a buy, [entry_price - points_needed]
    otherwise. *)
Definition tp_at (trade_type : string) (entry_price points : float) : float :=
  if trade_type =? "buy" then Float64.add entry_price points
  else Float64.sub entry_price points.

(** [calculate_tp_for_profit]; [entry_price] is [None] when the caller
    passes [None].  The exceptions of the body ([ZeroDivisionError],
    [TypeError] on [None]) are caught by the method and give [None]. *)
Definition calculate_tp_for_profit (entry_price : option float)
           (trade_type : string) (volume : float) : M (option float) :=
  sym <- read symbol ;;
  target <- read target_profit ;;
  match symbol_info mt5 sym with
  | None => ret None
  | Some info =>
      match points_needed target info volume with
      | None => ret None
      | Some points =>
          match entry_price with
          | None => ret None
          | Some entry_price => ret (Some (tp_at trade_type entry_price points))
          end
      end
  end.

(** The block [if pending_price is None:] of [place_pending_order]. *)
Definition resolve_pending_price (cfg : TradingConfig) (trade_params : TradeParams)
           (pending_price : option float) : option float :=
  match pending_price with
  | None =>
      let entry_strategy := get (cfg_entry_strategy cfg) (txt "auto") in
      let central_zone := get (cfg_central_zone cfg) Float64.zero in
      get_pending_price trade_params entry_strategy central_zone
  | Some p => Some p
  end.

(** The choice of the pending-order type in [place_pending_order]. *)
Definition pending_order_type (trade_type : string)
           (pending_price current_price : float) : order_type :=
  if trade_type =? "buy" then
    if Float64.ltb pending_price current_price
    then ORDER_TYPE_BUY_LIMIT else ORDER_TYPE_BUY_STOP
  else
    if Float64.gtb pending_price current_price
    then ORDER_TYPE_SELL_LIMIT else ORDER_TYPE_SELL_STOP.

(** The request dictionary of [place_pending_order]; the expiration is
    four hours after [now]. *)
Definition pending_request (sym : string) (volume : float) (type : order_type)
           (pending_price sl tp : float) : request :=
  TRADE_ACTION_PENDING sym volume type pending_price sl tp
                       20 234007 "XAU Bot v5.1 Pending" (now mt5 + 4 * 3600).

Definition place_pending_order (trade_params : TradeParams)
           (pending_price : option float) : M bool :=
  prices <- get_current_price ;;
  match prices with
  | None => ret false
  | Some (bid, ask) =>
      let current_price := if trade_type trade_params =? "buy" then ask else bid in
      volume <- get_minimum_volume ;;
      cfg <- read trading_config ;;
      let pending_price := resolve_pending_price cfg trade_params pending_price in
      tp <- calculate_tp_for_profit pending_price (trade_type trade_params) volume ;;
      match pending_price, tp with
      | Some pending_price, Some tp =>
          if negb (Float64.truthy tp) then ret false
          else
            let order_type :=
              pending_order_type (trade_type trade_params)
                                 pending_price current_price in
            sym <- read symbol ;;
            let request :=
              pending_request sym volume order_type pending_price
                              (stop_loss trade_params) tp in
            result <- send request ;;
            match result with
            | None => ret false
            | Some result =>
                if negb (retcode result =? TRADE_RETCODE_DONE)%Z then ret false
                else
                  let pending_order :=
                    {| ticket := order result;
                       po_symbol := sym;
                       po_trade_type := trade_type trade_params;
                       po_entry_price := pending_price;
                       po_stop_loss := stop_loss trade_params;
                       po_take_profit := tp;
                       po_volume := volume;
                       timestamp := now mt5;
                       is_activated := false |} in
                  orders <- read pending_orders ;;
                  set_pending_orders (orders ++ [pending_order]) ;;;
                  ret true
            end
      | _, _ => ret false
      end
  end.

(** [result and result.retcode == mt5.TRADE_RETCODE_DONE] *)
Definition done (result : option OrderSendResult) : bool :=
  match result with
  | Some r => (retcode r =? TRADE_RETCODE_DONE)%Z
  | None => false
  end.

(** The requests the terminal answers with [TRADE_RETCODE_DONE]. *)
Definition accepted (req : request) : bool := done (order_send mt5 req).

(** The request built for an open position: new [sl], its own [tp]. *)
Definition sltp_request (new_sl : float) (pos : TradePosition) : request :=
  TRADE_ACTION_SLTP (pos_symbol pos) (pos_ticket pos) new_sl (pos_tp pos).

(** The request built for a working order: its own open price, new [sl],
    its own [tp]. *)
Definition modify_request (new_sl : float) (order : TradeOrder) : request :=
  TRADE_ACTION_MODIFY (ord_ticket order) (ord_symbol order)
                      (ord_price_open order) new_sl (ord_tp order).

(** The loop over the open positions; the result is [updated_count]. *)
Fixpoint update_positions (new_sl : float) (positions : list TradePosition)
         (updated_count : nat) : M nat :=
  match positions with
  | [] => ret updated_count
  | pos :: rest =>
      result <- send (sltp_request new_sl pos) ;;
      update_positions new_sl rest
        (if done result then S updated_count else updated_count)
  end.

(** The loop over the working orders. *)
Fixpoint update_orders (new_sl : float) (orders : list TradeOrder)
         (updated_count : nat) : M nat :=
  match orders with
  | [] => ret updated_count
  | order :: rest =>
      result <- send (modify_request new_sl order) ;;
      update_orders new_sl rest
        (if done result then S updated_count else updated_count)
  end.

Definition update_pending_order_sl (new_sl : float) : M bool :=
  sym <- read symbol ;;
  updated_count <- update_positions new_sl (positions_get_symbol mt5 sym) 0 ;;
  sym <- read symbol ;;
  updated_count <- update_orders new_sl (orders_get_symbol mt5 sym) updated_count ;;
  ret (0 <? updated_count)%nat.

(** [if x:] on the tuple a query returns. *)
Definition nonempty {A : Type} (l : list A) : bool :=
  match l with [] => false | _ => true end.

Definition activate (o : PendingOrder) : PendingOrder :=
  {| ticket := ticket o;
     po_symbol := po_symbol o;
     po_trade_type := po_trade_type o;
     po_entry_price := po_entry_price o;
     po_stop_loss := po_stop_loss o;
     po_take_profit := po_take_profit o;
     po_volume := po_volume o;
     timestamp := timestamp o;
     is_activated := true |}.

(** What one turn of the loop of [cleanup_expired_orders] appends to
    [active_orders]. *)
Definition swept (pending_order : PendingOrder) : list PendingOrder :=
  let order_info := orders_get_ticket mt5 (ticket pending_order) in
  let position_info := positions_get_ticket mt5 (ticket pending_order) in
  if nonempty order_info || nonempty position_info then
    [if nonempty position_info then activate pending_order else pending_order]
  else [].

(** The loop of [cleanup_expired_orders]; the result is [active_orders]. *)
Fixpoint sweep (orders : list PendingOrder) (active_orders : list PendingOrder)
  : list PendingOrder :=
  match orders with
  | [] => active_orders
  | pending_order :: rest =>
      let order_info := orders_get_ticket mt5 (ticket pending_order) in
      let position_info := positions_get_ticket mt5 (ticket pending_order) in
      if nonempty order_info || nonempty position_info then
        let pending_order :=
          if nonempty position_info then activate pending_order
          else pending_order in
        sweep rest (active_orders ++ [pending_order])
      else sweep rest active_orders
  end.

Definition cleanup_expired_orders : M unit :=
  orders <- read pending_orders ;;
  set_pending_orders (sweep orders []).

End Manager.

(* ================================================================== *)
(** ** [TradingBot] *)

(** What one call of [_process_message] did. *)
Inductive outcome :=
| SlUpdate (new_sl : float) (success : bool)
    (* the SL-update branch: [update_pending_order_sl] was called *)
| NotActionable
    (* [extract_parameters] returned [None] *)
| NewOrder (trade_params : TradeParams) (pending_price : float) (success : bool)
    (* [place_pending_order] was called *)
| Raised (trade_params : TradeParams).
    (* an exception reached the handler of the method, which logs it:
       [pending_price] is assigned in the range branch only, so the call of
       [place_pending_order] for a single-price entry is an
       [UnboundLocalError] *)

Section TradingBot.

Variable unicode_isalnum : N -> bool.
Variable mt5 : terminal.

Definition _process_message (message : text) : M outcome :=
  let new_order : M outcome :=
    match extract_parameters unicode_isalnum message with
    | None => ret NotActionable
    | Some trade_params =>
        cfg <- read trading_config ;;
        let entry_strategy := get (cfg_entry_strategy cfg) (txt "auto") in
        let central_zone := get (cfg_central_zone cfg) Float64.zero in
        if is_range_entry trade_params then
          match get_pending_price trade_params entry_strategy central_zone with
          | Some pending_price =>
              success <- place_pending_order mt5 trade_params (Some pending_price) ;;
              ret (NewOrder trade_params pending_price success)
          | None => ret (Raised trade_params)
          end
        else ret (Raised trade_params)
    end in
  match is_sl_update_message unicode_isalnum message with
  | Some new_sl =>
      if Float64.truthy new_sl then
        success <- update_pending_order_sl mt5 new_sl ;;
        ret (SlUpdate new_sl success)
      else new_order
  | None => new_order
  end.

End TradingBot.


(* ================================================================== *)
(** ** [ConfigManager] *)

(** The dictionary [json.load] returns, as a list of keys with their
    values; a key is looked up from the front. *)
Definition Config (V : Type) : Type := list (string * V).

Fixpoint config_get {V : Type} (key : string) (config : Config V) : option V :=
  match config with
  | [] => None
  | (k, v) :: rest => if k =? key then Some v else config_get key rest
  end.

(** [section in config] *)
Definition config_has {V : Type} (key : string) (config : Config V) : bool :=
  match config_get key config with Some _ => true | None => false end.

Definition required_sections : list string := ["telegram"; "mt5"; "trading"].

(** The loop over [required_sections]: the first section that is not in
    [config], if there is one. *)
Fixpoint first_missing {V : Type} (sections : list string) (config : Config V)
  : option string :=
  match sections with
  | [] => None
  | section :: rest =>
      if negb (config_has section config) then Some section
      else first_missing rest config
  end.

(** [ConfigManager._load_config] on the dictionary read from the file.  The
    left side is the [ValueError] raised for a missing section, with the
    name of the section. *)
Definition _load_config {V : Type} (config : Config V) : string + Config V :=
  match first_missing required_sections config with
  | Some section => inl section
  | None => inr config
  end.

(** The properties [telegram], [mt5] and [trading]: [self._config[key]];
    [None] is [KeyError]. *)
Definition config_telegram {V : Type} (config : Config V) : option V :=
  config_get "telegram" config.
Definition config_mt5 {V : Type} (config : Config V) : option V :=
  config_get "mt5" config.
Definition config_trading {V : Type} (config : Config V) : option V :=
  config_get "trading" config.

(* ================================================================== *)
(** ** [TelegramManager] *)

(** A message as the client returns it: its identifier, an [int], with
    [None] for a message that has no attribute [id]; and the three
    attributes its content is read from, a [str] each, with [None] for one
    that is missing or [None]. *)
Record Message := {
  msg_id : option Z;
  msg_message : option text;
  msg_text : option text;
  msg_raw_text : option text
}.

(** [if s:] for an optional [str]. *)
Definition nonempty_text (s : option text) : bool :=
  match s with Some (_ :: _) => true | _ => false end.

(** The content [get_new_messages] reads from a message: [message], else
    [text], else [raw_text]. *)
Definition content_of (msg : Message) : option text :=
  if nonempty_text (msg_message msg) then msg_message msg
  else if nonempty_text (msg_text msg) then msg_text msg
  else msg_raw_text msg.

Record TelegramManager := {
  client_connected : bool;     (* [self.client and self.client.is_connected()] *)
  last_message_id : Z
}.

(** [mid and mid > self.last_message_id and content] *)
Definition is_new (last : Z) (msg : Message) : bool :=
  match msg_id msg with
  | Some mid => negb (mid =? 0)%Z && (last <? mid)%Z && nonempty_text (content_of msg)
  | None => false
  end.

(** The loop of [get_new_messages] over the messages, oldest first; the
    result is [new_messages] and [self.last_message_id]. *)
Fixpoint collect (messages : list Message) (last : Z) (new_messages : list text)
  : list text * Z :=
  match messages with
  | [] => (new_messages, last)
  | msg :: rest =>
      if is_new last msg then
        collect rest (get (msg_id msg) 0%Z)
                (new_messages ++ [get (content_of msg) []])
      else collect rest last new_messages
  end.

(** [TelegramManager.get_new_messages]; [fetched] is what
    [client.get_messages(limit=5)] returned, newest first (the empty list
    when it returned nothing or raised). *)
Definition get_new_messages (fetched : list Message) (self : TelegramManager)
  : list text * TelegramManager :=
  if negb (client_connected self) then ([], self)
  else
    let '(new_messages, last) := collect (rev fetched) (last_message_id self) [] in
    (new_messages,
     {| client_connected := client_connected self; last_message_id := last |}).

(** [TelegramManager._initialize_message_id]; [fetched] is what
    [client.get_messages(limit=1)] returned. *)
Definition _initialize_message_id (fetched : list Message) (self : TelegramManager)
  : TelegramManager :=
  {| client_connected := client_connected self;
     last_message_id :=
       match fetched with
       | msg :: _ => get (msg_id msg) 0%Z
       | [] => 0%Z
       end |}.

(** The messages the loop of [get_new_messages] takes, oldest first. *)
Fixpoint taken (messages : list Message) (last : Z) : list Message :=
  match messages with
  | [] => []
  | msg :: rest =>
      if is_new last msg then msg :: taken rest (get (msg_id msg) 0%Z)
      else taken rest last
  end.

(** Identifiers in strictly increasing order, all above [last]. *)
Fixpoint increasing_from (last : Z) (ids : list Z) : Prop :=
  match ids with
  | [] => True
  | i :: rest => (last < i)%Z /\ increasing_from i rest
  end.

(* ================================================================== *)
(** ** [TradingBot._main_loop] *)

Section MainLoop.

Variable unicode_isalnum : N -> bool.

(** What the terminal answers while the [k]-th new message of a turn is
    processed. *)
Variable answers : nat -> terminal.

(** [for message in new_messages: self._process_message(message)] *)
Fixpoint process_messages (k : nat) (new_messages : list text) : M (list outcome) :=
  match new_messages with
  | [] => ret []
  | message :: rest =>
      o <- _process_message unicode_isalnum (answers k) message ;;
      os <- process_messages (S k) rest ;;
      ret (o :: os)
  end.

(** One turn of the loop of [_main_loop]: fetch the new messages, process
    each one. *)
Definition main_loop_turn (fetched : list Message)
           (bot : TelegramManager * State)
  : list outcome * (TelegramManager * State) :=
  let '(new_messages, telegram) := get_new_messages fetched (fst bot) in
  let '(outcomes, manager) := process_messages 0 new_messages (snd bot) in
  (outcomes, (telegram, manager)).

End MainLoop.

(** The ["sl"] of a request. *)
Definition request_sl (req : request) : float :=
  match req with
  | TRADE_ACTION_PENDING _ _ _ _ sl _ _ _ _ _ => sl
  | TRADE_ACTION_SLTP _ _ sl _ => sl
  | TRADE_ACTION_MODIFY _ _ _ sl _ => sl
  end.

(** [s'] is [s] with the same configuration, symbol and target profit,
    with requests added to the ones sent, and with at most [n] orders added
    to the registry, none of them activated. *)
Definition extends (n : nat) (s s' : State) : Prop :=
  trading_config (self s') = trading_config (self s) /\
  symbol (self s') = symbol (self s) /\
  target_profit (self s') = target_profit (self s) /\
  (exists requests, sent s' = sent s ++ requests) /\
  (exists orders,
      pending_orders (self s') = pending_orders (self s) ++ orders /\
      (List.length orders <= n)%nat /\
      Forall (fun o => is_activated o = false) orders).

(* ================================================================== *)
(** ** Texts with the letters A-Z replaced by a-z *)

Definition lower_caps (caps : list (nat * text)) : list (nat * text) :=
  map (fun p => (fst p, PyStr.lower (snd p))) caps.

Definition lower_state (st : mstate) : mstate :=
  MState (option_map PyStr.lower_char (m_prev st))
         (PyStr.lower (m_rest st))
         (lower_caps (m_caps st)).

(** [trade_params] with another [raw_message]. *)
Definition with_raw_message (trade_params : TradeParams) (message : text)
  : TradeParams :=
  {| trade_type := trade_type trade_params;
     entry_price := entry_price trade_params;
     entry_range := entry_range trade_params;
     stop_loss := stop_loss trade_params;
     take_profit := take_profit trade_params;
     raw_message := message |}.

(* ================================================================== *)
(** ** Characters a pattern cannot match without *)

(** [needs c r]: every match of [r] consumes the character [c], because a
    literal [c] that is no letter stands on every path through [r]. *)
Fixpoint needs (c : N) (r : regex) : bool :=
  match r with
  | One (Lit p) | Plus (Lit p) =>
      (p =? c)%N && negb (PyStr.islower_ascii (PyStr.lower_char p))
  | Cat r1 r2 => needs c r1 || needs c r2
  | Alt r1 r2 => needs c r1 && needs c r2
  | Grp _ r1 => needs c r1
  | _ => false
  end.

(* ================================================================== *)
(** ** Concrete inputs used by the examples *)

(** A table with no alphanumeric code point above 127.  The example
    messages are ASCII; the matcher never consults the table on them. *)
Definition ascii_table : N -> bool := fun _ => false.

Definition example_config : TradingConfig :=
  {| cfg_symbol := "XAUUSD";
     cfg_target_profit_usd := Float64.of_N 10;
     cfg_entry_strategy := Some (txt "auto");
     cfg_central_zone := Some Float64.zero |}.

Definition example_state : State :=
  {| self := MT5Manager_init example_config; sent := [] |}.

Definition example_result : OrderSendResult :=
  {| retcode := TRADE_RETCODE_DONE; order := 77; result_comment := "Done" |}.

(** Bid 1899.5, ask 1900; minimum volume 0.01, tick value 1, tick size
    0.01; no open ticket; every request accepted. *)
Definition example_terminal : terminal :=
  {| symbol_info_tick := fun _ =>
       Some {| bid := Float64.of_decimal false 18995 1;
               ask := Float64.of_N 1900 |};
     symbol_info := fun _ =>
       Some {| volume_min := Float64.of_decimal false 1 2;
               trade_tick_value := Float64.of_N 1;
               trade_tick_size := Float64.of_decimal false 1 2 |};
     positions_get_symbol := fun _ => [];
     orders_get_symbol := fun _ => [];
     positions_get_ticket := fun _ => [];
     orders_get_ticket := fun _ => [];
     order_send := fun _ => Some example_result;
     now := 1700000000 |}.

(** One open position (ticket 11) and one working order (ticket 12) on the
    symbol; the order is also reported by ticket, the position is not:
    ticket 11 was not placed by the bot. *)
Definition example_position : TradePosition :=
  {| pos_ticket := 11; pos_symbol := "XAUUSD"; pos_tp := Float64.of_N 1950 |}.

Definition example_order : TradeOrder :=
  {| ord_ticket := 12; ord_symbol := "XAUUSD";
     ord_price_open := Float64.of_N 1900; ord_tp := Float64.of_N 1910 |}.

Definition with_tickets (answer : request -> option OrderSendResult) : terminal :=
  {| symbol_info_tick := symbol_info_tick example_terminal;
     symbol_info := symbol_info example_terminal;
     positions_get_symbol := fun _ => [example_position];
     orders_get_symbol := fun _ => [example_order];
     positions_get_ticket := fun t => if (t =? 11)%Z then [example_position] else [];
     orders_get_ticket := fun t => if (t =? 12)%Z then [example_order] else [];
     order_send := answer;
     now := now example_terminal |}.

(** Every request accepted. *)
Definition accepting_terminal : terminal := with_tickets (fun _ => Some example_result).

(** No request answered. *)
Definition silent_terminal : terminal := with_tickets (fun _ => None).

(** A registry of three tracked orders: ticket 11 is reported as a
    position, ticket 12 as a working order, ticket 13 is not reported. *)
Definition tracked (t : Z) : PendingOrder :=
  {| ticket := t; po_symbol := "XAUUSD"; po_trade_type := "buy";
     po_entry_price := Float64.of_N 1900; po_stop_loss := Float64.of_N 1890;
     po_take_profit := Float64.of_N 1910;
     po_volume := Float64.of_decimal false 1 2;
     timestamp := 1699990000; is_activated := false |}.

Definition example_registry : State :=
  {| self := {| trading_config := example_config;
                symbol := "XAUUSD";
                target_profit := Float64.of_N 10;
                pending_orders := [tracked 11; tracked 12; tracked 13] |};
     sent := [] |}.

(** The message of the end-to-end scenario and the intent it yields.  The
    take-profit hint is 950: in the first pattern of [TP_PATTERNS] the
    optional [1] that stands for the label TP1 takes the first digit of
    1950. *)
Definition scenario_message : text := txt "GOLD BUY @1900-1920 SL 1890 TP 1950".

Definition scenario_intent : TradeParams :=
  {| trade_type := "buy";
     entry_price := None;
     entry_range := Some (Float64.of_N 1900, Float64.of_N 1920);
     stop_loss := Float64.of_N 1890;
     take_profit := Some (Float64.of_N 950);
     raw_message := scenario_message |}.

(** [trade_params] with another take-profit hint. *)
Definition with_take_profit (trade_params : TradeParams) (hint : option float)
  : TradeParams :=
  {| trade_type := trade_type trade_params;
     entry_price := entry_price trade_params;
     entry_range := entry_range trade_params;
     stop_loss := stop_loss trade_params;
     take_profit := hint;
     raw_message := raw_message trade_params |}.

(** A buy at a single price and a sell at a single price. *)
Definition buy_at (price : float) : TradeParams :=
  {| trade_type := "buy"; entry_price := Some price; entry_range := None;
     stop_loss := Float64.of_N 1890; take_profit := None; raw_message := [] |}.

Definition sell_at (price : float) : TradeParams :=
  {| trade_type := "sell"; entry_price := Some price; entry_range := None;
     stop_loss := Float64.of_N 1910; take_profit := None; raw_message := [] |}.

(** A message of the channel with its identifier and its text. *)
Definition posted (mid : Z) (content : string) : Message :=
  {| msg_id := Some mid; msg_message := Some (txt content);
     msg_text := None; msg_raw_text := None |}.

Definition example_telegram : TelegramManager :=
  {| client_connected := true; last_message_id := 0 |}.

(* ================================================================== *)
(** * Properties *)

(** ** Floats *)

Module Float64Facts.

Import Float64.

Lemma compare_antisym (a b : float) (c : comparison) :
  SFcompare a b = Some c -> SFcompare b a = Some (CompOpp c).
Proof.
  destruct a as [sa|sa| |sa ma ea], b as [sb|sb| |sb mb eb]; simpl;
    try discriminate; intros H; inversion H; subst; clear H;
    try (destruct sa; reflexivity); try (destruct sb; reflexivity);
    try (destruct sa, sb; reflexivity).
  f_equal.
  destruct sa, sb; try reflexivity;
    rewrite (Z.compare_antisym ea eb);
    change (Pos.compare_cont Eq mb ma) with (Pos.compare mb ma);
    change (Pos.compare_cont Eq ma mb) with (Pos.compare ma mb);
    rewrite (Pos.compare_antisym ma mb);
    destruct (ea ?= eb)%Z; simpl; try reflexivity;
    destruct (ma ?= mb)%positive; reflexivity.
Qed.

Lemma ltb_leb (a b : float) : ltb a b = true -> leb a b = true.
Proof.
  unfold ltb, leb, SFltb, SFleb.
  destruct (SFcompare a b) as [[]|]; congruence.
Qed.

Lemma leb_not_gtb (a b : float) : leb a b = true -> ltb b a = false.
Proof.
  unfold ltb, leb, SFltb, SFleb.
  destruct (SFcompare a b) as [c|] eqn:E; [|discriminate].
  rewrite (compare_antisym _ _ E).
  destruct c; simpl; congruence.
Qed.

Lemma ltb_asym (a b : float) : ltb a b = true -> ltb b a = false.
Proof. intros H. apply leb_not_gtb, ltb_leb, H. Qed.

Lemma leb_refl (a : float) : nonneg a -> leb a a = true.
Proof.
  unfold leb, SFleb.
  destruct a as [s|s| |s m e]; simpl; try reflexivity; try contradiction.
  - intros ->. reflexivity.
  - intros ->. rewrite Z.compare_refl.
    change (Pos.compare_cont Eq m m) with (Pos.compare m m).
    rewrite Pos.compare_refl. reflexivity.
Qed.

Lemma positive_of_truthy (a : float) :
  nonneg a -> truthy a = true -> ltb zero a = true.
Proof.
  unfold truthy, nonzero, eqb, ltb, SFeqb, SFltb, zero.
  destruct a as [s|s| |s m e]; simpl; try discriminate; try contradiction;
    intros -> _; reflexivity.
Qed.

Lemma min_le_max (a b : float) :
  nonneg a -> nonneg b -> leb (py_min a b) (py_max a b) = true.
Proof.
  intros Ha Hb. unfold py_min, py_max, gtb.
  change (SFltb a b) with (ltb a b).
  destruct (ltb b a) eqn:E1.
  - rewrite (ltb_asym _ _ E1). apply ltb_leb, E1.
  - destruct (ltb a b) eqn:E2.
    + apply ltb_leb, E2.
    + apply leb_refl, Ha.
Qed.

Lemma min_nonneg (a b : float) : nonneg a -> nonneg b -> nonneg (py_min a b).
Proof. unfold py_min. destruct (ltb b a); auto. Qed.

Lemma max_nonneg (a b : float) : nonneg a -> nonneg b -> nonneg (py_max a b).
Proof. unfold py_max. destruct (gtb b a); auto. Qed.

(** Rounding keeps the sign: a non-negative mantissa never rounds to a
    NaN or to a float of the other sign. *)

Lemma shr_1_nonneg (mrs : shr_record) :
  (0 <= shr_m mrs)%Z -> (0 <= shr_m (shr_1 mrs))%Z.
Proof.
  destruct mrs as [m r s]. destruct m as [|[p|p|]|[p|p|]]; simpl; lia.
Qed.

Lemma iter_shr_1_nonneg (p : positive) :
  forall mrs, (0 <= shr_m mrs)%Z -> (0 <= shr_m (iter_pos shr_1 p mrs))%Z.
Proof.
  induction p as [p IH|p IH|]; intros mrs H; simpl.
  - apply IH, IH, shr_1_nonneg, H.
  - apply IH, IH, H.
  - apply shr_1_nonneg, H.
Qed.

Lemma shr_fexp_nonneg (m e : Z) (l : location) :
  (0 <= m)%Z -> (0 <= shr_m (fst (shr_fexp prec emax m e l)))%Z.
Proof.
  intros H. unfold shr_fexp, shr.
  assert (H0 : (0 <= shr_m (shr_record_of_loc m l))%Z)
    by (destruct l as [|[]]; exact H).
  destruct (fexp prec emax (Zdigits2 m + e) - e)%Z; simpl; auto.
  apply iter_shr_1_nonneg, H0.
Qed.

Lemma round_nearest_even_nonneg (m : Z) (l : location) :
  (0 <= m)%Z -> (0 <= round_nearest_even m l)%Z.
Proof.
  intros H. destruct l as [|[]]; simpl; try lia.
  destruct (Z.even m); lia.
Qed.

Lemma binary_round_aux_sign (s : bool) (mx ex : Z) (lx : location) :
  (0 <= mx)%Z -> has_sign s (binary_round_aux prec emax s mx ex lx).
Proof.
  intros H. unfold binary_round_aux.
  pose proof (shr_fexp_nonneg ex lx H) as H1.
  destruct (shr_fexp prec emax mx ex lx) as [mrs' e'].
  simpl in H1.
  pose proof (round_nearest_even_nonneg (loc_of_shr_record mrs') H1) as H2.
  pose proof (shr_fexp_nonneg e' loc_Exact H2) as H3.
  destruct (shr_fexp prec emax _ e' loc_Exact) as [mrs'' e''].
  simpl in H3.
  destruct (shr_m mrs'') as [|m|m]; simpl.
  - reflexivity.
  - match goal with |- context [if ?c then _ else _] => destruct c end;
      simpl; reflexivity.
  - lia.
Qed.

Lemma div_core_nonneg (m1 m2 : positive) (e1 e2 : Z) :
  (0 <= fst (fst (SFdiv_core_binary prec emax (Zpos m1) e1 (Zpos m2) e2)))%Z.
Proof.
  unfold SFdiv_core_binary.
  set (sh := (e1 - e2 - _)%Z).
  set (m' := match sh with Zpos _ => Z.shiftl (Zpos m1) sh | Z0 => Zpos m1 | Zneg _ => 0%Z end).
  assert (Hm : (0 <= m')%Z).
  { unfold m'. destruct sh; try lia. apply Z.shiftl_nonneg. lia. }
  pose proof (Z_div_mod m' (Zpos m2) eq_refl) as Hd.
  destruct (Z.div_eucl m' (Zpos m2)) as [q r]. simpl.
  destruct Hd as [Hq Hr]. nia.
Qed.

Lemma of_decimal_sign (neg : bool) (n : N) (k : nat) :
  has_sign neg (of_decimal neg n k).
Proof.
  unfold of_decimal. destruct n as [|p]; [simpl; reflexivity|].
  unfold SFdiv.
  pose proof (div_core_nonneg p (pow10 k) 0 0) as H.
  destruct (SFdiv_core_binary prec emax (Zpos p) 0 (Zpos (pow10 k)) 0) as [[mz ez] lz].
  simpl in H. rewrite xorb_false_r.
  apply binary_round_aux_sign, H.
Qed.

Lemma of_decimal_nonneg (n : N) (k : nat) : nonneg (of_decimal false n k).
Proof.
  pose proof (of_decimal_sign false n k) as H.
  destruct (of_decimal false n k); simpl in *; auto.
Qed.

End Float64Facts.

(** ** Conversions *)

Module PyStrFacts.

Import PyStr.

Lemma digit_not_point (c : N) : isdigit_ascii c = true -> (c =? 46)%N = false.
Proof.
  unfold isdigit_ascii, in_range. intros H.
  apply andb_prop in H. destruct H as [H _]. apply N.leb_le in H.
  apply N.eqb_neq. lia.
Qed.

Lemma digit_not_sign (c : N) :
  isdigit_ascii c = true -> (c =? 45)%N = false /\ (c =? 43)%N = false.
Proof.
  unfold isdigit_ascii, in_range. intros H.
  apply andb_prop in H. destruct H as [H _]. apply N.leb_le in H.
  split; apply N.eqb_neq; lia.
Qed.

Lemma digits_value_some (ds : text) :
  all_digits ds -> forall acc, exists n, digits_value acc ds = Some n.
Proof.
  induction 1 as [|c ds Hc _ IH]; intros acc; simpl.
  - eexists. reflexivity.
  - rewrite Hc. apply IH.
Qed.

Lemma split_point_digits (d : text) :
  all_digits d ->
  forall r, split_point (d ++ r)
            = (d ++ fst (split_point r), snd (split_point r)).
Proof.
  induction 1 as [|c d Hc _ IH]; intros r; simpl.
  - destruct (split_point r). reflexivity.
  - rewrite (digit_not_point _ Hc), IH. reflexivity.
Qed.

Lemma unsigned_float_nonneg (s : text) (f : float) :
  unsigned_float false s = Some f -> Float64.nonneg f.
Proof.
  unfold unsigned_float.
  destruct (split_point s) as [ip fp].
  destruct (ip ++ _); [discriminate|].
  destruct (digits_value 0 _); [|discriminate].
  intros H. inversion H. apply Float64Facts.of_decimal_nonneg.
Qed.

(** [float] accepts every decimal literal, and the value is not negative. *)
Lemma decimal_converts (g : text) :
  decimal_shape g -> exists f, float_of_str g = Some f /\ Float64.nonneg f.
Proof.
  intros [d1 [d2 [Hne [H1 [H2 Hg]]]]].
  destruct d1 as [|c d1]; [contradiction|]. clear Hne.
  assert (Hu : exists f, unsigned_float false g = Some f).
  { unfold unsigned_float.
    assert (Hd : all_digits (c :: d1 ++ d2))
      by (apply (Forall_app _ (c :: d1) d2); split; assumption).
    destruct (digits_value_some Hd 0%N) as [n Hn].
    destruct Hg as [-> | ->].
    - rewrite (split_point_digits H1 d2).
      assert (E : split_point d2 = (d2, None)).
      { pose proof (split_point_digits H2 []) as E. rewrite !app_nil_r in E.
        exact E. }
      rewrite E. cbn [fst snd app]. rewrite app_nil_r.
      rewrite Hn. eexists. reflexivity.
    - rewrite (split_point_digits H1 (46%N :: d2)).
      cbn [split_point N.eqb Pos.eqb fst snd app]. rewrite app_nil_r.
      rewrite Hn. eexists. reflexivity. }
  destruct Hu as [f Hf]. exists f.
  split; [|eapply unsigned_float_nonneg; exact Hf].
  inversion H1; subst.
  match goal with H : isdigit_ascii c = true |- _ =>
    destruct (digit_not_sign _ H) as [E45 E43] end.
  assert (Eg : g = c :: tl g) by (destruct Hg as [-> | ->]; reflexivity).
  rewrite Eg. simpl. rewrite E45, E43. rewrite <- Eg. exact Hf.
Qed.

End PyStrFacts.

(** ** The matcher *)

Section ReFacts.

Variable unicode_isalnum : N -> bool.

Let run := Re.run unicode_isalnum.

(** [cs*] consumes characters of [cs] and keeps the captures. *)
Lemma run_star_spec (cs : cset) (rest : text) :
  forall prev caps st',
    In st' (run_star cs prev rest caps) ->
    m_caps st' = caps /\
    exists w, rest = w ++ m_rest st' /\ Forall (fun c => cset_mem cs c = true) w.
Proof.
  induction rest as [|c t IH]; intros prev caps st' H; simpl in H.
  - destruct H as [<-|[]]. simpl. split; [reflexivity|]. exists []. auto.
  - destruct (cset_mem cs c) eqn:Hc.
    + apply in_app_or in H. destruct H as [H|[<-|[]]].
      * apply IH in H. destruct H as [Hcaps [w [-> Hw]]].
        split; [exact Hcaps|]. exists (c :: w). split; [reflexivity|].
        constructor; assumption.
      * simpl. split; [reflexivity|]. exists []. auto.
    + destruct H as [<-|[]]. simpl. split; [reflexivity|]. exists []. auto.
Qed.

Lemma run_star_shrinks (cs : cset) (rest : text) (prev : option N)
      (caps : list (nat * text)) (st' : mstate) :
  In st' (run_star cs prev rest caps) ->
  List.length (m_rest st') <= List.length rest.
Proof.
  intros H. apply run_star_spec in H. destruct H as [_ [w [-> _]]].
  rewrite length_app. lia.
Qed.

Lemma run_shrinks (r : regex) :
  forall st st', In st' (run r st) ->
                 List.length (m_rest st') <= List.length (m_rest st).
Proof.
  induction r as [|cs|cs|cs|cs|r1 IH1 r2 IH2|r1 IH1 r2 IH2|n r1 IH1|];
    intros st st' H; unfold run in H; simpl in H; fold run in H.
  - destruct H as [<-|[]]. lia.
  - destruct (m_rest st) as [|c t]; [contradiction|].
    destruct (cset_mem cs c); [|contradiction].
    destruct H as [<-|[]]. simpl. lia.
  - destruct (m_rest st) as [|c t] eqn:E.
    + destruct H as [<-|[]]. rewrite E. simpl. lia.
    + destruct (cset_mem cs c).
      * destruct H as [<-|[<-|[]]]; [simpl; lia|rewrite E; simpl; lia].
      * destruct H as [<-|[]]. rewrite E. simpl. lia.
  - apply run_star_shrinks in H. exact H.
  - destruct (m_rest st) as [|c t]; [contradiction|].
    destruct (cset_mem cs c); [|contradiction].
    apply run_star_shrinks in H. simpl. lia.
  - apply in_flat_map in H. destruct H as [st1 [H1 H2]].
    apply IH1 in H1. apply IH2 in H2. lia.
  - apply in_app_or in H. destruct H as [H|H]; [apply IH1|apply IH2]; exact H.
  - apply in_map_iff in H. destruct H as [st1 [<- H1]]. simpl.
    apply IH1, H1.
  - destruct (xorb _ _); [|contradiction]. destruct H as [<-|[]]. lia.
Qed.

Lemma firstn_consumed (w r : text) :
  firstn (List.length (w ++ r) - List.length r) (w ++ r) = w.
Proof.
  rewrite length_app.
  replace (List.length w + List.length r - List.length r) with (List.length w + 0)
    by lia.
  rewrite firstn_app_2. simpl. apply app_nil_r.
Qed.

(** What [number] consumes is a decimal literal. *)
Lemma run_number (st st' : mstate) :
  In st' (run number st) ->
  m_caps st' = m_caps st /\ PyStr.decimal_shape (consumed st st').
Proof.
  intros H. unfold run, number in H; simpl in H.
  apply in_flat_map in H. destruct H as [st1 [H1 H2]].
  apply in_flat_map in H2. destruct H2 as [st2 [H2 H3]].
  unfold consumed.
  destruct (m_rest st) as [|c t] eqn:E; [contradiction|].
  destruct (PyStr.isdigit_ascii c) eqn:Hc; [|contradiction].
  apply run_star_spec in H1. destruct H1 as [Hcaps1 [w1 [Et Hw1]]].
  apply run_star_spec in H3. destruct H3 as [Hcaps3 [w2 [E2 Hw2]]].
  assert (Hopt : (st2 = st1) \/
                 (m_caps st2 = m_caps st1 /\ m_rest st1 = 46%N :: m_rest st2)).
  { destruct (m_rest st1) as [|c1 t1] eqn:E1.
    - destruct H2 as [<-|[]]. left. reflexivity.
    - destruct (lit_match 46 c1) eqn:Hl.
      + destruct H2 as [<-|[<-|[]]]; [|left; reflexivity].
        right. simpl. split; [reflexivity|].
        unfold lit_match in Hl. simpl in Hl.
        apply N.eqb_eq in Hl. subst c1. reflexivity.
      + destruct H2 as [<-|[]]. left. reflexivity. }
  destruct Hopt as [-> | [Hcaps2 E1]].
  - split; [congruence|].
    rewrite Et, E2.
    replace (c :: w1 ++ w2 ++ m_rest st') with ((c :: w1 ++ w2) ++ m_rest st')
      by (simpl; rewrite <- app_assoc; reflexivity).
    rewrite firstn_consumed.
    exists (c :: w1), w2. repeat split; try discriminate; auto.
    constructor; assumption.
  - split; [congruence|].
    rewrite Et, E1, E2.
    replace (c :: w1 ++ 46%N :: w2 ++ m_rest st')
      with ((c :: w1 ++ 46%N :: w2) ++ m_rest st')
      by (simpl; rewrite <- app_assoc; reflexivity).
    rewrite firstn_consumed.
    exists (c :: w1), w2. repeat split; try discriminate; auto.
    constructor; assumption.
Qed.

(** Captures are only ever added on top of those already made. *)
Lemma run_extends (r : regex) :
  forall st st', In st' (run r st) -> exists new, m_caps st' = new ++ m_caps st.
Proof.
  induction r as [|cs|cs|cs|cs|r1 IH1 r2 IH2|r1 IH1 r2 IH2|n r1 IH1|];
    intros st st' H; unfold run in H; simpl in H; fold run in H.
  - destruct H as [<-|[]]. exists []. reflexivity.
  - destruct (m_rest st) as [|c t]; [contradiction|].
    destruct (cset_mem cs c); [|contradiction].
    destruct H as [<-|[]]. exists []. reflexivity.
  - destruct (m_rest st) as [|c t].
    + destruct H as [<-|[]]. exists []. reflexivity.
    + destruct (cset_mem cs c).
      * destruct H as [<-|[<-|[]]]; exists []; reflexivity.
      * destruct H as [<-|[]]. exists []. reflexivity.
  - apply run_star_spec in H. exists []. apply H.
  - destruct (m_rest st) as [|c t]; [contradiction|].
    destruct (cset_mem cs c); [|contradiction].
    apply run_star_spec in H. exists []. apply H.
  - apply in_flat_map in H. destruct H as [st1 [H1 H2]].
    destruct (IH1 _ _ H1) as [n1 E1]. destruct (IH2 _ _ H2) as [n2 E2].
    exists (n2 ++ n1). rewrite E2, E1, app_assoc. reflexivity.
  - apply in_app_or in H. destruct H as [H|H]; [apply IH1|apply IH2]; exact H.
  - apply in_map_iff in H. destruct H as [st1 [<- H1]]. simpl.
    destruct (IH1 _ _ H1) as [n1 E1]. exists ((n, consumed st st1) :: n1).
    rewrite E1. reflexivity.
  - destruct (xorb _ _); [|contradiction]. destruct H as [<-|[]].
    exists []. reflexivity.
Qed.

(** Patterns without group or composition keep the captures. *)
Lemma run_atom_caps (r : regex) :
  match r with Cat _ _ | Alt _ _ | Grp _ _ => false | _ => true end = true ->
  forall st st', In st' (run r st) -> m_caps st' = m_caps st.
Proof.
  intros Hr st st' H. destruct r as [|cs|cs|cs|cs| | | |]; try discriminate;
    unfold run in H; simpl in H.
  - destruct H as [<-|[]]. reflexivity.
  - destruct (m_rest st) as [|c t]; [contradiction|].
    destruct (cset_mem cs c); [|contradiction].
    destruct H as [<-|[]]. reflexivity.
  - destruct (m_rest st) as [|c t]; [destruct H as [<-|[]]; reflexivity|].
    destruct (cset_mem cs c).
    + destruct H as [<-|[<-|[]]]; reflexivity.
    + destruct H as [<-|[]]. reflexivity.
  - apply run_star_spec in H. apply H.
  - destruct (m_rest st) as [|c t]; [contradiction|].
    destruct (cset_mem cs c); [|contradiction].
    apply run_star_spec in H. apply H.
  - destruct (xorb _ _); [|contradiction]. destruct H as [<-|[]]. reflexivity.
Qed.

Lemma run_num_only (r : regex) :
  num_only r = true ->
  forall st st', numeric_groups (m_caps st) -> In st' (run r st) ->
                 numeric_groups (m_caps st').
Proof.
  induction r as [|cs|cs|cs|cs|r1 IH1 r2 IH2|r1 IH1 r2 IH2|n r1 IH1|];
    intros Hr st st' Hst H.
  1-5, 9: (pose proof (fun Ha => run_atom_caps _ Ha _ _ H) as E;
           rewrite E by reflexivity; exact Hst).
  - simpl in Hr. apply andb_prop in Hr. destruct Hr as [Hr1 Hr2].
    unfold run in H; simpl in H; fold run in H.
    apply in_flat_map in H. destruct H as [st1 [H1 H2]].
    apply (IH2 Hr2 st1 st'); [apply (IH1 Hr1 st st1)|]; assumption.
  - simpl in Hr. apply andb_prop in Hr. destruct Hr as [Hr1 Hr2].
    unfold run in H; simpl in H; fold run in H.
    apply in_app_or in H.
    destruct H as [H|H]; [apply (IH1 Hr1 st)|apply (IH2 Hr2 st)]; assumption.
  - unfold run in H; simpl in H; fold run in H.
    apply in_map_iff in H. destruct H as [st1 [<- H1]]. simpl.
    simpl in Hr. destruct (regex_eq_dec r1 number) as [->|]; [|discriminate].
    destruct (run_number _ _ H1) as [Hcaps Hdec].
    constructor; [exact Hdec|]. rewrite Hcaps. exact Hst.
Qed.

Lemma group_app (n : nat) (new old : list (nat * text)) :
  group n old <> None -> group n (new ++ old) <> None.
Proof.
  induction new as [|[k g] new IH]; simpl; [auto|].
  destruct (Nat.eqb k n); [discriminate|exact IH].
Qed.

Lemma run_sets_group (n : nat) (r : regex) :
  sets_group n r = true ->
  forall st st', In st' (run r st) -> group n (m_caps st') <> None.
Proof.
  induction r as [|cs|cs|cs|cs|r1 IH1 r2 IH2|r1 IH1 r2 IH2|k r1 IH1|];
    intros Hr st st' H; simpl in Hr; try discriminate;
    unfold run in H; simpl in H; fold run in H.
  - apply in_flat_map in H. destruct H as [st1 [H1 H2]].
    apply orb_prop in Hr. destruct Hr as [Hr|Hr].
    + destruct (run_extends _ _ _ H2) as [new ->].
      apply group_app. eapply IH1; eauto.
    + eapply IH2; eauto.
  - apply andb_prop in Hr. destruct Hr as [Hr1 Hr2].
    apply in_app_or in H. destruct H as [H|H]; [eapply IH1|eapply IH2]; eauto.
  - apply in_map_iff in H. destruct H as [st1 [<- H1]]. simpl.
    destruct (Nat.eqb k n) eqn:E; [discriminate|].
    simpl in Hr. eapply IH1; eauto.
Qed.

(** The groups of a successful [search] are those of a run from empty
    captures. *)
Lemma search_from_run (r : regex) (s : text) :
  forall prev caps,
    search_from unicode_isalnum r prev s = Some caps ->
    exists st st', m_caps st = [] /\ In st' (run r st) /\ m_caps st' = caps.
Proof.
  induction s as [|c t IH]; intros prev caps H; simpl in H.
  - destruct (Re.run unicode_isalnum r (MState prev [] [])) as [|st l] eqn:E;
      [discriminate|].
    inversion H; subst.
    exists (MState prev [] []), st. unfold run. rewrite E. simpl. auto.
  - destruct (Re.run unicode_isalnum r (MState prev (c :: t) [])) as [|st l] eqn:E.
    + eapply IH, H.
    + inversion H; subst.
      exists (MState prev (c :: t) []), st. unfold run. rewrite E. simpl. auto.
Qed.

Lemma search_numeric (r : regex) (s : text) (caps : list (nat * text)) :
  num_only r = true ->
  search unicode_isalnum r s = Some caps -> numeric_groups caps.
Proof.
  intros Hr H. apply search_from_run in H.
  destruct H as [st [st' [E [H <-]]]].
  apply (run_num_only r Hr st st'); [rewrite E; constructor|exact H].
Qed.

Lemma search_sets_group (n : nat) (r : regex) (s : text) (caps : list (nat * text)) :
  sets_group n r = true ->
  search unicode_isalnum r s = Some caps -> group n caps <> None.
Proof.
  intros Hr H. apply search_from_run in H.
  destruct H as [st [st' [E [H <-]]]].
  apply (run_sets_group n r Hr st st' H).
Qed.

Lemma group_numeric (n : nat) (caps : list (nat * text)) (g : text) :
  numeric_groups caps -> group n caps = Some g -> PyStr.decimal_shape g.
Proof.
  induction 1 as [|[k g'] caps Hg Hcaps IH]; simpl; [discriminate|].
  destruct (Nat.eqb k n); [|exact IH].
  intros H. inversion H; subst. exact Hg.
Qed.

End ReFacts.

(** ** [MessageProcessor] *)

Section MessageProcessorFacts.

Variable unicode_isalnum : N -> bool.

Lemma float_of_group_nonneg (n : nat) (caps : list (nat * text)) (f : float) :
  numeric_groups caps -> float_of_group n caps = Some f -> Float64.nonneg f.
Proof.
  intros Hc. unfold float_of_group.
  destruct (group n caps) as [g|] eqn:E; [|discriminate].
  destruct (PyStrFacts.decimal_converts (group_numeric _ Hc E)) as [f' [Hf Hn]].
  rewrite Hf. intros H. inversion H; subst. exact Hn.
Qed.

(** A number captured by a match always converts: after a match, the
    [except ValueError] branches of the source are never taken, and group
    [n] is never [None]. *)
Lemma captured_number_converts
      (n : nat) (r : regex) (message : text) (caps : list (nat * text)) :
  num_only r = true -> sets_group n r = true ->
  search unicode_isalnum r message = Some caps ->
  exists f, float_of_group n caps = Some f /\ Float64.nonneg f.
Proof.
  intros Hr Hn H. unfold float_of_group.
  pose proof (search_sets_group _ _ _ _ Hn H) as Hg.
  destruct (group n caps) as [g|] eqn:E; [|contradiction].
  apply PyStrFacts.decimal_converts.
  exact (group_numeric _ (search_numeric _ _ _ Hr H) E).
Qed.

(** Every pattern the conversions are used with has this form. *)
Lemma number_patterns :
  forallb (fun r => num_only r && sets_group 1 r)
          (Patterns.SL_UPDATE_PATTERNS ++ Patterns.ENTRY_PATTERNS
           ++ Patterns.SL_PATTERNS ++ Patterns.TP_PATTERNS) = true /\
  forallb (fun r => num_only r && sets_group 1 r && sets_group 2 r)
          Patterns.RANGE_PATTERNS = true.
Proof. split; vm_compute; reflexivity. Qed.

Lemma first_float_nonneg (patterns : list regex) (message : text) (f : float) :
  forallb num_only patterns = true ->
  first_float unicode_isalnum patterns message = Some f -> Float64.nonneg f.
Proof.
  induction patterns as [|p ps IH]; simpl; [discriminate|].
  intros Hp. apply andb_prop in Hp. destruct Hp as [Hp Hps].
  destruct (search unicode_isalnum p message) as [caps|] eqn:E; [|auto].
  destruct (float_of_group 1 caps) as [v|] eqn:Ev; [|auto].
  intros H. inversion H; subst.
  eapply float_of_group_nonneg; [|exact Ev].
  eapply search_numeric; eauto.
Qed.

(** The loop returns at the first pattern that matches: it yields [None]
    only when no pattern of the list matches. *)
Lemma first_float_none (patterns : list regex) (message : text) :
  forallb (fun r => num_only r && sets_group 1 r) patterns = true ->
  first_float unicode_isalnum patterns message = None ->
  forall pattern, In pattern patterns ->
                  search unicode_isalnum pattern message = None.
Proof.
  induction patterns as [|p ps IH]; simpl; [intros _ _ q []|].
  intros Hp. apply andb_prop in Hp. destruct Hp as [Hp Hps].
  apply andb_prop in Hp. destruct Hp as [Hnum Hset].
  destruct (search unicode_isalnum p message) as [caps|] eqn:E.
  - destruct (captured_number_converts 1 p message Hnum Hset E) as [f [Hf _]].
    rewrite Hf. discriminate.
  - intros H q [<-|Hq]; [exact E|]. apply IH; assumption.
Qed.

Lemma first_range_ordered (patterns : list regex) (message : text) (d : EntryData) :
  forallb num_only patterns = true ->
  first_range unicode_isalnum patterns message = Some d ->
  exists lo hi, d = EntryRange lo hi /\ Float64.leb lo hi = true.
Proof.
  induction patterns as [|p ps IH]; simpl; [discriminate|].
  intros Hp. apply andb_prop in Hp. destruct Hp as [Hp Hps].
  destruct (search unicode_isalnum p message) as [caps|] eqn:E; [|auto].
  destruct (float_of_group 1 caps) as [a|] eqn:Ea; [|auto].
  destruct (float_of_group 2 caps) as [b|] eqn:Eb; [|auto].
  intros H. inversion H; subst.
  pose proof (search_numeric _ _ _ Hp E) as Hc.
  eexists _, _. split; [reflexivity|].
  apply Float64Facts.min_le_max; eapply float_of_group_nonneg; eauto.
Qed.

Lemma entry_data_shape (message : text) (d : EntryData) :
  _extract_entry_price unicode_isalnum message = Some d ->
  match d with
  | EntryRange lo hi => Float64.leb lo hi = true
  | EntrySingle _ => True
  end.
Proof.
  unfold _extract_entry_price.
  destruct (first_range _ _ _) as [d'|] eqn:E.
  - intros H. inversion H; subst.
    destruct (first_range_ordered Patterns.RANGE_PATTERNS _ eq_refl E)
      as [lo [hi [-> Hle]]].
    exact Hle.
  - destruct (first_float _ _ _); [|discriminate].
    intros H. inversion H. exact I.
Qed.

(** [extract_parameters], read backwards from a result. *)
Lemma extract_parameters_inv (message : text) (tp : TradeParams) :
  extract_parameters unicode_isalnum message = Some tp ->
  is_immediate_execution_message unicode_isalnum message = false /\
  _detect_trade_type unicode_isalnum message = Some (trade_type tp) /\
  _extract_stop_loss unicode_isalnum message = Some (stop_loss tp) /\
  Float64.truthy (stop_loss tp) = true /\
  take_profit tp = _extract_take_profit unicode_isalnum message /\
  raw_message tp = message /\
  match _extract_entry_price unicode_isalnum message with
  | Some (EntryRange lo hi) =>
      entry_range tp = Some (lo, hi) /\ entry_price tp = None
  | Some (EntrySingle p) =>
      entry_range tp = None /\ entry_price tp = Some p
  | None => False
  end.
Proof.
  unfold extract_parameters.
  destruct message as [|c t]; [discriminate|].
  destruct (is_immediate_execution_message _ _); [discriminate|].
  destruct (_detect_trade_type _ _) as [tt|]; [|discriminate].
  destruct (_extract_entry_price _ _) as [d|]; [|discriminate].
  destruct (_extract_stop_loss _ _) as [sl|]; [|discriminate].
  unfold falsy. destruct (Float64.truthy sl) eqn:Hsl; simpl; [|discriminate].
  destruct d; intros H; inversion H; subst; simpl; auto 10.
Qed.

Lemma detect_buy_first (message : text) :
  matches unicode_isalnum Patterns.BUY_PATTERN message = true ->
  _detect_trade_type unicode_isalnum message = Some "buy".
Proof.
  intros H. unfold _detect_trade_type, Patterns.TRADE_TYPE_PATTERNS, detect_in.
  rewrite H. reflexivity.
Qed.

(** The loop returns the value of the first pattern, in list order, that
    matches: the patterns before it do not match, and what it captured
    converts. *)
Lemma first_float_first_match
      (patterns before after : list regex) (pattern : regex)
      (message : text) (caps : list (nat * text)) :
  forallb (fun r => num_only r && sets_group 1 r) patterns = true ->
  patterns = before ++ pattern :: after ->
  (forall earlier, In earlier before ->
                   search unicode_isalnum earlier message = None) ->
  search unicode_isalnum pattern message = Some caps ->
  exists value, float_of_group 1 caps = Some value /\
                first_float unicode_isalnum patterns message = Some value.
Proof.
  intros Hp ->. revert Hp.
  induction before as [|q before IH]; simpl; intros Hp Hnone Hs.
  - apply andb_prop in Hp. destruct Hp as [Hp _].
    apply andb_prop in Hp. destruct Hp as [Hnum Hset].
    destruct (captured_number_converts 1 pattern message Hnum Hset Hs)
      as [v [Hv _]].
    exists v. rewrite Hs, Hv. split; reflexivity.
  - apply andb_prop in Hp. destruct Hp as [_ Hp].
    rewrite (Hnone q (or_introl eq_refl)).
    apply IH; [exact Hp| |exact Hs].
    intros e He. apply Hnone. right. exact He.
Qed.

End MessageProcessorFacts.

(** ** [MT5Manager] *)

Section ManagerFacts.

Variable mt5 : terminal.

Lemma state_eta (s : State) : {| self := self s; sent := sent s ++ [] |} = s.
Proof. destruct s. simpl. rewrite app_nil_r. reflexivity. Qed.

Lemma count_accepted (f : request -> bool) (l : list request) :
  (0 <? List.length (filter f l))%nat = existsb f l.
Proof.
  induction l as [|x l IH]; simpl; [reflexivity|].
  destruct (f x); simpl; [reflexivity|exact IH].
Qed.

Lemma update_positions_spec (new_sl : float) (ps : list TradePosition) :
  forall n s,
    update_positions mt5 new_sl ps n s =
    (n + List.length (filter (accepted mt5) (map (sltp_request new_sl) ps)),
     {| self := self s; sent := sent s ++ map (sltp_request new_sl) ps |}).
Proof.
  induction ps as [|pos ps IH]; intros n s; simpl.
  - unfold ret. rewrite state_eta, Nat.add_0_r. reflexivity.
  - unfold bind, send. rewrite IH. simpl. rewrite <- app_assoc. simpl.
    unfold accepted. destruct (done _); simpl; f_equal; lia.
Qed.

Lemma update_orders_spec (new_sl : float) (os : list TradeOrder) :
  forall n s,
    update_orders mt5 new_sl os n s =
    (n + List.length (filter (accepted mt5) (map (modify_request new_sl) os)),
     {| self := self s; sent := sent s ++ map (modify_request new_sl) os |}).
Proof.
  induction os as [|o os IH]; intros n s; simpl.
  - unfold ret. rewrite state_eta, Nat.add_0_r. reflexivity.
  - unfold bind, send. rewrite IH. simpl. rewrite <- app_assoc. simpl.
    unfold accepted. destruct (done _); simpl; f_equal; lia.
Qed.

(** Both loops run one after the other; every ticket gets its request. *)
Lemma update_pending_order_sl_spec (new_sl : float) (s : State) :
  update_pending_order_sl mt5 new_sl s =
  (existsb (accepted mt5)
     (map (sltp_request new_sl) (positions_get_symbol mt5 (symbol (self s)))
      ++ map (modify_request new_sl) (orders_get_symbol mt5 (symbol (self s)))),
   {| self := self s;
      sent := sent s
              ++ map (sltp_request new_sl) (positions_get_symbol mt5 (symbol (self s)))
              ++ map (modify_request new_sl) (orders_get_symbol mt5 (symbol (self s))) |}).
Proof.
  unfold update_pending_order_sl, bind, read, ret. simpl.
  rewrite update_positions_spec. simpl.
  rewrite update_orders_spec. simpl.
  rewrite <- count_accepted, filter_app, length_app, app_assoc.
  reflexivity.
Qed.

(** [place_pending_order] either stops before [order_send], leaving the
    state as it was, or sends exactly one request, built from the tick, the
    symbol information, the resolved entry and the computed take-profit. *)
Lemma place_pending_order_cases (tp : TradeParams) (pp : option float) (s : State) :
  let r := place_pending_order mt5 tp pp s in
  (r = (false, s)) \/
  (exists tick info price points,
      symbol_info_tick mt5 (symbol (self s)) = Some tick /\
      symbol_info mt5 (symbol (self s)) = Some info /\
      resolve_pending_price (trading_config (self s)) tp pp = Some price /\
      points_needed (target_profit (self s)) info (volume_min info) = Some points /\
      Float64.truthy (tp_at (trade_type tp) price points) = true /\
      let req :=
        pending_request mt5 (symbol (self s)) (volume_min info)
          (pending_order_type (trade_type tp) price
             (if trade_type tp =? "buy" then ask tick else bid tick))
          price (stop_loss tp) (tp_at (trade_type tp) price points) in
      sent (snd r) = sent s ++ [req] /\ fst r = accepted mt5 req).
Proof.
  unfold place_pending_order, get_current_price, get_minimum_volume,
    calculate_tp_for_profit, bind, read, ret. simpl.
  destruct (symbol_info_tick mt5 (symbol (self s))) as [tick|] eqn:Etick;
    [|left; reflexivity].
  destruct (symbol_info mt5 (symbol (self s))) as [info|] eqn:Einfo.
  2:{ left. destruct (resolve_pending_price _ _ _); reflexivity. }
  destruct (points_needed _ info _) as [points|] eqn:Epts.
  2:{ left. destruct (resolve_pending_price _ _ _); reflexivity. }
  destruct (resolve_pending_price _ tp pp) as [price|] eqn:Eprice;
    [|left; reflexivity].
  destruct (Float64.truthy (tp_at _ price points)) eqn:Etp; simpl;
    [|left; reflexivity].
  right. exists tick, info, price, points.
  repeat (split; [reflexivity || assumption|]).
  unfold send, accepted, done, set_pending_orders. simpl.
  destruct (order_send mt5 _) as [res|]; simpl; [|auto].
  destruct (retcode res =? TRADE_RETCODE_DONE)%Z; simpl; auto.
Qed.

(** When the terminal answers and the take-profit can be computed, the
    request goes out, and a [PendingOrder] is registered if it is accepted. *)
Lemma place_pending_order_sends (tp : TradeParams) (pp : option float) (s : State)
      (tick : Tick) (info : SymbolInfo) (price points : float) :
  symbol_info_tick mt5 (symbol (self s)) = Some tick ->
  symbol_info mt5 (symbol (self s)) = Some info ->
  resolve_pending_price (trading_config (self s)) tp pp = Some price ->
  points_needed (target_profit (self s)) info (volume_min info) = Some points ->
  Float64.truthy (tp_at (trade_type tp) price points) = true ->
  let r := place_pending_order mt5 tp pp s in
  let req :=
    pending_request mt5 (symbol (self s)) (volume_min info)
      (pending_order_type (trade_type tp) price
         (if trade_type tp =? "buy" then ask tick else bid tick))
      price (stop_loss tp) (tp_at (trade_type tp) price points) in
  sent (snd r) = sent s ++ [req] /\
  fst r = accepted mt5 req /\
  (accepted mt5 req = false -> pending_orders (self (snd r)) = pending_orders (self s)) /\
  (accepted mt5 req = true ->
   exists o, pending_orders (self (snd r)) = pending_orders (self s) ++ [o] /\
             po_entry_price o = price /\ po_stop_loss o = stop_loss tp /\
             po_take_profit o = tp_at (trade_type tp) price points /\
             is_activated o = false).
Proof.
  intros Etick Einfo Eprice Epts Etp.
  unfold place_pending_order, get_current_price, get_minimum_volume,
    calculate_tp_for_profit, bind, read, ret. simpl.
  rewrite Etick, Einfo, Epts, Eprice, Etp. simpl.
  unfold send, accepted, done, set_pending_orders. simpl.
  destruct (order_send mt5 _) as [res|]; simpl.
  - destruct (retcode res =? TRADE_RETCODE_DONE)%Z; simpl.
    + repeat split; try discriminate. intros _. eexists. repeat split.
    + repeat split; discriminate.
  - repeat split; discriminate.
Qed.

Lemma sweep_spec (orders : list PendingOrder) :
  forall active_orders,
    sweep mt5 orders active_orders = active_orders ++ flat_map (swept mt5) orders.
Proof.
  induction orders as [|o orders IH]; intros acc; simpl.
  - rewrite app_nil_r. reflexivity.
  - unfold swept at 1.
    destruct (nonempty _ || nonempty _); rewrite IH.
    + rewrite <- app_assoc. reflexivity.
    + reflexivity.
Qed.

End ManagerFacts.

(** ** [TradingBot] *)

Section BotFacts.

Variable unicode_isalnum : N -> bool.
Variable mt5 : terminal.

(** The SL-update branch returns before any extraction of parameters. *)
Lemma process_sl_update (message : text) (s : State) (new_sl : float) :
  is_sl_update_message unicode_isalnum message = Some new_sl ->
  Float64.truthy new_sl = true ->
  _process_message unicode_isalnum mt5 message s =
  (SlUpdate new_sl (fst (update_pending_order_sl mt5 new_sl s)),
   snd (update_pending_order_sl mt5 new_sl s)).
Proof.
  intros H Ht. unfold _process_message. rewrite H, Ht.
  unfold bind, ret. destruct (update_pending_order_sl mt5 new_sl s). reflexivity.
Qed.

(** Without an SL update that counts, the outcome is never [SlUpdate]. *)
Lemma process_new_order (message : text) (s : State) :
  falsy (is_sl_update_message unicode_isalnum message) = true ->
  _process_message unicode_isalnum mt5 message s =
  match extract_parameters unicode_isalnum message with
  | None => (NotActionable, s)
  | Some trade_params =>
      if is_range_entry trade_params then
        match get_pending_price trade_params
                (get (cfg_entry_strategy (trading_config (self s))) (txt "auto"))
                (get (cfg_central_zone (trading_config (self s))) Float64.zero) with
        | Some pending_price =>
            (NewOrder trade_params pending_price
               (fst (place_pending_order mt5 trade_params (Some pending_price) s)),
             snd (place_pending_order mt5 trade_params (Some pending_price) s))
        | None => (Raised trade_params, s)
        end
      else (Raised trade_params, s)
  end.
Proof.
  intros H. unfold _process_message, falsy in *.
  destruct (is_sl_update_message unicode_isalnum message) as [v|];
    [destruct (Float64.truthy v); [discriminate|]|].
  all: destruct (extract_parameters unicode_isalnum message) as [tp|];
    [|reflexivity].
  all: unfold bind, read, ret.
  all: destruct (is_range_entry tp); [|reflexivity].
  all: destruct (get_pending_price tp _ _) as [pp|]; [|reflexivity].
  all: destruct (place_pending_order mt5 tp (Some pp) s); reflexivity.
Qed.

(** A single-price entry never reaches [place_pending_order]: the call
    reads [pending_price], which only the range branch assigns. *)
Lemma single_price_entry_raises (message : text) (s : State) (intent : TradeParams) :
  falsy (is_sl_update_message unicode_isalnum message) = true ->
  extract_parameters unicode_isalnum message = Some intent ->
  entry_range intent = None ->
  _process_message unicode_isalnum mt5 message s = (Raised intent, s).
Proof.
  intros Hf He Hr. rewrite process_new_order by exact Hf. rewrite He.
  unfold is_range_entry. rewrite Hr. reflexivity.
Qed.

End BotFacts.

(* ================================================================== *)
(** * The properties of the specification *)




(** C2 (as stated, refuted).  Both texts hold a full trade intent (buy,
    range 1900-1920, stop-loss 1890) and an SL-update phrasing, and both
    are processed as a new order.  In the first the phrasing is
    ["move sl to 0"]: detection returns 0.0, which [if new_sl:] takes for
    no update.  The second also holds ["new sl is 1900"], but the pattern
    for ["move sl to"] comes first in the list and its value 0.0 is what
    detection returns. *)
Lemma sl_update_zero_counterexample :
  (is_sl_update_message ascii_table (txt "buy @1900-1920 sl 1890 move sl to 0")
   = Some Float64.zero /\
   exists intent,
     extract_parameters ascii_table (txt "buy @1900-1920 sl 1890 move sl to 0")
     = Some intent /\
     fst (_process_message ascii_table accepting_terminal
            (txt "buy @1900-1920 sl 1890 move sl to 0") example_state)
     = NewOrder intent (Float64.of_N 1900) true) /\
  (search ascii_table (nth 3 Patterns.SL_UPDATE_PATTERNS Eps)
          (txt "buy @1900-1920 sl 1890 new sl is 1900 move sl to 0")
   = Some [(1, txt "1900")] /\
   is_sl_update_message ascii_table
     (txt "buy @1900-1920 sl 1890 new sl is 1900 move sl to 0")
   = Some Float64.zero /\
   exists intent,
     extract_parameters ascii_table
       (txt "buy @1900-1920 sl 1890 new sl is 1900 move sl to 0")
     = Some intent /\
     fst (_process_message ascii_table accepting_terminal
            (txt "buy @1900-1920 sl 1890 new sl is 1900 move sl to 0") example_state)
     = NewOrder intent (Float64.of_N 1900) true).
Proof.
  split; [split|split; [|split]]; try (vm_compute; reflexivity).
  - eexists. split; vm_compute; reflexivity.
  - eexists. split; vm_compute; reflexivity.
Qed.

(** C2 (amended).  SL-update detection returns the value of the first
    pattern of [SL_UPDATE_PATTERNS], in list order, that matches: whenever a
    pattern of the list matches and none before it does, the result is the
    number that pattern captured; and the result is [None] when no pattern
    matches.  When that value is not zero, [_process_message] performs the
    SL update with it and returns: [extract_parameters] is not reached, the
    requests sent are the modifications of [update_pending_order_sl] and no
    new pending order, whatever trade tokens the text holds.  When that
    value is zero the message is not an SL update: the outcome is never
    [SlUpdate], and processing goes on to [extract_parameters], with the
    result it has for a message without any SL-update phrasing. *)
Theorem sl_update_before_new_order
        (unicode_isalnum : N -> bool) (mt5 : terminal) (message : text) (s : State) :
  let r := _process_message unicode_isalnum mt5 message s in
  (forall before pattern after caps,
      Patterns.SL_UPDATE_PATTERNS = before ++ pattern :: after ->
      (forall earlier, In earlier before ->
                       search unicode_isalnum earlier message = None) ->
      search unicode_isalnum pattern message = Some caps ->
      exists value,
        float_of_group 1 caps = Some value /\
        is_sl_update_message unicode_isalnum message = Some value) /\
  ((forall pattern, In pattern Patterns.SL_UPDATE_PATTERNS ->
                    search unicode_isalnum pattern message = None) ->
   is_sl_update_message unicode_isalnum message = None) /\
  (forall new_sl,
      is_sl_update_message unicode_isalnum message = Some new_sl ->
      Float64.truthy new_sl = true ->
      fst r = SlUpdate new_sl (fst (update_pending_order_sl mt5 new_sl s)) /\
      self (snd r) = self s /\
      sent (snd r) =
      sent s
      ++ map (sltp_request new_sl) (positions_get_symbol mt5 (symbol (self s)))
      ++ map (modify_request new_sl) (orders_get_symbol mt5 (symbol (self s)))) /\
  (forall new_sl,
      is_sl_update_message unicode_isalnum message = Some new_sl ->
      Float64.truthy new_sl = false ->
      (forall v ok, fst r <> SlUpdate v ok) /\
      r = match extract_parameters unicode_isalnum message with
          | None => (NotActionable, s)
          | Some trade_params =>
              if is_range_entry trade_params then
                match get_pending_price trade_params
                        (get (cfg_entry_strategy (trading_config (self s)))
                             (txt "auto"))
                        (get (cfg_central_zone (trading_config (self s)))
                             Float64.zero) with
                | Some pending_price =>
                    (NewOrder trade_params pending_price
                       (fst (place_pending_order mt5 trade_params
                                                 (Some pending_price) s)),
                     snd (place_pending_order mt5 trade_params
                                              (Some pending_price) s))
                | None => (Raised trade_params, s)
                end
              else (Raised trade_params, s)
          end).
Proof.
  cbv zeta. split; [|split; [|split]].
  - intros before pattern after caps Hl Hnone Hs.
    unfold is_sl_update_message.
    eapply first_float_first_match; [reflexivity|exact Hl|exact Hnone|exact Hs].
  - intros Hnone. unfold is_sl_update_message.
    generalize Patterns.SL_UPDATE_PATTERNS Hnone. clear Hnone.
    intros patterns. induction patterns as [|q patterns IH]; intros Hnone;
      simpl; [reflexivity|].
    rewrite (Hnone q (or_introl eq_refl)). apply IH.
    intros e He. apply Hnone. right. exact He.
  - intros new_sl Hsl Ht. rewrite (process_sl_update _ _ _ _ Hsl Ht).
    rewrite update_pending_order_sl_spec. simpl. auto.
  - intros new_sl Hsl Ht.
    assert (Hf : falsy (is_sl_update_message unicode_isalnum message) = true).
    { unfold falsy. rewrite Hsl, Ht. reflexivity. }
    rewrite (process_new_order _ mt5 _ s Hf).
    split; [|reflexivity].
    intros v ok.
    destruct (extract_parameters unicode_isalnum message) as [tp|];
      [|discriminate].
    destruct (is_range_entry tp); [|discriminate].
    destruct (get_pending_price tp _ _); discriminate.
Qed.

Lemma sl_update_before_new_order_witness :
  is_sl_update_message ascii_table (txt "buy @1900-1920 sl 1890 move sl to 1895")
  = Some (Float64.of_N 1895) /\
  Float64.truthy (Float64.of_N 1895) = true /\
  fst (_process_message ascii_table accepting_terminal
         (txt "buy @1900-1920 sl 1890 move sl to 1895") example_state)
  = SlUpdate (Float64.of_N 1895) true.
Proof.
  assert (H : is_sl_update_message ascii_table
                (txt "buy @1900-1920 sl 1890 move sl to 1895")
              = Some (Float64.of_N 1895)) by (vm_compute; reflexivity).
  assert (Ht : Float64.truthy (Float64.of_N 1895) = true) by (vm_compute; reflexivity).
  split; [exact H|]. split; [exact Ht|].
  pose proof (sl_update_before_new_order ascii_table accepting_terminal
                (txt "buy @1900-1920 sl 1890 move sl to 1895") example_state) as T.
  cbv zeta in T. destruct T as [_ [_ [Hnz _]]].
  destruct (Hnz _ H Ht) as [Hr _].
  rewrite Hr. vm_compute. reflexivity.
Defined.

(** C3 (as stated, refuted).  The symbol has an open position and a working
    order, both requests are sent, the terminal answers neither, and
    [update_pending_order_sl] returns [False]: failure with two tickets. *)
Lemma tickets_but_failure_counterexample :
  positions_get_symbol silent_terminal (symbol (self example_state)) = [example_position] /\
  orders_get_symbol silent_terminal (symbol (self example_state)) = [example_order] /\
  update_pending_order_sl silent_terminal (Float64.of_N 1895) example_state =
  (false,
   {| self := self example_state;
      sent := [sltp_request (Float64.of_N 1895) example_position;
               modify_request (Float64.of_N 1895) example_order] |}).
Proof. repeat split; vm_compute; reflexivity. Qed.

(** C3 (amended).  [update_pending_order_sl] sends one request for every
    open position of the symbol and then one for every working order of
    the symbol, in that order and whatever the answers to the earlier ones
    were; it changes nothing in the manager; and it returns [True] exactly
    when the terminal answered at least one of these requests with
    [TRADE_RETCODE_DONE].  With no ticket at all the list of requests is
    empty and the result is [False]. *)
Theorem update_sl_counts_successes (mt5 : terminal) (new_sl : float) (s : State) :
  let requests :=
    map (sltp_request new_sl) (positions_get_symbol mt5 (symbol (self s)))
    ++ map (modify_request new_sl) (orders_get_symbol mt5 (symbol (self s))) in
  let r := update_pending_order_sl mt5 new_sl s in
  snd r = {| self := self s; sent := sent s ++ requests |} /\
  fst r = existsb (accepted mt5) requests /\
  (fst r = true <-> exists req, In req requests /\ accepted mt5 req = true) /\
  (positions_get_symbol mt5 (symbol (self s)) = [] ->
   orders_get_symbol mt5 (symbol (self s)) = [] -> fst r = false).
Proof.
  cbv zeta. rewrite update_pending_order_sl_spec. simpl.
  split; [reflexivity|]. split; [reflexivity|]. split.
  - apply existsb_exists.
  - intros -> ->. reflexivity.
Qed.

Lemma update_sl_counts_successes_witness :
  update_pending_order_sl accepting_terminal (Float64.of_N 1895) example_state =
  (true,
   {| self := self example_state;
      sent := [sltp_request (Float64.of_N 1895) example_position;
               modify_request (Float64.of_N 1895) example_order] |}).
Proof.
  destruct (update_sl_counts_successes accepting_terminal (Float64.of_N 1895)
                                       example_state) as [Hs [Hr _]].
  rewrite (surjective_pairing
             (update_pending_order_sl accepting_terminal (Float64.of_N 1895)
                                      example_state)).
  rewrite Hs, Hr. vm_compute. reflexivity.
Defined.

(** ** [TradeParams.get_pending_price] *)

Lemma text_eqb_eq (a b : text) : PyStr.text_eqb a b = true <-> a = b.
Proof.
  unfold PyStr.text_eqb. destruct (list_eq_dec N.eq_dec a b); split; congruence.
Qed.

Lemma text_eqb_neq (a b : text) : a <> b -> PyStr.text_eqb a b = false.
Proof.
  intros H. unfold PyStr.text_eqb. destruct (list_eq_dec N.eq_dec a b); congruence.
Qed.

(** C4.  A single-price intent resolves to its price for every strategy
    and offset.  For a range [(lo, hi)] and a zero offset, ["auto"] and
    ["min"] give [lo] to a buy and [hi] to a sell, ["max"] gives [hi] to a
    buy and [lo] to a sell.  A strategy that the method does not recognise
    as ["min"] or ["max"] (after [strip] and [lower]) resolves as ["auto"]
    does, for every offset. *)
Theorem get_pending_price_selection
        (self : TradeParams) (entry_strategy : text) (central_zone : float) :
  (entry_range self = None ->
   get_pending_price self entry_strategy central_zone = entry_price self) /\
  (forall lo hi,
      entry_range self = Some (lo, hi) ->
      Float64.nonzero central_zone = false ->
      (entry_strategy = txt "auto" \/ entry_strategy = txt "min" ->
       (trade_type self = "buy" ->
        get_pending_price self entry_strategy central_zone = Some lo) /\
       (trade_type self = "sell" ->
        get_pending_price self entry_strategy central_zone = Some hi)) /\
      (entry_strategy = txt "max" ->
       (trade_type self = "buy" ->
        get_pending_price self entry_strategy central_zone = Some hi) /\
       (trade_type self = "sell" ->
        get_pending_price self entry_strategy central_zone = Some lo))) /\
  (PyStr.lower (PyStr.strip entry_strategy) <> txt "min" ->
   PyStr.lower (PyStr.strip entry_strategy) <> txt "max" ->
   get_pending_price self entry_strategy central_zone =
   get_pending_price self (txt "auto") central_zone).
Proof.
  unfold get_pending_price. split; [|split].
  - intros ->. reflexivity.
  - intros lo hi -> ->. split.
    + intros [-> | ->]; split; intros ->; reflexivity.
    + intros ->; split; intros ->; reflexivity.
  - intros Hmin Hmax.
    destruct (entry_range self) as [[lo hi]|]; [|reflexivity].
    rewrite (text_eqb_neq Hmin), (text_eqb_neq Hmax).
    change (PyStr.text_eqb (txt "auto") (txt "auto")) with true.
    destruct (PyStr.text_eqb entry_strategy (txt "auto")); reflexivity.
Qed.

Lemma get_pending_price_selection_witness :
  let long := {| trade_type := "buy"; entry_price := None;
                 entry_range := Some (Float64.of_N 1900, Float64.of_N 1920);
                 stop_loss := Float64.of_N 1890; take_profit := None;
                 raw_message := [] |} in
  let short := {| trade_type := "sell"; entry_price := None;
                  entry_range := Some (Float64.of_N 1900, Float64.of_N 1920);
                  stop_loss := Float64.of_N 1930; take_profit := None;
                  raw_message := [] |} in
  get_pending_price long (txt "auto") Float64.zero = Some (Float64.of_N 1900) /\
  get_pending_price long (txt "min") Float64.zero = Some (Float64.of_N 1900) /\
  get_pending_price long (txt "max") Float64.zero = Some (Float64.of_N 1920) /\
  get_pending_price short (txt "auto") Float64.zero = Some (Float64.of_N 1920) /\
  get_pending_price short (txt "min") Float64.zero = Some (Float64.of_N 1920) /\
  get_pending_price short (txt "max") Float64.zero = Some (Float64.of_N 1900) /\
  get_pending_price long (txt "median") Float64.zero =
  get_pending_price long (txt "auto") Float64.zero.
Proof.
  intros long short.
  pose proof (fun st =>
    proj1 (proj2 (get_pending_price_selection long st Float64.zero))
          _ _ eq_refl eq_refl) as HL.
  pose proof (fun st =>
    proj1 (proj2 (get_pending_price_selection short st Float64.zero))
          _ _ eq_refl eq_refl) as HS.
  refine (conj _ (conj _ (conj _ (conj _ (conj _ (conj _ _)))))).
  - apply (proj1 (HL (txt "auto"))); [left|]; reflexivity.
  - apply (proj1 (HL (txt "min"))); [right|]; reflexivity.
  - apply (proj2 (HL (txt "max"))); reflexivity.
  - apply (proj1 (HS (txt "auto"))); [left|]; reflexivity.
  - apply (proj1 (HS (txt "min"))); [right|]; reflexivity.
  - apply (proj2 (HS (txt "max"))); reflexivity.
  - apply (proj2 (proj2 (get_pending_price_selection long (txt "median") Float64.zero)));
      vm_compute; discriminate.
Defined.

(** C5.  For a range intent and any strategy, a zero offset leaves the
    selected price as it is; a non-zero offset [c] gives the zero-offset
    price plus [c] to a buy and minus [c] to a sell, plus and minus being
    those of the floats. *)
Theorem central_zone_offset
        (self : TradeParams) (lo hi : float) (entry_strategy : text)
        (central_zone : float) :
  entry_range self = Some (lo, hi) ->
  exists base,
    get_pending_price self entry_strategy Float64.zero = Some base /\
    (Float64.nonzero central_zone = false ->
     get_pending_price self entry_strategy central_zone = Some base) /\
    (Float64.nonzero central_zone = true ->
     (trade_type self = "buy" ->
      get_pending_price self entry_strategy central_zone
      = Some (Float64.add base central_zone)) /\
     (trade_type self = "sell" ->
      get_pending_price self entry_strategy central_zone
      = Some (Float64.sub base central_zone))).
Proof.
  intros Hr. unfold get_pending_price. rewrite Hr.
  change (Float64.nonzero Float64.zero) with false. cbv iota.
  eexists. split; [reflexivity|]. split.
  - intros ->. reflexivity.
  - intros ->. split; intros ->; reflexivity.
Qed.

Lemma central_zone_offset_witness :
  let long := {| trade_type := "buy"; entry_price := None;
                 entry_range := Some (Float64.of_N 1900, Float64.of_N 1920);
                 stop_loss := Float64.of_N 1890; take_profit := None;
                 raw_message := [] |} in
  let short := {| trade_type := "sell"; entry_price := None;
                  entry_range := Some (Float64.of_N 1900, Float64.of_N 1920);
                  stop_loss := Float64.of_N 1930; take_profit := None;
                  raw_message := [] |} in
  entry_range long = Some (Float64.of_N 1900, Float64.of_N 1920) /\
  get_pending_price long (txt "auto") Float64.zero = Some (Float64.of_N 1900) /\
  get_pending_price long (txt "auto") (Float64.of_N 5) = Some (Float64.of_N 1905) /\
  get_pending_price short (txt "auto") Float64.zero = Some (Float64.of_N 1920) /\
  get_pending_price short (txt "auto") (Float64.of_N 5) = Some (Float64.of_N 1915).
Proof.
  intros long short. split; [reflexivity|].
  destruct (central_zone_offset long (txt "auto") (Float64.of_N 5) eq_refl)
    as [base [H0 [_ H5]]].
  assert (Hb : base = Float64.of_N 1900).
  { vm_compute in H0. inversion H0. reflexivity. }
  subst base. split; [exact H0|].
  split; [rewrite (proj1 (H5 eq_refl) eq_refl); vm_compute; reflexivity|].
  destruct (central_zone_offset short (txt "auto") (Float64.of_N 5) eq_refl)
    as [base [H0' [_ H5']]].
  assert (Hb : base = Float64.of_N 1920).
  { vm_compute in H0'. inversion H0'. reflexivity. }
  subst base. split; [exact H0'|].
  rewrite (proj2 (H5' eq_refl) eq_refl). vm_compute. reflexivity.
Defined.

(** ** [MT5Manager.place_pending_order] and [cleanup_expired_orders] *)

(** C6.  Whenever [place_pending_order] sends its request, the price of
    the request is the resolved entry, and its type follows from comparing
    that price with the ask for a buy and with the bid for a sell: a buy
    strictly below the ask is a buy limit, a buy at or above the ask a buy
    stop; a sell strictly above the bid is a sell limit, a sell at or below
    the bid a sell stop. *)
Theorem pending_order_flavor
        (mt5 : terminal) (trade_params : TradeParams) (pending_price : option float)
        (s : State) (tick : Tick)
        (sym : string) (volume : float) (type : order_type) (price sl tp : float)
        (deviation magic : Z) (comment : string) (expiration : Z) :
  symbol_info_tick mt5 (symbol (self s)) = Some tick ->
  sent (snd (place_pending_order mt5 trade_params pending_price s)) =
  sent s ++ [TRADE_ACTION_PENDING sym volume type price sl tp
                                  deviation magic comment expiration] ->
  resolve_pending_price (trading_config (self s)) trade_params pending_price
  = Some price /\
  (trade_type trade_params = "buy" ->
   (Float64.ltb price (ask tick) = true -> type = ORDER_TYPE_BUY_LIMIT) /\
   (Float64.leb (ask tick) price = true -> type = ORDER_TYPE_BUY_STOP)) /\
  (trade_type trade_params = "sell" ->
   (Float64.gtb price (bid tick) = true -> type = ORDER_TYPE_SELL_LIMIT) /\
   (Float64.leb price (bid tick) = true -> type = ORDER_TYPE_SELL_STOP)).
Proof.
  intros Htick Hsent.
  destruct (place_pending_order_cases mt5 trade_params pending_price s)
    as [E | [tick' [info [price' [points [Et [_ [Ep [_ [_ [Es _]]]]]]]]]]].
  - rewrite E in Hsent. simpl in Hsent.
    apply (f_equal (@List.length request)) in Hsent.
    rewrite length_app in Hsent. simpl in Hsent. lia.
  - rewrite Es in Hsent. apply app_inv_head in Hsent.
    rewrite Htick in Et. inversion Et; subst tick'. clear Et.
    unfold pending_request in Hsent. inversion Hsent; subst. clear Hsent.
    split; [exact Ep|]. unfold pending_order_type.
    split; intros ->; simpl; split; intros H.
    + rewrite H. reflexivity.
    + rewrite (Float64Facts.leb_not_gtb _ _ H). reflexivity.
    + rewrite H. reflexivity.
    + pose proof (Float64Facts.leb_not_gtb _ _ H) as H'.
      unfold Float64.gtb, Float64.ltb in *. rewrite H'. reflexivity.
Qed.

Lemma pending_order_flavor_witness :
  let r := place_pending_order example_terminal (buy_at (Float64.of_N 1895))
                               None example_state in
  symbol_info_tick example_terminal (symbol (self example_state))
  = Some {| bid := Float64.of_decimal false 18995 1; ask := Float64.of_N 1900 |} /\
  sent (snd r) =
  sent example_state
  ++ [TRADE_ACTION_PENDING "XAUUSD" (Float64.of_decimal false 1 2)
        ORDER_TYPE_BUY_LIMIT (Float64.of_N 1895) (Float64.of_N 1890)
        (Float64.of_N 1905) 20 234007 "XAU Bot v5.1 Pending" 1700014400] /\
  Float64.ltb (Float64.of_N 1895) (Float64.of_N 1900) = true /\
  resolve_pending_price (trading_config (self example_state))
                        (buy_at (Float64.of_N 1895)) None
  = Some (Float64.of_N 1895).
Proof.
  intros r.
  assert (Ht : symbol_info_tick example_terminal (symbol (self example_state))
               = Some {| bid := Float64.of_decimal false 18995 1;
                         ask := Float64.of_N 1900 |}) by reflexivity.
  assert (Hs : sent (snd r) =
               sent example_state
               ++ [TRADE_ACTION_PENDING "XAUUSD" (Float64.of_decimal false 1 2)
                     ORDER_TYPE_BUY_LIMIT (Float64.of_N 1895) (Float64.of_N 1890)
                     (Float64.of_N 1905) 20 234007 "XAU Bot v5.1 Pending" 1700014400])
    by (vm_compute; reflexivity).
  assert (Hl : Float64.ltb (Float64.of_N 1895) (Float64.of_N 1900) = true)
    by (vm_compute; reflexivity).
  refine (conj Ht (conj Hs (conj Hl _))).
  exact (proj1 (@pending_order_flavor
                  example_terminal (buy_at (Float64.of_N 1895)) None
                  example_state _ _ _ _ _ _ _ _ _ _ _ Ht Hs)).
Defined.

(** The other three flavours on the same quotes (bid 1899.5, ask 1900). *)
Example flavor_examples :
  map (fun r => match sent (snd r) with
                | [TRADE_ACTION_PENDING _ _ type price _ _ _ _ _ _] => Some (type, price)
                | _ => None
                end)
      [ place_pending_order example_terminal (buy_at (Float64.of_N 1905)) None example_state;
        place_pending_order example_terminal (buy_at (Float64.of_N 1900)) None example_state;
        place_pending_order example_terminal (sell_at (Float64.of_N 1905)) None example_state;
        place_pending_order example_terminal (sell_at (Float64.of_N 1895)) None example_state ]
  = [ Some (ORDER_TYPE_BUY_STOP, Float64.of_N 1905);
      Some (ORDER_TYPE_BUY_STOP, Float64.of_N 1900);
      Some (ORDER_TYPE_SELL_LIMIT, Float64.of_N 1905);
      Some (ORDER_TYPE_SELL_STOP, Float64.of_N 1895) ].
Proof. vm_compute. reflexivity. Qed.

(** C7.  One sweep of [cleanup_expired_orders] goes through the registry
    in order and, for each tracked order: drops it when the terminal
    reports neither a working order nor a position for its ticket; keeps it
    with [is_activated] set when a position is reported; keeps it as it is
    when only a working order is reported.  Nothing else is added or
    changed, and no request is sent. *)
Theorem reconciliation_sweep (mt5 : terminal) (s : State) :
  let registry := pending_orders (self s) in
  let r := cleanup_expired_orders mt5 s in
  let registry' := pending_orders (self (snd r)) in
  registry' = flat_map (swept mt5) registry /\
  (forall o, In o registry ->
             orders_get_ticket mt5 (ticket o) = [] ->
             positions_get_ticket mt5 (ticket o) = [] ->
             forall o', In o' registry' -> ticket o' <> ticket o) /\
  (forall o, In o registry ->
             positions_get_ticket mt5 (ticket o) <> [] ->
             In (activate o) registry' /\ is_activated (activate o) = true) /\
  (forall o, In o registry ->
             positions_get_ticket mt5 (ticket o) = [] ->
             orders_get_ticket mt5 (ticket o) <> [] ->
             In o registry') /\
  (forall o', In o' registry' ->
              exists o, In o registry /\
                        ((positions_get_ticket mt5 (ticket o) <> [] /\ o' = activate o) \/
                         (positions_get_ticket mt5 (ticket o) = [] /\
                          orders_get_ticket mt5 (ticket o) <> [] /\ o' = o))) /\
  sent (snd r) = sent s /\
  trading_config (self (snd r)) = trading_config (self s) /\
  symbol (self (snd r)) = symbol (self s) /\
  target_profit (self (snd r)) = target_profit (self s).
Proof.
  cbv zeta.
  assert (E : pending_orders (self (snd (cleanup_expired_orders mt5 s)))
              = flat_map (swept mt5) (pending_orders (self s))).
  { unfold cleanup_expired_orders, bind, read, set_pending_orders. simpl.
    apply (sweep_spec mt5 (pending_orders (self s)) []). }
  assert (Hback : forall o', In o' (flat_map (swept mt5) (pending_orders (self s))) ->
            exists o, In o (pending_orders (self s)) /\
              ((positions_get_ticket mt5 (ticket o) <> [] /\ o' = activate o) \/
               (positions_get_ticket mt5 (ticket o) = [] /\
                orders_get_ticket mt5 (ticket o) <> [] /\ o' = o))).
  { intros o' H. apply in_flat_map in H. destruct H as [o [Ho H]].
    exists o. split; [exact Ho|]. unfold swept in H.
    destruct (positions_get_ticket mt5 (ticket o)) as [|p ps];
      destruct (orders_get_ticket mt5 (ticket o)) as [|q qs]; simpl in H;
      try contradiction; destruct H as [<-|[]].
    - right. repeat split; discriminate.
    - left. split; [discriminate|reflexivity].
    - left. split; [discriminate|reflexivity]. }
  rewrite E. split; [reflexivity|]. split; [|split; [|split; [|split]]].
  - intros o Ho Hord Hpos o' Ho' Heq.
    destruct (Hback o' Ho') as [o1 [_ [[Hp ->]|[_ [Hq ->]]]]].
    + simpl in Heq. rewrite Heq in Hp. contradiction.
    + rewrite Heq in Hq. contradiction.
  - intros o Ho Hpos. split; [|reflexivity].
    apply in_flat_map. exists o. split; [exact Ho|]. unfold swept.
    destruct (positions_get_ticket mt5 (ticket o)); [contradiction|].
    rewrite orb_true_r. left. reflexivity.
  - intros o Ho Hpos Hord.
    apply in_flat_map. exists o. split; [exact Ho|]. unfold swept.
    rewrite Hpos.
    destruct (orders_get_ticket mt5 (ticket o)); [contradiction|].
    left. reflexivity.
  - exact Hback.
  - unfold cleanup_expired_orders, bind, read, set_pending_orders. simpl. auto.
Qed.

Lemma reconciliation_sweep_witness :
  pending_orders (self (snd (cleanup_expired_orders accepting_terminal example_registry)))
  = [activate (tracked 11); tracked 12].
Proof.
  rewrite (proj1 (reconciliation_sweep accepting_terminal example_registry)).
  vm_compute. reflexivity.
Defined.

(** ** End to end *)

(** C8.  For the text ["GOLD BUY @1900-1920 SL 1890 TP 1950"]:
    [extract_parameters] yields a buy with range (1900, 1920) and stop-loss
    1890; under the policy (auto, 0) the resolved entry is 1900; and when
    the terminal gives a tick and the symbol information, [_process_message]
    sends one pending request with price 1900, stop-loss 1890 and the
    take-profit
    [1900 + (target_profit * tick_size) / (tick_value * volume)],
    where [volume] is the minimum volume of the symbol, [tick_value] is
    [trade_tick_value] or 1.0 and [tick_size] is [trade_tick_size] or 0.01.
    When the division fails or that take-profit is 0.0, nothing is sent.
    The take-profit hint of the message, which the pattern reads as 950,
    has no part in the request: every other hint gives the same result, and
    so does the message without its take-profit. *)
Theorem end_to_end_scenario
        (unicode_isalnum : N -> bool) (mt5 : terminal) (s : State)
        (tick : Tick) (info : SymbolInfo) :
  get (cfg_entry_strategy (trading_config (self s))) (txt "auto") = txt "auto" ->
  Float64.nonzero (get (cfg_central_zone (trading_config (self s))) Float64.zero)
  = false ->
  symbol_info_tick mt5 (symbol (self s)) = Some tick ->
  symbol_info mt5 (symbol (self s)) = Some info ->
  let tick_value :=
    if Float64.truthy (trade_tick_value info) then trade_tick_value info
    else Float64.of_N 1 in
  let tick_size :=
    if Float64.truthy (trade_tick_size info) then trade_tick_size info
    else Float64.of_decimal false 1 2 in
  let r := _process_message unicode_isalnum mt5 scenario_message s in
  extract_parameters unicode_isalnum scenario_message = Some scenario_intent /\
  _extract_take_profit unicode_isalnum scenario_message = Some (Float64.of_N 950) /\
  get_pending_price scenario_intent (txt "auto") Float64.zero
  = Some (Float64.of_N 1900) /\
  match Float64.div (Float64.mul (target_profit (self s)) tick_size)
                    (Float64.mul tick_value (volume_min info)) with
  | Some points_needed =>
      let tp := Float64.add (Float64.of_N 1900) points_needed in
      let request :=
        TRADE_ACTION_PENDING
          (symbol (self s)) (volume_min info)
          (if Float64.ltb (Float64.of_N 1900) (ask tick)
           then ORDER_TYPE_BUY_LIMIT else ORDER_TYPE_BUY_STOP)
          (Float64.of_N 1900) (Float64.of_N 1890) tp
          20 234007 "XAU Bot v5.1 Pending" (now mt5 + 4 * 3600) in
      if Float64.truthy tp then
        fst r = NewOrder scenario_intent (Float64.of_N 1900)
                         (done (order_send mt5 request)) /\
        sent (snd r) = sent s ++ [request]
      else r = (NewOrder scenario_intent (Float64.of_N 1900) false, s)
  | None => r = (NewOrder scenario_intent (Float64.of_N 1900) false, s)
  end /\
  (forall hint,
      place_pending_order mt5 (with_take_profit scenario_intent hint)
                          (Some (Float64.of_N 1900)) s
      = place_pending_order mt5 scenario_intent (Some (Float64.of_N 1900)) s) /\
  sent (snd (_process_message unicode_isalnum mt5
                              (txt "GOLD BUY @1900-1920 SL 1890") s))
  = sent (snd r).
Proof.
  intros Hst Hcz Htick Hinfo. cbv zeta.
  assert (Hex : extract_parameters unicode_isalnum scenario_message
                = Some scenario_intent) by (vm_compute; reflexivity).
  assert (Hsl : is_sl_update_message unicode_isalnum scenario_message = None)
    by (vm_compute; reflexivity).
  assert (Hgp : forall c, Float64.nonzero c = false ->
                          get_pending_price scenario_intent (txt "auto") c
                          = Some (Float64.of_N 1900)).
  { intros c Hc. unfold get_pending_price. simpl. rewrite Hc. reflexivity. }
  split; [exact Hex|]. split; [vm_compute; reflexivity|].
  split; [apply Hgp; reflexivity|].
  assert (Hproc : _process_message unicode_isalnum mt5 scenario_message s
                  = (NewOrder scenario_intent (Float64.of_N 1900)
                       (fst (place_pending_order mt5 scenario_intent
                               (Some (Float64.of_N 1900)) s)),
                     snd (place_pending_order mt5 scenario_intent
                            (Some (Float64.of_N 1900)) s))).
  { rewrite process_new_order by (rewrite Hsl; reflexivity).
    rewrite Hex. change (is_range_entry scenario_intent) with true. cbv iota.
    rewrite Hst, (Hgp _ Hcz). reflexivity. }
  split; [|split; [reflexivity|]].
  - rewrite Hproc.
    unfold place_pending_order, get_current_price, get_minimum_volume,
      calculate_tp_for_profit, points_needed, or_else, bind, read, ret.
    cbn [fst snd self]. rewrite Htick, Hinfo.
    cbn [resolve_pending_price fst snd self].
    change f_1_0 with (Float64.of_N 1).
    change f_0_01 with (Float64.of_decimal false 1 2).
    destruct (Float64.div _ _) as [points|]; [|reflexivity].
    change (trade_type scenario_intent) with "buy".
    change (stop_loss scenario_intent) with (Float64.of_N 1890).
    change (tp_at "buy" (Float64.of_N 1900) points)
      with (Float64.add (Float64.of_N 1900) points).
    destruct (Float64.truthy (Float64.add (Float64.of_N 1900) points));
      cbn [negb]; [|reflexivity].
    unfold send, set_pending_orders, pending_request, pending_order_type, done.
    cbn [fst snd self sent String.eqb Ascii.eqb Bool.eqb].
    destruct (order_send mt5 _) as [res|]; cbn [fst snd sent];
      [|split; reflexivity].
    destruct (retcode res =? TRADE_RETCODE_DONE)%Z; cbn [negb fst snd sent self];
      split; reflexivity.
  - rewrite Hproc. cbn [snd].
    assert (Hex' : extract_parameters unicode_isalnum
                     (txt "GOLD BUY @1900-1920 SL 1890")
                   = Some (with_raw_message (with_take_profit scenario_intent None)
                                            (txt "GOLD BUY @1900-1920 SL 1890")))
      by (vm_compute; reflexivity).
    assert (Hsl' : is_sl_update_message unicode_isalnum
                     (txt "GOLD BUY @1900-1920 SL 1890") = None)
      by (vm_compute; reflexivity).
    rewrite process_new_order by (rewrite Hsl'; reflexivity).
    rewrite Hex'.
    change (is_range_entry (with_raw_message (with_take_profit scenario_intent None)
                                             (txt "GOLD BUY @1900-1920 SL 1890")))
      with true. cbv iota.
    rewrite Hst.
    assert (Hgp' : get_pending_price
                     (with_raw_message (with_take_profit scenario_intent None)
                                       (txt "GOLD BUY @1900-1920 SL 1890"))
                     (txt "auto")
                     (get (cfg_central_zone (trading_config (self s))) Float64.zero)
                   = Some (Float64.of_N 1900)).
    { unfold get_pending_price. simpl. rewrite Hcz. reflexivity. }
    rewrite Hgp'. reflexivity.
Qed.

Lemma end_to_end_scenario_witness :
  let request :=
    TRADE_ACTION_PENDING "XAUUSD" (Float64.of_decimal false 1 2)
      ORDER_TYPE_BUY_STOP (Float64.of_N 1900) (Float64.of_N 1890)
      (Float64.of_N 1910) 20 234007 "XAU Bot v5.1 Pending" 1700014400 in
  Float64.div (Float64.mul (Float64.of_N 10) (Float64.of_decimal false 1 2))
              (Float64.mul (Float64.of_N 1) (Float64.of_decimal false 1 2))
  = Some (Float64.of_N 10) /\
  Float64.add (Float64.of_N 1900) (Float64.of_N 10) = Float64.of_N 1910 /\
  fst (_process_message ascii_table example_terminal scenario_message example_state)
  = NewOrder scenario_intent (Float64.of_N 1900) true /\
  sent (snd (_process_message ascii_table example_terminal scenario_message
                              example_state))
  = [request].
Proof.
  intros request.
  split; [vm_compute; reflexivity|]. split; [vm_compute; reflexivity|].
  pose proof (@end_to_end_scenario ascii_table example_terminal example_state
                {| bid := Float64.of_decimal false 18995 1; ask := Float64.of_N 1900 |}
                {| volume_min := Float64.of_decimal false 1 2;
                   trade_tick_value := Float64.of_N 1;
                   trade_tick_size := Float64.of_decimal false 1 2 |}
                eq_refl eq_refl eq_refl eq_refl) as T.
  cbv zeta in T. destruct T as [_ [_ [_ [T _]]]].
  change (fst (_process_message ascii_table example_terminal scenario_message
                                example_state)
          = NewOrder scenario_intent (Float64.of_N 1900)
                     (done (order_send example_terminal request)) /\
          sent (snd (_process_message ascii_table example_terminal scenario_message
                                      example_state))
          = sent example_state ++ [request]) in T.
  destruct T as [Hr Hs]. split; [exact Hr|exact Hs].
Defined.

(** ** Invariants of the extracted intent *)

(** C9.  Every [TradeParams] returned by [extract_parameters] has exactly
    one of [entry_price] and [entry_range] set, a stop-loss strictly
    greater than zero, and, when the entry is a range, a lower bound that is
    at most the upper bound. *)
Theorem extracted_intent_invariant
        (unicode_isalnum : N -> bool) (message : text) (intent : TradeParams) :
  extract_parameters unicode_isalnum message = Some intent ->
  ((entry_price intent = None /\ entry_range intent <> None) \/
   (entry_price intent <> None /\ entry_range intent = None)) /\
  Float64.ltb Float64.zero (stop_loss intent) = true /\
  (forall lo hi, entry_range intent = Some (lo, hi) -> Float64.leb lo hi = true).
Proof.
  intros H.
  destruct (extract_parameters_inv _ _ H)
    as [_ [_ [Hsl [Ht [_ [_ He]]]]]].
  pose proof (entry_data_shape unicode_isalnum message) as Hshape.
  destruct (_extract_entry_price unicode_isalnum message) as [[lo hi|p]|];
    [| |contradiction]; destruct He as [Hr Hp]; specialize (Hshape _ eq_refl);
    simpl in Hshape.
  - split; [left; split; [exact Hp|rewrite Hr; discriminate]|].
    split.
    + apply Float64Facts.positive_of_truthy; [|exact Ht].
      apply (first_float_nonneg unicode_isalnum Patterns.SL_PATTERNS message eq_refl Hsl).
    + intros lo' hi' E. rewrite Hr in E. inversion E; subst. exact Hshape.
  - split; [right; split; [rewrite Hp; discriminate|exact Hr]|].
    split.
    + apply Float64Facts.positive_of_truthy; [|exact Ht].
      apply (first_float_nonneg unicode_isalnum Patterns.SL_PATTERNS message eq_refl Hsl).
    + intros lo' hi' E. rewrite Hr in E. discriminate.
Qed.

Lemma extracted_intent_invariant_witness :
  extract_parameters ascii_table (txt "sell gold @1920-1900.5 stop loss: 1930")
  = Some {| trade_type := "sell"; entry_price := None;
            entry_range := Some (Float64.of_decimal false 19005 1, Float64.of_N 1920);
            stop_loss := Float64.of_N 1930; take_profit := None;
            raw_message := txt "sell gold @1920-1900.5 stop loss: 1930" |} /\
  Float64.ltb Float64.zero (Float64.of_N 1930) = true /\
  Float64.leb (Float64.of_decimal false 19005 1) (Float64.of_N 1920) = true.
Proof.
  assert (H : extract_parameters ascii_table
                (txt "sell gold @1920-1900.5 stop loss: 1930")
              = Some {| trade_type := "sell"; entry_price := None;
                        entry_range := Some (Float64.of_decimal false 19005 1,
                                             Float64.of_N 1920);
                        stop_loss := Float64.of_N 1930; take_profit := None;
                        raw_message := txt "sell gold @1920-1900.5 stop loss: 1930" |})
    by (vm_compute; reflexivity).
  split; [exact H|].
  destruct (extracted_intent_invariant _ _ H) as [_ [Hsl Hr]].
  split; [exact Hsl|]. apply Hr. reflexivity.
Defined.

(** C10.  When a text has a whole-word match of the long vocabulary and
    one of the short vocabulary, [_detect_trade_type] returns ['buy']: the
    long pattern is tried first.  Hence every intent extracted from the text
    is a buy, one is extracted whenever the text is not an immediate
    execution and holds an entry and a non-zero stop-loss, and a new order
    placed for the text is a buy. *)
Theorem long_vocabulary_first
        (unicode_isalnum : N -> bool) (message : text) :
  matches unicode_isalnum Patterns.BUY_PATTERN message = true ->
  matches unicode_isalnum Patterns.SELL_PATTERN message = true ->
  _detect_trade_type unicode_isalnum message = Some "buy" /\
  (forall intent,
      extract_parameters unicode_isalnum message = Some intent ->
      trade_type intent = "buy") /\
  (is_immediate_execution_message unicode_isalnum message = false ->
   forall entry sl,
     _extract_entry_price unicode_isalnum message = Some entry ->
     _extract_stop_loss unicode_isalnum message = Some sl ->
     Float64.truthy sl = true ->
     exists intent,
       extract_parameters unicode_isalnum message = Some intent /\
       trade_type intent = "buy" /\ stop_loss intent = sl) /\
  (forall mt5 s intent price ok,
      fst (_process_message unicode_isalnum mt5 message s) = NewOrder intent price ok ->
      trade_type intent = "buy").
Proof.
  intros Hbuy _.
  pose proof (detect_buy_first unicode_isalnum message Hbuy) as Hd.
  assert (Hex : forall intent,
             extract_parameters unicode_isalnum message = Some intent ->
             trade_type intent = "buy").
  { intros intent H.
    destruct (extract_parameters_inv _ _ H) as [_ [Hd' _]].
    rewrite Hd in Hd'. inversion Hd'. reflexivity. }
  split; [exact Hd|]. split; [exact Hex|]. split.
  - intros Him entry sl He Hs Ht. unfold extract_parameters.
    destruct message as [|c t]; [discriminate Hbuy|].
    rewrite Him, Hd, He, Hs. unfold falsy. rewrite Ht. simpl.
    destruct entry; eexists; repeat split.
  - intros mt5 s intent price ok H.
    destruct (falsy (is_sl_update_message unicode_isalnum message)) eqn:Ef.
    + rewrite process_new_order in H by exact Ef.
      destruct (extract_parameters unicode_isalnum message) as [tp|] eqn:E;
        [|discriminate].
      destruct (is_range_entry tp); [|discriminate].
      destruct (get_pending_price tp _ _); [|discriminate].
      simpl in H. inversion H; subst. apply Hex. reflexivity.
    + unfold falsy in Ef.
      destruct (is_sl_update_message unicode_isalnum message) as [v|] eqn:Ev;
        [|discriminate].
      apply negb_false_iff in Ef.
      rewrite (process_sl_update _ mt5 _ s Ev Ef) in H. discriminate.
Qed.

Lemma long_vocabulary_first_witness :
  matches ascii_table Patterns.BUY_PATTERN
          (txt "Sell pressure fading, go long @1900 SL 1890") = true /\
  matches ascii_table Patterns.SELL_PATTERN
          (txt "Sell pressure fading, go long @1900 SL 1890") = true /\
  _detect_trade_type ascii_table (txt "Sell pressure fading, go long @1900 SL 1890")
  = Some "buy".
Proof.
  assert (Hb : matches ascii_table Patterns.BUY_PATTERN
                 (txt "Sell pressure fading, go long @1900 SL 1890") = true)
    by (vm_compute; reflexivity).
  assert (Hs : matches ascii_table Patterns.SELL_PATTERN
                 (txt "Sell pressure fading, go long @1900 SL 1890") = true)
    by (vm_compute; reflexivity).
  exact (conj Hb (conj Hs (proj1 (long_vocabulary_first _ _ Hb Hs)))).
Defined.

(* ================================================================== *)
(** * Further properties of the code *)

(** ** Letter case *)

Module CaseFacts.

Import PyStr.

Ltac split_bools :=
  repeat (match goal with
          | |- context [(?a =? ?b)%N] => destruct (N.eqb_spec a b)
          | |- context [(?a <=? ?b)%N] => destruct (N.leb_spec a b)
          | |- context [(?a <? ?b)%N] => destruct (N.ltb_spec a b)
          end; try lia);
  try reflexivity.

Lemma lower_char_cases (c : N) :
  (65 <= c <= 90 /\ lower_char c = c + 32)%N \/
  (~ (65 <= c <= 90)%N /\ lower_char c = c).
Proof.
  unfold lower_char, isupper_ascii, in_range.
  destruct (N.leb_spec 65 c); destruct (N.leb_spec c 90); simpl; auto; right;
    split; auto; lia.
Qed.

Lemma isdigit_lower (c : N) : isdigit_ascii (lower_char c) = isdigit_ascii c.
Proof.
  destruct (lower_char_cases c) as [[H ->]|[_ ->]]; [|reflexivity].
  unfold isdigit_ascii, in_range. split_bools.
Qed.

Lemma isspace_lower (c : N) : isspace (lower_char c) = isspace c.
Proof.
  destruct (lower_char_cases c) as [[H ->]|[_ ->]]; [|reflexivity].
  unfold isspace, in_range. split_bools.
Qed.

Lemma eqb_lower (c p : N) :
  isupper_ascii p = false -> islower_ascii p = false ->
  (lower_char c =? p)%N = (c =? p)%N.
Proof.
  destruct (lower_char_cases c) as [[H ->]|[_ ->]]; [|reflexivity].
  unfold isupper_ascii, islower_ascii, in_range. intros Hu Hl.
  apply andb_false_iff in Hu. apply andb_false_iff in Hl.
  rewrite !N.leb_gt in Hu, Hl.
  split_bools.
Qed.

Lemma lit_match_lower (p c : N) : lit_match p (lower_char c) = lit_match p c.
Proof.
  unfold lit_match.
  destruct (islower_ascii (lower_char p)) eqn:Hlp.
  - destruct (lower_char_cases c) as [[H ->]|[_ ->]]; [|reflexivity].
    unfold islower_ascii, in_range in Hlp. apply andb_prop in Hlp.
    destruct Hlp as [H1 H2]. apply N.leb_le in H1, H2.
    set (lp := lower_char p) in *. clearbody lp.
    split_bools.
  - apply eqb_lower; [|].
    + destruct (lower_char_cases p) as [[H E]|[H E]].
      * rewrite E in Hlp. unfold islower_ascii, in_range in Hlp.
        apply andb_false_iff in Hlp. rewrite !N.leb_gt in Hlp. lia.
      * unfold isupper_ascii, in_range. apply andb_false_iff.
        rewrite !N.leb_gt. lia.
    + destruct (lower_char_cases p) as [[H E]|[H E]].
      * rewrite E in Hlp. unfold islower_ascii, in_range in Hlp.
        apply andb_false_iff in Hlp. rewrite !N.leb_gt in Hlp. lia.
      * rewrite E in Hlp. exact Hlp.
Qed.

Lemma cset_mem_lower (cs : cset) (c : N) :
  cset_mem cs (lower_char c) = cset_mem cs c.
Proof.
  destruct cs; simpl;
    [apply lit_match_lower|apply isdigit_lower|apply isspace_lower].
Qed.

Lemma isword_lower (table : N -> bool) (c : N) :
  isword table (lower_char c) = isword table c.
Proof.
  destruct (lower_char_cases c) as [[H ->]|[_ ->]]; [|reflexivity].
  unfold isword, isdigit_ascii, isupper_ascii, islower_ascii, in_range.
  split_bools.
Qed.

End CaseFacts.

Section CaseOfMatcher.

Variable unicode_isalnum : N -> bool.

Let run := Re.run unicode_isalnum.

Lemma run_star_lower (cs : cset) (rest : text) :
  forall prev caps,
    run_star cs (option_map PyStr.lower_char prev) (PyStr.lower rest)
             (lower_caps caps)
    = map lower_state (run_star cs prev rest caps).
Proof.
  induction rest as [|c t IH]; intros prev caps; simpl; [reflexivity|].
  rewrite CaseFacts.cset_mem_lower.
  destruct (cset_mem cs c); [|reflexivity].
  rewrite map_app. simpl. f_equal. apply (IH (Some c) caps).
Qed.

Lemma consumed_lower (st st' : mstate) :
  consumed (lower_state st) (lower_state st') = PyStr.lower (consumed st st').
Proof.
  unfold consumed, lower_state, PyStr.lower. simpl.
  rewrite !length_map. apply firstn_map.
Qed.

Lemma flat_map_lower (f : mstate -> list mstate) (l : list mstate) :
  (forall st, f (lower_state st) = map lower_state (f st)) ->
  flat_map f (map lower_state l) = map lower_state (flat_map f l).
Proof.
  intros Hf. induction l as [|x l IH]; simpl; [reflexivity|].
  rewrite map_app, Hf, IH. reflexivity.
Qed.

(** The matcher does on the lowered text what it does on the text. *)
Lemma run_lower (r : regex) :
  forall st, run r (lower_state st) = map lower_state (run r st).
Proof.
  induction r as [|cs|cs|cs|cs|r1 IH1 r2 IH2|r1 IH1 r2 IH2|n r1 IH1|];
    intros st; unfold run; simpl; fold run.
  - reflexivity.
  - destruct (m_rest st) as [|c t]; simpl; [reflexivity|].
    rewrite CaseFacts.cset_mem_lower. destruct (cset_mem cs c); reflexivity.
  - destruct (m_rest st) as [|c t] eqn:E; simpl; [reflexivity|].
    rewrite CaseFacts.cset_mem_lower.
    destruct (cset_mem cs c); simpl; unfold lower_state; rewrite E; reflexivity.
  - apply run_star_lower.
  - destruct (m_rest st) as [|c t]; simpl; [reflexivity|].
    rewrite CaseFacts.cset_mem_lower. destruct (cset_mem cs c); [|reflexivity].
    apply (run_star_lower cs t (Some c)).
  - rewrite IH1. apply flat_map_lower, IH2.
  - rewrite IH1, IH2, map_app. reflexivity.
  - rewrite IH1, !map_map. apply map_ext. intros st'.
    rewrite consumed_lower. reflexivity.
  - assert (E : xorb (isword_opt unicode_isalnum (option_map PyStr.lower_char (m_prev st)))
                     (isword_opt unicode_isalnum (hd_error (PyStr.lower (m_rest st))))
                = xorb (isword_opt unicode_isalnum (m_prev st))
                       (isword_opt unicode_isalnum (hd_error (m_rest st)))).
    { f_equal.
      - destruct (m_prev st); simpl; [apply CaseFacts.isword_lower|reflexivity].
      - destruct (m_rest st); simpl; [reflexivity|apply CaseFacts.isword_lower]. }
    simpl in E. rewrite E. clear E.
    destruct (xorb (isword_opt unicode_isalnum (m_prev st)) _); reflexivity.
Qed.

Lemma search_from_lower (r : regex) (s : text) :
  forall prev,
    search_from unicode_isalnum r (option_map PyStr.lower_char prev) (PyStr.lower s)
    = option_map lower_caps (search_from unicode_isalnum r prev s).
Proof.
  induction s as [|c t IH]; intros prev; simpl.
  - pose proof (run_lower r (MState prev [] [])) as E.
    unfold lower_state, run in E. simpl in E. rewrite E.
    destruct (Re.run unicode_isalnum r (MState prev [] [])); reflexivity.
  - pose proof (run_lower r (MState prev (c :: t) [])) as E.
    unfold lower_state, run in E. simpl in E. rewrite E.
    destruct (Re.run unicode_isalnum r (MState prev (c :: t) [])); simpl;
      [apply (IH (Some c))|reflexivity].
Qed.

Lemma search_lower (r : regex) (s : text) :
  search unicode_isalnum r (PyStr.lower s)
  = option_map lower_caps (search unicode_isalnum r s).
Proof. apply (search_from_lower r s None). Qed.

Lemma matches_lower (r : regex) (s : text) :
  matches unicode_isalnum r (PyStr.lower s) = matches unicode_isalnum r s.
Proof.
  unfold matches. rewrite search_lower.
  destruct (search unicode_isalnum r s); reflexivity.
Qed.

End CaseOfMatcher.

Module CaseOfConversion.

Import PyStr.

Lemma digits_value_lower (s : text) :
  forall acc, digits_value acc (lower s) = digits_value acc s.
Proof.
  induction s as [|c t IH]; intros acc; simpl; [reflexivity|].
  rewrite CaseFacts.isdigit_lower.
  destruct (isdigit_ascii c) eqn:Hc; [|reflexivity].
  assert (E : lower_char c = c).
  { destruct (CaseFacts.lower_char_cases c) as [[H _]|[_ E]]; [|exact E].
    unfold isdigit_ascii, in_range in Hc. apply andb_prop in Hc.
    destruct Hc as [_ Hc]. apply N.leb_le in Hc. lia. }
  rewrite E. apply IH.
Qed.

Lemma split_point_lower (s : text) :
  split_point (lower s)
  = (lower (fst (split_point s)), option_map lower (snd (split_point s))).
Proof.
  induction s as [|c t IH]; simpl; [reflexivity|].
  rewrite (CaseFacts.eqb_lower c 46) by reflexivity.
  destruct (c =? 46)%N; [reflexivity|].
  fold (lower t). rewrite IH. destruct (split_point t). reflexivity.
Qed.

Lemma unsigned_float_lower (neg : bool) (s : text) :
  unsigned_float neg (lower s) = unsigned_float neg s.
Proof.
  unfold unsigned_float. rewrite split_point_lower.
  destruct (split_point s) as [ip fp]. cbn [fst snd].
  assert (E : match option_map lower fp with Some f => f | None => [] end
              = lower (match fp with Some f => f | None => [] end))
    by (destruct fp; reflexivity).
  rewrite E. set (fp' := match fp with Some f => f | None => [] end).
  replace (lower ip ++ lower fp') with (lower (ip ++ fp'))
    by (unfold lower; apply map_app).
  replace (List.length (lower fp')) with (List.length fp')
    by (unfold lower; symmetry; apply length_map).
  destruct (ip ++ fp') as [|d ds]; [reflexivity|].
  cbn [lower map].
  change (lower_char d :: map lower_char ds) with (lower (d :: ds)).
  rewrite digits_value_lower. reflexivity.
Qed.

(** A text and its lowered form convert alike. *)
Lemma float_of_str_lower (s : text) : float_of_str (lower s) = float_of_str s.
Proof.
  destruct s as [|c t]; [reflexivity|].
  change (lower (c :: t)) with (lower_char c :: lower t). unfold float_of_str.
  rewrite (CaseFacts.eqb_lower c 45), (CaseFacts.eqb_lower c 43) by reflexivity.
  destruct (c =? 45)%N; [apply unsigned_float_lower|].
  destruct (c =? 43)%N; [apply unsigned_float_lower|].
  apply (unsigned_float_lower false (c :: t)).
Qed.

End CaseOfConversion.

Section CaseOfExtraction.

Variable unicode_isalnum : N -> bool.

Lemma group_lower (n : nat) (caps : list (nat * text)) :
  group n (lower_caps caps) = option_map PyStr.lower (group n caps).
Proof.
  induction caps as [|[k g] caps IH]; simpl; [reflexivity|].
  destruct (Nat.eqb k n); [reflexivity|exact IH].
Qed.

Lemma float_of_group_lower (n : nat) (caps : list (nat * text)) :
  float_of_group n (lower_caps caps) = float_of_group n caps.
Proof.
  unfold float_of_group. rewrite group_lower.
  destruct (group n caps); simpl;
    [apply CaseOfConversion.float_of_str_lower|reflexivity].
Qed.

Lemma first_float_lower (patterns : list regex) (message : text) :
  first_float unicode_isalnum patterns (PyStr.lower message)
  = first_float unicode_isalnum patterns message.
Proof.
  induction patterns as [|p ps IH]; simpl; [reflexivity|].
  rewrite search_lower.
  destruct (search unicode_isalnum p message) as [caps|]; simpl; [|exact IH].
  rewrite float_of_group_lower, IH. reflexivity.
Qed.

Lemma first_range_lower (patterns : list regex) (message : text) :
  first_range unicode_isalnum patterns (PyStr.lower message)
  = first_range unicode_isalnum patterns message.
Proof.
  induction patterns as [|p ps IH]; simpl; [reflexivity|].
  rewrite search_lower.
  destruct (search unicode_isalnum p message) as [caps|]; simpl; [|exact IH].
  rewrite !float_of_group_lower, IH. reflexivity.
Qed.

Lemma detect_in_lower (patterns : list (string * regex)) (message : text) :
  detect_in unicode_isalnum patterns (PyStr.lower message)
  = detect_in unicode_isalnum patterns message.
Proof.
  induction patterns as [|[k p] ps IH]; simpl; [reflexivity|].
  rewrite matches_lower, IH. reflexivity.
Qed.

Lemma is_immediate_lower (message : text) :
  is_immediate_execution_message unicode_isalnum (PyStr.lower message)
  = is_immediate_execution_message unicode_isalnum message.
Proof.
  unfold is_immediate_execution_message.
  induction Patterns.IMMEDIATE_PATTERNS as [|p ps IH]; simpl; [reflexivity|].
  rewrite matches_lower, IH. reflexivity.
Qed.

End CaseOfExtraction.

(** X1.  Writing the letters A-Z of a message as a-z changes nothing in
    what [MessageProcessor] reads from it: the immediate-execution filter,
    SL-update detection, the side, the entry, the stop-loss and the
    take-profit are the same, and so is the result of [extract_parameters]
    up to the [raw_message] it carries. *)
Theorem extraction_ignores_case (unicode_isalnum : N -> bool) (message : text) :
  is_immediate_execution_message unicode_isalnum (PyStr.lower message)
  = is_immediate_execution_message unicode_isalnum message /\
  is_sl_update_message unicode_isalnum (PyStr.lower message)
  = is_sl_update_message unicode_isalnum message /\
  _detect_trade_type unicode_isalnum (PyStr.lower message)
  = _detect_trade_type unicode_isalnum message /\
  _extract_entry_price unicode_isalnum (PyStr.lower message)
  = _extract_entry_price unicode_isalnum message /\
  _extract_stop_loss unicode_isalnum (PyStr.lower message)
  = _extract_stop_loss unicode_isalnum message /\
  _extract_take_profit unicode_isalnum (PyStr.lower message)
  = _extract_take_profit unicode_isalnum message /\
  extract_parameters unicode_isalnum (PyStr.lower message)
  = option_map (fun intent => with_raw_message intent (PyStr.lower message))
               (extract_parameters unicode_isalnum message).
Proof.
  assert (He : _extract_entry_price unicode_isalnum (PyStr.lower message)
               = _extract_entry_price unicode_isalnum message).
  { unfold _extract_entry_price. rewrite first_range_lower, first_float_lower.
    reflexivity. }
  repeat match goal with |- _ /\ _ => split end.
  - apply is_immediate_lower.
  - apply first_float_lower.
  - apply detect_in_lower.
  - exact He.
  - apply first_float_lower.
  - apply first_float_lower.
  - unfold extract_parameters.
    destruct message as [|c t]; [reflexivity|].
    change (PyStr.lower (c :: t)) with (PyStr.lower_char c :: PyStr.lower t).
    change (PyStr.lower_char c :: PyStr.lower t) with (PyStr.lower (c :: t)).
    rewrite is_immediate_lower.
    destruct (is_immediate_execution_message unicode_isalnum (c :: t));
      [reflexivity|].
    unfold _detect_trade_type, _extract_stop_loss, _extract_take_profit.
    rewrite detect_in_lower, He, !first_float_lower. clear He.
    destruct (detect_in _ _ _); [|reflexivity].
    destruct (_extract_entry_price unicode_isalnum (c :: t)) as [[lo hi|p]|];
      [| |reflexivity];
      destruct (first_float unicode_isalnum Patterns.SL_PATTERNS (c :: t));
      try reflexivity; destruct (falsy _); reflexivity.
Qed.

(** ** Matches and conversions *)

Section FirstMatch.

Variable unicode_isalnum : N -> bool.

Lemma first_float_none_iff (patterns : list regex) (message : text) :
  forallb (fun r => num_only r && sets_group 1 r) patterns = true ->
  first_float unicode_isalnum patterns message = None <->
  (forall pattern, In pattern patterns ->
                   search unicode_isalnum pattern message = None).
Proof.
  intros Hp. split; [apply first_float_none, Hp|].
  clear Hp. induction patterns as [|p ps IH]; simpl; [reflexivity|].
  intros H. rewrite (H p (or_introl eq_refl)). apply IH.
  intros q Hq. apply H. right. exact Hq.
Qed.

Lemma first_range_none_iff (patterns : list regex) (message : text) :
  forallb (fun r => num_only r && sets_group 1 r && sets_group 2 r) patterns = true ->
  first_range unicode_isalnum patterns message = None <->
  (forall pattern, In pattern patterns ->
                   search unicode_isalnum pattern message = None).
Proof.
  intros Hp. split.
  - induction patterns as [|p ps IH]; simpl; [intros _ q []|].
    simpl in Hp. apply andb_prop in Hp. destruct Hp as [Hp Hps].
    apply andb_prop in Hp. destruct Hp as [Hp H2].
    apply andb_prop in Hp. destruct Hp as [Hnum H1].
    destruct (search unicode_isalnum p message) as [caps|] eqn:E.
    + destruct (captured_number_converts unicode_isalnum 1 p message Hnum H1 E)
        as [a [Ha _]].
      destruct (captured_number_converts unicode_isalnum 2 p message Hnum H2 E)
        as [b [Hb _]].
      rewrite Ha, Hb. discriminate.
    + intros H q [<-|Hq]; [exact E|]. apply IH; assumption.
  - clear Hp. induction patterns as [|p ps IH]; simpl; [reflexivity|].
    intros H. rewrite (H p (or_introl eq_refl)). apply IH.
    intros q Hq. apply H. right. exact Hq.
Qed.

End FirstMatch.

(** X2.  The conversions of captured numbers never fail, so the handlers
    of [ValueError] are never entered: SL-update detection, stop-loss and
    take-profit extraction return [None] exactly when no pattern of their
    list matches the message, and entry extraction returns [None] exactly
    when neither a range pattern nor a single-price pattern matches. *)
Theorem none_only_without_match (unicode_isalnum : N -> bool) (message : text) :
  (is_sl_update_message unicode_isalnum message = None <->
   forall pattern, In pattern Patterns.SL_UPDATE_PATTERNS ->
                   search unicode_isalnum pattern message = None) /\
  (_extract_stop_loss unicode_isalnum message = None <->
   forall pattern, In pattern Patterns.SL_PATTERNS ->
                   search unicode_isalnum pattern message = None) /\
  (_extract_take_profit unicode_isalnum message = None <->
   forall pattern, In pattern Patterns.TP_PATTERNS ->
                   search unicode_isalnum pattern message = None) /\
  (_extract_entry_price unicode_isalnum message = None <->
   forall pattern, In pattern (Patterns.RANGE_PATTERNS ++ Patterns.ENTRY_PATTERNS) ->
                   search unicode_isalnum pattern message = None).
Proof.
  split; [|split; [|split]].
  - apply first_float_none_iff. reflexivity.
  - apply first_float_none_iff. reflexivity.
  - apply first_float_none_iff. reflexivity.
  - unfold _extract_entry_price.
    pose proof (first_range_none_iff unicode_isalnum Patterns.RANGE_PATTERNS
                  message eq_refl) as Hr.
    pose proof (first_float_none_iff unicode_isalnum Patterns.ENTRY_PATTERNS
                  message eq_refl) as He.
    destruct (first_range unicode_isalnum Patterns.RANGE_PATTERNS message) as [d|].
    + split; [discriminate|]. intros H.
      assert (E : Some d = None); [|discriminate E].
      apply (proj2 Hr). intros q Hq. apply H, in_or_app. left. exact Hq.
    + destruct (first_float unicode_isalnum Patterns.ENTRY_PATTERNS message) as [v|].
      * split; [discriminate|]. intros H.
        assert (E : Some v = None); [|discriminate E].
        apply (proj2 He). intros q Hq. apply H, in_or_app. right. exact Hq.
      * split; [|reflexivity]. intros _ q Hq. apply in_app_or in Hq.
        destruct Hq as [Hq|Hq]; [apply (proj1 Hr)|apply (proj1 He)]; auto.
Qed.

(** X3.  A range wins over a single price.  When the first range pattern
    matches, the entry is the range made of the smaller and the larger of
    its two numbers; when any range pattern matches the entry is a range;
    an entry at a single price is only returned when no range pattern
    matches. *)
Theorem range_before_single_price (unicode_isalnum : N -> bool) (message : text) :
  (forall caps,
      search unicode_isalnum (nth 0 Patterns.RANGE_PATTERNS Eps) message = Some caps ->
      exists price1 price2,
        float_of_group 1 caps = Some price1 /\
        float_of_group 2 caps = Some price2 /\
        _extract_entry_price unicode_isalnum message
        = Some (EntryRange (Float64.py_min price1 price2)
                           (Float64.py_max price1 price2))) /\
  (forall pattern caps,
      In pattern Patterns.RANGE_PATTERNS ->
      search unicode_isalnum pattern message = Some caps ->
      exists lo hi,
        _extract_entry_price unicode_isalnum message = Some (EntryRange lo hi)) /\
  (forall price,
      _extract_entry_price unicode_isalnum message = Some (EntrySingle price) ->
      forall pattern, In pattern Patterns.RANGE_PATTERNS ->
                      search unicode_isalnum pattern message = None).
Proof.
  pose proof (first_range_none_iff unicode_isalnum Patterns.RANGE_PATTERNS
                message eq_refl) as Hnone.
  split; [|split].
  - intros caps H.
    destruct (captured_number_converts unicode_isalnum 1
                (nth 0 Patterns.RANGE_PATTERNS Eps) message eq_refl eq_refl H)
      as [a [Ha _]].
    destruct (captured_number_converts unicode_isalnum 2
                (nth 0 Patterns.RANGE_PATTERNS Eps) message eq_refl eq_refl H)
      as [b [Hb _]].
    exists a, b. split; [exact Ha|]. split; [exact Hb|].
    unfold _extract_entry_price. unfold Patterns.RANGE_PATTERNS in *.
    cbn [nth] in H. cbn [first_range]. rewrite H, Ha, Hb. reflexivity.
  - intros p caps Hp H. unfold _extract_entry_price.
    destruct (first_range unicode_isalnum Patterns.RANGE_PATTERNS message)
      as [d|] eqn:E.
    + destruct (first_range_ordered unicode_isalnum Patterns.RANGE_PATTERNS
                  message eq_refl E) as [lo [hi [-> _]]].
      exists lo, hi. reflexivity.
    + rewrite (proj1 Hnone eq_refl p Hp) in H. discriminate.
  - intros price H. unfold _extract_entry_price in H.
    destruct (first_range unicode_isalnum Patterns.RANGE_PATTERNS message)
      as [d|] eqn:E.
    + destruct (first_range_ordered unicode_isalnum Patterns.RANGE_PATTERNS
                  message eq_refl E) as [lo [hi [-> _]]].
      discriminate.
    + apply (proj1 Hnone). reflexivity.
Qed.

(** ** Orders and entries *)

Section NeededCharacters.

Variable unicode_isalnum : N -> bool.

Let run := Re.run unicode_isalnum.

(** A run only moves the cursor forward in the text. *)
Lemma run_suffix (r : regex) :
  forall st st', In st' (run r st) -> exists w, m_rest st = w ++ m_rest st'.
Proof.
  induction r as [|cs|cs|cs|cs|r1 IH1 r2 IH2|r1 IH1 r2 IH2|n r1 IH1|];
    intros st st' H; unfold run in H; simpl in H; fold run in H.
  - destruct H as [<-|[]]. exists []. reflexivity.
  - destruct (m_rest st) as [|c t]; [contradiction|].
    destruct (cset_mem cs c); [|contradiction].
    destruct H as [<-|[]]. exists [c]. reflexivity.
  - destruct (m_rest st) as [|c t] eqn:E.
    + destruct H as [<-|[]]. exists []. rewrite E. reflexivity.
    + destruct (cset_mem cs c).
      * destruct H as [<-|[<-|[]]]; [exists [c]|exists []; rewrite E]; reflexivity.
      * destruct H as [<-|[]]. exists []. rewrite E. reflexivity.
  - apply run_star_spec in H. destruct H as [_ [w [E _]]]. exists w. exact E.
  - destruct (m_rest st) as [|c t]; [contradiction|].
    destruct (cset_mem cs c); [|contradiction].
    apply run_star_spec in H. destruct H as [_ [w [E _]]].
    exists (c :: w). rewrite E. reflexivity.
  - apply in_flat_map in H. destruct H as [st1 [H1 H2]].
    destruct (IH1 _ _ H1) as [w1 E1]. destruct (IH2 _ _ H2) as [w2 E2].
    exists (w1 ++ w2). rewrite E1, E2, app_assoc. reflexivity.
  - apply in_app_or in H. destruct H as [H|H]; [apply IH1|apply IH2]; exact H.
  - apply in_map_iff in H. destruct H as [st1 [<- H1]]. simpl.
    apply IH1, H1.
  - destruct (xorb _ _); [|contradiction]. destruct H as [<-|[]].
    exists []. reflexivity.
Qed.

Lemma lit_needs (p c x : N) :
  (p =? c)%N && negb (PyStr.islower_ascii (PyStr.lower_char p)) = true ->
  lit_match p x = true -> x = c.
Proof.
  intros H Hm. apply andb_prop in H. destruct H as [Hp Hl].
  apply N.eqb_eq in Hp. subst p. apply negb_true_iff in Hl.
  unfold lit_match in Hm. rewrite Hl in Hm. apply N.eqb_eq in Hm. exact Hm.
Qed.

Lemma run_needs (c : N) (r : regex) :
  needs c r = true ->
  forall st st', In st' (run r st) -> In c (m_rest st).
Proof.
  induction r as [|cs|cs|cs|cs|r1 IH1 r2 IH2|r1 IH1 r2 IH2|n r1 IH1|];
    intros Hr st st' H; simpl in Hr; try discriminate;
    unfold run in H; simpl in H; fold run in H.
  - destruct cs as [p| |]; try discriminate.
    destruct (m_rest st) as [|x t]; [contradiction|]. simpl in H.
    destruct (lit_match p x) eqn:Hm; [|contradiction].
    left. apply (lit_needs _ _ _ Hr Hm).
  - destruct cs as [p| |]; try discriminate.
    destruct (m_rest st) as [|x t]; [contradiction|]. simpl in H.
    destruct (lit_match p x) eqn:Hm; [|contradiction].
    left. apply (lit_needs _ _ _ Hr Hm).
  - apply in_flat_map in H. destruct H as [st1 [H1 H2]].
    apply orb_prop in Hr. destruct Hr as [Hr|Hr].
    + apply (IH1 Hr _ _ H1).
    + destruct (run_suffix _ _ _ H1) as [w ->].
      apply in_or_app. right. apply (IH2 Hr _ _ H2).
  - apply andb_prop in Hr. destruct Hr as [Hr1 Hr2].
    apply in_app_or in H.
    destruct H as [H|H]; [apply (IH1 Hr1 _ _ H)|apply (IH2 Hr2 _ _ H)].
  - apply in_map_iff in H. destruct H as [st1 [_ H1]]. apply (IH1 Hr _ _ H1).
Qed.

Lemma search_from_needs (c : N) (r : regex) (s : text) :
  needs c r = true ->
  forall prev caps,
    search_from unicode_isalnum r prev s = Some caps -> In c s.
Proof.
  intros Hr. induction s as [|x t IH]; intros prev caps H; simpl in H.
  - destruct (Re.run unicode_isalnum r (MState prev [] [])) as [|st l] eqn:E;
      [discriminate|].
    apply (run_needs c r Hr (MState prev [] []) st). unfold run. rewrite E.
    left. reflexivity.
  - destruct (Re.run unicode_isalnum r (MState prev (x :: t) [])) as [|st l] eqn:E.
    + right. eapply IH, H.
    + apply (run_needs c r Hr (MState prev (x :: t) []) st). unfold run.
      rewrite E. left. reflexivity.
Qed.

(** A range entry is only read from a text that holds the character [@]. *)
Lemma range_needs_at (message : text) (d : EntryData) :
  first_range unicode_isalnum Patterns.RANGE_PATTERNS message = Some d ->
  In 64%N message.
Proof.
  assert (Hn : forallb (needs 64) Patterns.RANGE_PATTERNS = true) by reflexivity.
  revert Hn. induction Patterns.RANGE_PATTERNS as [|p ps IH]; simpl;
    [discriminate|].
  intros Hn. apply andb_prop in Hn. destruct Hn as [Hp Hps].
  destruct (search unicode_isalnum p message) as [caps|] eqn:E; [|auto].
  intros _. eapply search_from_needs; [exact Hp|exact E].
Qed.

End NeededCharacters.

(** X4.  [_process_message] calls [place_pending_order] for range entries
    only.  If the outcome is a new order, the intent holds a range and no
    single price, and the message holds the character [@].  For an entry at
    a single price the call is never made: the outcome is the exception, no
    request is sent and nothing changes.  A message that is not actionable
    changes nothing either. *)
Theorem orders_only_for_ranges
        (unicode_isalnum : N -> bool) (mt5 : terminal) (message : text) (s : State) :
  let r := _process_message unicode_isalnum mt5 message s in
  (forall intent price ok,
      fst r = NewOrder intent price ok ->
      In 64%N message /\
      entry_price intent = None /\
      exists lo hi, entry_range intent = Some (lo, hi)) /\
  (forall intent,
      fst r = Raised intent ->
      snd r = s /\ entry_range intent = None /\
      exists price, entry_price intent = Some price) /\
  (fst r = NotActionable -> snd r = s).
Proof.
  cbv zeta.
  destruct (falsy (is_sl_update_message unicode_isalnum message)) eqn:Ef.
  - rewrite process_new_order by exact Ef.
    destruct (extract_parameters unicode_isalnum message) as [tp|] eqn:E.
    + destruct (extract_parameters_inv _ _ E) as [_ [_ [_ [_ [_ [_ He]]]]]].
      unfold _extract_entry_price in He.
      destruct (first_range unicode_isalnum Patterns.RANGE_PATTERNS message)
        as [d|] eqn:Er.
      * pose proof (range_needs_at unicode_isalnum message Er) as Hat.
        destruct (first_range_ordered unicode_isalnum Patterns.RANGE_PATTERNS
                    message eq_refl Er) as [lo [hi [-> _]]].
        destruct He as [Hr Hp]. unfold is_range_entry. rewrite Hr.
        assert (Hg : exists pp, get_pending_price tp
                       (get (cfg_entry_strategy (trading_config (self s))) (txt "auto"))
                       (get (cfg_central_zone (trading_config (self s))) Float64.zero)
                     = Some pp).
        { unfold get_pending_price. rewrite Hr. eexists. reflexivity. }
        destruct Hg as [pp ->]. simpl.
        split; [|split]; [|discriminate|discriminate].
        intros intent price ok H. inversion H; subst.
        split; [exact Hat|]. split; [exact Hp|]. exists lo, hi. exact Hr.
      * destruct (first_float unicode_isalnum Patterns.ENTRY_PATTERNS message)
          as [p|]; [|contradiction].
        destruct He as [Hr Hp]. unfold is_range_entry. rewrite Hr. simpl.
        split; [discriminate|]. split; [|discriminate].
        intros intent H. inversion H; subst.
        split; [reflexivity|]. split; [exact Hr|]. exists p. exact Hp.
    + simpl. split; [discriminate|]. split; [discriminate|reflexivity].
  - unfold falsy in Ef.
    destruct (is_sl_update_message unicode_isalnum message) as [v|] eqn:Ev;
      [|discriminate].
    apply negb_false_iff in Ef.
    rewrite (process_sl_update _ mt5 _ s Ev Ef). simpl.
    split; [discriminate|]. split; discriminate.
Qed.

Lemma orders_only_for_ranges_witness :
  _process_message ascii_table accepting_terminal
                   (txt "BUY GOLD entry: 1900 SL 1890") example_state
  = (Raised {| trade_type := "buy"; entry_price := Some (Float64.of_N 1900);
               entry_range := None; stop_loss := Float64.of_N 1890;
               take_profit := None;
               raw_message := txt "BUY GOLD entry: 1900 SL 1890" |},
     example_state).
Proof.
  pose proof (orders_only_for_ranges ascii_table accepting_terminal
                (txt "BUY GOLD entry: 1900 SL 1890") example_state) as H.
  cbv zeta in H. destruct H as [_ [H _]].
  assert (E : fst (_process_message ascii_table accepting_terminal
                     (txt "BUY GOLD entry: 1900 SL 1890") example_state)
              = Raised {| trade_type := "buy"; entry_price := Some (Float64.of_N 1900);
                          entry_range := None; stop_loss := Float64.of_N 1890;
                          take_profit := None;
                          raw_message := txt "BUY GOLD entry: 1900 SL 1890" |})
    by (vm_compute; reflexivity).
  destruct (H _ E) as [Hs _].
  rewrite (surjective_pairing (_process_message _ _ _ _)), E, Hs. reflexivity.
Defined.

(** ** The registry of pending orders *)

(** X5.  [place_pending_order] sends at most one request and returns [True]
    exactly when the terminal answered that request with
    [TRADE_RETCODE_DONE].  In that case the registry has grown, at its end,
    by one order that is not activated and holds the ticket of the answer,
    the symbol of the manager, the side and the stop loss of the intent and
    the time of the call.  In every other case the registry is as before.
    The configuration, the symbol and the target profit never change. *)
Theorem place_pending_order_registers
        (mt5 : terminal) (trade_params : TradeParams)
        (pending_price : option float) (s : State) :
  let r := place_pending_order mt5 trade_params pending_price s in
  trading_config (self (snd r)) = trading_config (self s) /\
  symbol (self (snd r)) = symbol (self s) /\
  target_profit (self (snd r)) = target_profit (self s) /\
  (fst r = false ->
     pending_orders (self (snd r)) = pending_orders (self s) /\
     (sent (snd r) = sent s \/
      exists req, sent (snd r) = sent s ++ [req] /\ accepted mt5 req = false)) /\
  (fst r = true ->
     exists req result o,
       sent (snd r) = sent s ++ [req] /\
       order_send mt5 req = Some result /\
       retcode result = TRADE_RETCODE_DONE /\
       pending_orders (self (snd r)) = pending_orders (self s) ++ [o] /\
       ticket o = order result /\
       po_symbol o = symbol (self s) /\
       po_trade_type o = trade_type trade_params /\
       po_stop_loss o = stop_loss trade_params /\
       timestamp o = now mt5 /\
       is_activated o = false).
Proof.
  cbv zeta.
  unfold place_pending_order, get_current_price, get_minimum_volume,
    calculate_tp_for_profit, bind, read, ret. simpl.
  assert (Hsame : forall s0 : State,
             trading_config (self s0) = trading_config (self s0) /\
             symbol (self s0) = symbol (self s0) /\
             target_profit (self s0) = target_profit (self s0) /\
             (false = false ->
              pending_orders (self s0) = pending_orders (self s0) /\
              (sent s0 = sent s0 \/
               exists req, sent s0 = sent s0 ++ [req] /\ accepted mt5 req = false)) /\
             (false = true ->
              exists req result o,
                sent s0 = sent s0 ++ [req] /\
                order_send mt5 req = Some result /\
                retcode result = TRADE_RETCODE_DONE /\
                pending_orders (self s0) = pending_orders (self s0) ++ [o] /\
                ticket o = order result /\
                po_symbol o = symbol (self s0) /\
                po_trade_type o = trade_type trade_params /\
                po_stop_loss o = stop_loss trade_params /\
                timestamp o = now mt5 /\
                is_activated o = false)).
  { intros s0. repeat (split; [reflexivity|]). split; [|discriminate].
    intros _. split; [reflexivity|]. left. reflexivity. }
  destruct (symbol_info_tick mt5 (symbol (self s))) as [tick|]; [|apply Hsame].
  destruct (symbol_info mt5 (symbol (self s))) as [info|].
  2:{ destruct (resolve_pending_price _ _ _); apply Hsame. }
  destruct (points_needed _ info _) as [points|].
  2:{ destruct (resolve_pending_price _ _ _); apply Hsame. }
  destruct (resolve_pending_price _ trade_params pending_price) as [price|];
    [|apply Hsame].
  destruct (Float64.truthy (tp_at _ price points)); simpl; [|apply Hsame].
  unfold send, set_pending_orders. simpl.
  destruct (order_send mt5 _) as [res|] eqn:Esend; simpl.
  - destruct (retcode res =? TRADE_RETCODE_DONE)%Z eqn:Ecode; simpl.
    + repeat (split; [reflexivity|]). split; [discriminate|].
      intros _. eexists. exists res. eexists.
      split; [reflexivity|]. split; [exact Esend|].
      split; [apply Z.eqb_eq; exact Ecode|].
      split; [reflexivity|]. simpl. repeat split.
    + repeat (split; [reflexivity|]). split; [|discriminate].
      intros _. split; [reflexivity|]. right. eexists. split; [reflexivity|].
      unfold accepted, done. rewrite Esend. exact Ecode.
  - repeat (split; [reflexivity|]). split; [|discriminate].
    intros _. split; [reflexivity|]. right. eexists. split; [reflexivity|].
    unfold accepted, done. rewrite Esend. reflexivity.
Qed.

Section SweepFacts.

Variable mt5 : terminal.

(** The tickets the terminal still reports, as an order or as a position. *)
Let reported (t : Z) : bool :=
  nonempty (orders_get_ticket mt5 t) || nonempty (positions_get_ticket mt5 t).

Lemma swept_ticket (o o' : PendingOrder) :
  In o' (swept mt5 o) -> ticket o' = ticket o.
Proof.
  unfold swept.
  destruct (nonempty _ || nonempty _); [|contradiction].
  destruct (nonempty (positions_get_ticket mt5 (ticket o)));
    intros [<-|[]]; reflexivity.
Qed.

Lemma swept_twice (o : PendingOrder) :
  flat_map (swept mt5) (swept mt5 o) = swept mt5 o.
Proof.
  unfold swept.
  destruct (nonempty (positions_get_ticket mt5 (ticket o))) eqn:Ep;
    destruct (nonempty (orders_get_ticket mt5 (ticket o))) eqn:Eo; simpl;
    rewrite ?Ep, ?Eo; reflexivity.
Qed.

Lemma swept_tickets (o : PendingOrder) :
  map ticket (swept mt5 o) = if reported (ticket o) then [ticket o] else [].
Proof.
  unfold swept, reported.
  destruct (nonempty _ || nonempty _); [|reflexivity].
  destruct (nonempty (positions_get_ticket mt5 (ticket o))); reflexivity.
Qed.

Lemma sweep_twice (orders : list PendingOrder) :
  flat_map (swept mt5) (flat_map (swept mt5) orders) = flat_map (swept mt5) orders.
Proof.
  induction orders as [|o orders IH]; simpl; [reflexivity|].
  rewrite flat_map_app, swept_twice, IH. reflexivity.
Qed.

Lemma sweep_tickets (orders : list PendingOrder) :
  map ticket (flat_map (swept mt5) orders) = filter reported (map ticket orders).
Proof.
  induction orders as [|o orders IH]; simpl; [reflexivity|].
  rewrite map_app, swept_tickets, IH.
  destruct (reported (ticket o)); reflexivity.
Qed.

Lemma swept_keeps_activation (o o' : PendingOrder) :
  In o' (swept mt5 o) -> is_activated o = true -> is_activated o' = true.
Proof.
  unfold swept.
  destruct (nonempty _ || nonempty _); [|contradiction].
  destruct (nonempty (positions_get_ticket mt5 (ticket o)));
    intros [<-|[]] H; [reflexivity|exact H].
Qed.

End SweepFacts.

(** X6.  Against the same answers of the terminal, a second run of
    [cleanup_expired_orders] changes nothing.  The tickets kept by a run are
    the tickets of the registry that the terminal still reports, in the
    order of the registry, so the registry never grows; and an order that
    was activated and is kept stays activated. *)
Theorem cleanup_settles (mt5 : terminal) (s : State) :
  let s1 := snd (cleanup_expired_orders mt5 s) in
  cleanup_expired_orders mt5 s1 = (tt, s1) /\
  map ticket (pending_orders (self s1))
  = filter (fun t => nonempty (orders_get_ticket mt5 t)
                     || nonempty (positions_get_ticket mt5 t))
           (map ticket (pending_orders (self s))) /\
  (List.length (pending_orders (self s1))
   <= List.length (pending_orders (self s)))%nat /\
  (forall o', In o' (pending_orders (self s1)) ->
     exists o, In o (pending_orders (self s)) /\ ticket o' = ticket o /\
               (is_activated o = true -> is_activated o' = true)).
Proof.
  cbv zeta.
  unfold cleanup_expired_orders, bind, read, set_pending_orders. simpl.
  rewrite !(sweep_spec mt5 _ []). simpl.
  rewrite sweep_twice.
  split; [reflexivity|]. split; [apply sweep_tickets|]. split.
  - rewrite <- (length_map ticket), sweep_tickets,
      <- (length_map ticket (pending_orders (self s))).
    apply filter_length_le.
  - intros o' H. apply in_flat_map in H. destruct H as [o [Ho H]].
    exists o. split; [exact Ho|]. split.
    + apply (swept_ticket mt5 o o' H).
    + apply (swept_keeps_activation mt5 o o' H).
Qed.

(** ** The numbers read from a message *)

Section NumbersRead.

Variable unicode_isalnum : N -> bool.

Lemma first_range_nonneg (patterns : list regex) (message : text) (lo hi : float) :
  forallb num_only patterns = true ->
  first_range unicode_isalnum patterns message = Some (EntryRange lo hi) ->
  Float64.nonneg lo /\ Float64.nonneg hi.
Proof.
  induction patterns as [|p ps IH]; simpl; [discriminate|].
  intros Hp. apply andb_prop in Hp. destruct Hp as [Hp Hps].
  destruct (search unicode_isalnum p message) as [caps|] eqn:E; [|auto].
  destruct (float_of_group 1 caps) as [a|] eqn:Ea; [|auto].
  destruct (float_of_group 2 caps) as [b|] eqn:Eb; [|auto].
  intros H. inversion H; subst.
  assert (Hc : numeric_groups caps) by (eapply search_numeric; eauto).
  assert (Ha : Float64.nonneg a) by (eapply float_of_group_nonneg; eauto).
  assert (Hb : Float64.nonneg b) by (eapply float_of_group_nonneg; eauto).
  split; [apply Float64Facts.min_nonneg|apply Float64Facts.max_nonneg]; assumption.
Qed.

End NumbersRead.

(** X7.  No pattern reads a sign, and the conversion of what a pattern
    captures never gives a NaN: the value of an SL update, the stop loss,
    the take profit, the entry price and both bounds of an entry range are
    floats that are neither NaN nor negative, for every message. *)
Theorem numbers_read_are_nonnegative (unicode_isalnum : N -> bool) (message : text) :
  (forall new_sl, is_sl_update_message unicode_isalnum message = Some new_sl ->
                  Float64.nonneg new_sl) /\
  (forall sl, _extract_stop_loss unicode_isalnum message = Some sl ->
              Float64.nonneg sl) /\
  (forall tp, _extract_take_profit unicode_isalnum message = Some tp ->
              Float64.nonneg tp) /\
  (forall price, _extract_entry_price unicode_isalnum message = Some (EntrySingle price) ->
                 Float64.nonneg price) /\
  (forall lo hi, _extract_entry_price unicode_isalnum message = Some (EntryRange lo hi) ->
                 Float64.nonneg lo /\ Float64.nonneg hi).
Proof.
  split; [|split; [|split; [|split]]].
  - intros v. apply first_float_nonneg. reflexivity.
  - intros v. apply first_float_nonneg. reflexivity.
  - intros v. apply first_float_nonneg. reflexivity.
  - intros price. unfold _extract_entry_price.
    destruct (first_range unicode_isalnum Patterns.RANGE_PATTERNS message)
      as [d|] eqn:Er.
    + destruct (first_range_ordered unicode_isalnum Patterns.RANGE_PATTERNS
                  message eq_refl Er) as [lo [hi [-> _]]].
      discriminate.
    + destruct (first_float unicode_isalnum Patterns.ENTRY_PATTERNS message)
        as [v|] eqn:Ev; [|discriminate].
      intros H. inversion H; subst.
      apply (first_float_nonneg unicode_isalnum Patterns.ENTRY_PATTERNS message
               eq_refl Ev).
  - intros lo hi. unfold _extract_entry_price.
    destruct (first_range unicode_isalnum Patterns.RANGE_PATTERNS message)
      as [d|] eqn:Er.
    + intros H. inversion H; subst.
      apply (first_range_nonneg unicode_isalnum Patterns.RANGE_PATTERNS message
               eq_refl Er).
    + destruct (first_float unicode_isalnum Patterns.ENTRY_PATTERNS message);
        discriminate.
Qed.

(** ** The entry strategy *)

(** X8.  [get_pending_price] reads the strategy up to surrounding white
    space and the case of its letters: two strategies that [strip] and
    [lower] send to the same text give the same price, for every intent and
    every offset. *)
Theorem strategy_is_normalised
        (self : TradeParams) (strategy1 strategy2 : text) (central_zone : float) :
  PyStr.lower (PyStr.strip strategy1) = PyStr.lower (PyStr.strip strategy2) ->
  get_pending_price self strategy1 central_zone
  = get_pending_price self strategy2 central_zone.
Proof.
  intros H. unfold get_pending_price.
  destruct (entry_range self) as [[min_p max_p]|]; [|reflexivity].
  rewrite <- H.
  assert (Hauto : forall s : text,
             PyStr.text_eqb s (txt "auto") = true ->
             PyStr.text_eqb (PyStr.lower (PyStr.strip s)) (txt "min") = false /\
             PyStr.text_eqb (PyStr.lower (PyStr.strip s)) (txt "max") = false).
  { intros s Hs. apply text_eqb_eq in Hs. subst s. split; reflexivity. }
  destruct (PyStr.text_eqb strategy1 (txt "auto")) eqn:E1;
    destruct (PyStr.text_eqb strategy2 (txt "auto")) eqn:E2; try reflexivity.
  - destruct (Hauto _ E1) as [-> ->]. reflexivity.
  - rewrite H. destruct (Hauto _ E2) as [-> ->]. reflexivity.
Qed.

Lemma strategy_is_normalised_witness :
  get_pending_price scenario_intent (txt " MAX ") Float64.zero
  = get_pending_price scenario_intent (txt "max") Float64.zero.
Proof.
  apply (strategy_is_normalised scenario_intent (txt " MAX ") (txt "max")
                                Float64.zero).
  vm_compute. reflexivity.
Defined.

(** ** [TelegramManager] *)

Module TelegramFacts.

Lemma is_new_inv (last : Z) (msg : Message) :
  is_new last msg = true ->
  exists mid content,
    msg_id msg = Some mid /\ (last < mid)%Z /\
    content_of msg = Some content /\ content <> [].
Proof.
  unfold is_new. destruct (msg_id msg) as [mid|]; [|discriminate].
  intros H. apply andb_prop in H. destruct H as [H Hc].
  apply andb_prop in H. destruct H as [_ Hlt]. apply Z.ltb_lt in Hlt.
  unfold nonempty_text in Hc.
  destruct (content_of msg) as [[|c t]|]; try discriminate.
  exists mid, (c :: t). repeat split; [exact Hlt|discriminate].
Qed.

Lemma is_new_later (last last' : Z) (msg : Message) :
  (last <= last')%Z -> is_new last msg = false -> is_new last' msg = false.
Proof.
  unfold is_new. destruct (msg_id msg) as [mid|]; [|reflexivity].
  intros Hle H.
  destruct (negb (mid =? 0)%Z); [|reflexivity].
  destruct (nonempty_text (content_of msg)); [|apply andb_false_r].
  simpl in *. rewrite andb_true_r in *.
  apply Z.ltb_ge in H. apply Z.ltb_ge. lia.
Qed.

Lemma is_new_below (last : Z) (msg : Message) (mid : Z) :
  msg_id msg = Some mid -> (mid <= last)%Z -> is_new last msg = false.
Proof.
  unfold is_new. intros -> Hle.
  assert (E : (last <? mid)%Z = false) by (apply Z.ltb_ge; exact Hle).
  rewrite E, andb_false_r. reflexivity.
Qed.

Lemma collect_last_mono (messages : list Message) :
  forall last acc, (last <= snd (collect messages last acc))%Z.
Proof.
  induction messages as [|msg rest IH]; intros last acc; simpl; [lia|].
  destruct (is_new last msg) eqn:E; [|apply IH].
  destruct (is_new_inv _ _ E) as [mid [c [Hid [Hlt _]]]].
  rewrite Hid. simpl. specialize (IH mid (acc ++ [get (content_of msg) []])). lia.
Qed.

Lemma last_cons {A : Type} (l : list A) :
  forall x d : A, List.last (x :: l) d = List.last l x.
Proof.
  induction l as [|y l IH]; intros x d; [reflexivity|].
  change (List.last (x :: y :: l) d) with (List.last (y :: l) d).
  rewrite (IH y d), (IH y x). reflexivity.
Qed.

(** What the loop appends and where the mark ends, in terms of the
    messages it takes. *)
Lemma collect_taken (messages : list Message) :
  forall last acc,
    collect messages last acc
    = (acc ++ map (fun msg => get (content_of msg) []) (taken messages last),
       List.last (map (fun msg => get (msg_id msg) 0%Z) (taken messages last)) last).
Proof.
  induction messages as [|msg rest IH]; intros l acc; simpl.
  - rewrite app_nil_r. reflexivity.
  - destruct (is_new l msg) eqn:E; [|apply IH].
    rewrite IH, <- app_assoc. cbn [map app]. f_equal.
    rewrite last_cons. reflexivity.
Qed.

Lemma taken_increasing (messages : list Message) :
  forall last,
    increasing_from last (map (fun msg => get (msg_id msg) 0%Z) (taken messages last)).
Proof.
  induction messages as [|msg rest IH]; intros l; simpl; [exact I|].
  destruct (is_new l msg) eqn:E; [|apply IH].
  destruct (is_new_inv _ _ E) as [mid [c [Hid [Hlt _]]]].
  simpl. rewrite Hid. simpl. split; [exact Hlt|].
  apply IH.
Qed.

Lemma taken_length (messages : list Message) :
  forall last, (List.length (taken messages last) <= List.length messages)%nat.
Proof.
  induction messages as [|msg rest IH]; intros l; simpl; [lia|].
  destruct (is_new l msg); simpl.
  - specialize (IH (get (msg_id msg) 0%Z)). lia.
  - specialize (IH l). lia.
Qed.

(** A message that is taken lies above the mark the loop started from and
    at or below the mark it ends with, and has a content. *)
Lemma taken_inv (messages : list Message) :
  forall last msg,
    In msg (taken messages last) ->
    In msg messages /\
    exists mid content,
      msg_id msg = Some mid /\
      (last < mid <= snd (collect messages last []))%Z /\
      content_of msg = Some content /\ content <> [].
Proof.
  induction messages as [|m rest IH]; intros l msg H; simpl in H; [contradiction|].
  simpl. destruct (is_new l m) eqn:E.
  - destruct (is_new_inv _ _ E) as [mid [c [Hid [Hlt [Hc Hne]]]]].
    rewrite Hid in *. simpl in *.
    pose proof (collect_last_mono rest mid [get (content_of m) []]) as Hm.
    assert (Hs : snd (collect rest mid [get (content_of m) []])
                 = snd (collect rest mid [])) by (rewrite !collect_taken; reflexivity).
    destruct H as [<-|H].
    + split; [left; reflexivity|]. exists mid, c.
      repeat split; try assumption; lia.
    + destruct (IH _ _ H) as [Hin [mid' [c' [Hid' [[Hlo Hhi] Hcn]]]]].
      split; [right; exact Hin|]. exists mid', c'.
      split; [exact Hid'|]. split; [|exact Hcn]. rewrite Hs. lia.
  - destruct (IH _ _ H) as [Hin Hrest]. split; [right; exact Hin|exact Hrest].
Qed.

(** Once the mark is at or above where a run of the loop ended, the same
    messages give nothing. *)
Lemma collect_settled (messages : list Message) :
  forall last acc last' acc',
    (snd (collect messages last acc) <= last')%Z ->
    collect messages last' acc' = (acc', last').
Proof.
  induction messages as [|msg rest IH]; intros l acc l' acc' H; simpl in *;
    [reflexivity|].
  destruct (is_new l msg) eqn:E.
  - destruct (is_new_inv _ _ E) as [mid [c [Hid [Hlt _]]]].
    rewrite Hid in H. simpl in H.
    pose proof (collect_last_mono rest mid (acc ++ [get (content_of msg) []])) as Hm.
    rewrite (@is_new_below l' msg mid Hid) by lia.
    eapply IH. exact H.
  - pose proof (collect_last_mono rest l acc) as Hm.
    rewrite (@is_new_later l l' msg) by (lia || exact E).
    eapply IH. exact H.
Qed.

Lemma collect_nothing_new (messages : list Message) (last : Z) :
  (forall msg mid, In msg messages -> msg_id msg = Some mid -> (mid <= last)%Z) ->
  forall acc, collect messages last acc = (acc, last).
Proof.
  induction messages as [|msg rest IH]; intros H acc; simpl; [reflexivity|].
  assert (E : is_new last msg = false).
  { destruct (msg_id msg) as [mid|] eqn:Hid.
    - apply (@is_new_below last msg mid Hid).
      apply (H msg mid); [left; reflexivity|exact Hid].
    - unfold is_new. rewrite Hid. reflexivity. }
  rewrite E. apply IH. intros m mid Hin. apply H. right. exact Hin.
Qed.

End TelegramFacts.

(** X9.  [get_new_messages] delivers a message at most once.  The mark
    [last_message_id] never goes down; what is returned are the contents,
    oldest first, of fetched messages with strictly increasing identifiers,
    each above the old mark and at or below the new one, and each content is
    a text that is not empty; and a second call on the same fetch returns
    nothing and leaves the mark where it is.  Without a connected client
    nothing is returned and nothing changes. *)
Theorem messages_are_delivered_once (fetched : list Message) (self : TelegramManager) :
  let r := get_new_messages fetched self in
  let delivered := taken (rev fetched) (last_message_id self) in
  client_connected (snd r) = client_connected self /\
  (last_message_id self <= last_message_id (snd r))%Z /\
  (List.length (fst r) <= List.length fetched)%nat /\
  (client_connected self = true ->
   fst r = map (fun msg => get (content_of msg) []) delivered /\
   increasing_from (last_message_id self)
                   (map (fun msg => get (msg_id msg) 0%Z) delivered) /\
   forall msg, In msg delivered ->
     In msg fetched /\
     exists mid content,
       msg_id msg = Some mid /\
       (last_message_id self < mid <= last_message_id (snd r))%Z /\
       content_of msg = Some content /\ content <> []) /\
  (client_connected self = false -> r = ([], self)) /\
  get_new_messages fetched (snd r) = ([], snd r).
Proof.
  cbv zeta. unfold get_new_messages.
  destruct (client_connected self) eqn:Ec; simpl.
  - destruct (collect (rev fetched) (last_message_id self) []) as [out l'] eqn:E.
    cbn [fst snd client_connected last_message_id negb].
    pose proof (TelegramFacts.collect_last_mono (rev fetched) (last_message_id self) [])
      as Hm.
    pose proof (TelegramFacts.collect_taken (rev fetched) (last_message_id self) [])
      as Ht.
    rewrite E in Hm, Ht. simpl in Hm, Ht.
    pose proof (f_equal fst Ht) as Hout. simpl in Hout. clear Ht.
    split; [reflexivity|]. split; [exact Hm|]. split.
    { rewrite Hout, length_map, <- (length_rev fetched).
      apply TelegramFacts.taken_length. }
    split.
    { intros _. split; [exact Hout|].
      split; [apply TelegramFacts.taken_increasing|].
      intros msg Hin.
      destruct (TelegramFacts.taken_inv _ _ _ Hin) as [Hf Hrest].
      split; [apply in_rev; exact Hf|].
      rewrite E in Hrest. exact Hrest. }
    split; [discriminate|].
    rewrite (@TelegramFacts.collect_settled (rev fetched) (last_message_id self) []
               l' []); [reflexivity|].
    rewrite E. simpl. lia.
  - split; [exact Ec|]. split; [lia|]. split; [lia|].
    split; [discriminate|]. split; [reflexivity|].
    rewrite Ec. reflexivity.
Qed.

(** X10.  A bot that starts on a channel does not act on what was posted
    before: after [_initialize_message_id] has read the newest message, a
    fetch whose messages all have identifiers at or below the one of that
    message returns nothing and leaves the mark where it is. *)
Theorem startup_skips_history
        (newest : Message) (fetched : list Message) (self : TelegramManager) :
  (forall msg mid, In msg fetched -> msg_id msg = Some mid ->
                   (mid <= get (msg_id newest) 0)%Z) ->
  get_new_messages fetched (_initialize_message_id [newest] self)
  = ([], _initialize_message_id [newest] self).
Proof.
  intros H. unfold get_new_messages, _initialize_message_id. simpl.
  destruct (client_connected self); simpl; [|reflexivity].
  rewrite TelegramFacts.collect_nothing_new; [reflexivity|].
  intros msg mid Hin. apply H. apply in_rev. exact Hin.
Qed.

Lemma startup_skips_history_witness :
  get_new_messages
    [posted 7 "SELL GOLD @1900-1905 SL 1910"; posted 5 "BUY GOLD @1890-1895 SL 1880"]
    (_initialize_message_id [posted 7 "SELL GOLD @1900-1905 SL 1910"] example_telegram)
  = ([], {| client_connected := true; last_message_id := 7 |}).
Proof.
  apply (@startup_skips_history
           (posted 7 "SELL GOLD @1900-1905 SL 1910")
           [posted 7 "SELL GOLD @1900-1905 SL 1910";
            posted 5 "BUY GOLD @1890-1895 SL 1880"]
           example_telegram).
  intros msg mid [<-|[<-|[]]] H; inversion H; simpl; lia.
Defined.

(** ** [TradingBot._main_loop] *)

Section LoopFacts.

Variable unicode_isalnum : N -> bool.

Lemma extends_refl (n : nat) (s : State) : extends n s s.
Proof.
  unfold extends. repeat (split; [reflexivity|]). split.
  - exists []. rewrite app_nil_r. reflexivity.
  - exists []. rewrite app_nil_r. repeat split; [simpl; lia|constructor].
Qed.

Lemma extends_trans (n m : nat) (s1 s2 s3 : State) :
  extends n s1 s2 -> extends m s2 s3 -> extends (n + m) s1 s3.
Proof.
  intros [Hc1 [Hs1 [Ht1 [[r1 Hr1] [o1 [Ho1 [Hl1 Hf1]]]]]]]
         [Hc2 [Hs2 [Ht2 [[r2 Hr2] [o2 [Ho2 [Hl2 Hf2]]]]]]].
  unfold extends.
  split; [congruence|]. split; [congruence|]. split; [congruence|]. split.
  - exists (r1 ++ r2). rewrite Hr2, Hr1, app_assoc. reflexivity.
  - exists (o1 ++ o2). rewrite Ho2, Ho1, app_assoc. split; [reflexivity|].
    split; [rewrite length_app; lia|]. apply Forall_app. split; assumption.
Qed.

Lemma extends_sent (n : nat) (s : State) (requests : list request) :
  extends n s {| self := self s; sent := sent s ++ requests |}.
Proof.
  unfold extends. simpl. repeat (split; [reflexivity|]). split.
  - exists requests. reflexivity.
  - exists []. rewrite app_nil_r. repeat split; [simpl; lia|constructor].
Qed.

Lemma place_pending_order_extends
      (mt5 : terminal) (trade_params : TradeParams)
      (pending_price : option float) (s : State) :
  extends 1 s (snd (place_pending_order mt5 trade_params pending_price s)).
Proof.
  unfold place_pending_order, get_current_price, get_minimum_volume,
    calculate_tp_for_profit, bind, read, ret. simpl.
  destruct (symbol_info_tick mt5 (symbol (self s))) as [tick|];
    [|apply extends_refl].
  destruct (symbol_info mt5 (symbol (self s))) as [info|].
  2:{ destruct (resolve_pending_price _ _ _); apply extends_refl. }
  destruct (points_needed _ info _) as [points|].
  2:{ destruct (resolve_pending_price _ _ _); apply extends_refl. }
  destruct (resolve_pending_price _ trade_params pending_price) as [price|];
    [|apply extends_refl].
  destruct (Float64.truthy (tp_at _ price points)); simpl; [|apply extends_refl].
  unfold send, set_pending_orders. simpl.
  destruct (order_send mt5 _) as [res|]; simpl; [|apply extends_sent].
  destruct (retcode res =? TRADE_RETCODE_DONE)%Z; simpl; [|apply extends_sent].
  unfold extends. simpl. repeat (split; [reflexivity|]). split.
  - eexists. reflexivity.
  - eexists. split; [reflexivity|]. split; [simpl; lia|].
    constructor; [reflexivity|constructor].
Qed.

Lemma process_message_extends (mt5 : terminal) (message : text) (s : State) :
  extends 1 s (snd (_process_message unicode_isalnum mt5 message s)).
Proof.
  destruct (falsy (is_sl_update_message unicode_isalnum message)) eqn:Ef.
  - rewrite process_new_order by exact Ef.
    destruct (extract_parameters unicode_isalnum message) as [tp|];
      [|apply extends_refl].
    destruct (is_range_entry tp); [|apply extends_refl].
    destruct (get_pending_price tp _ _) as [pp|]; [|apply extends_refl].
    apply place_pending_order_extends.
  - unfold falsy in Ef.
    destruct (is_sl_update_message unicode_isalnum message) as [v|] eqn:Ev;
      [|discriminate].
    apply negb_false_iff in Ef.
    rewrite (process_sl_update _ mt5 _ s Ev Ef). cbn [snd].
    rewrite update_pending_order_sl_spec. cbn [snd]. apply extends_sent.
Qed.

Lemma process_messages_extends (answers : nat -> terminal) (new_messages : list text) :
  forall k s,
    let r := process_messages unicode_isalnum answers k new_messages s in
    List.length (fst r) = List.length new_messages /\
    extends (List.length new_messages) s (snd r).
Proof.
  induction new_messages as [|message rest IH]; intros k s; cbv zeta.
  - simpl. split; [reflexivity|apply extends_refl].
  - cbn [process_messages]. unfold bind.
    pose proof (process_message_extends (answers k) message s) as H1.
    destruct (_process_message unicode_isalnum (answers k) message s) as [o s1].
    specialize (IH (S k) s1). cbv zeta in IH.
    destruct (process_messages unicode_isalnum answers (S k) rest s1) as [os s2].
    unfold ret. cbn [fst snd List.length] in *. destruct IH as [Hl He].
    split; [rewrite Hl; reflexivity|].
    apply (extends_trans H1 He).
Qed.

Lemma get_new_messages_again (fetched : list Message) (self : TelegramManager) :
  get_new_messages fetched (snd (get_new_messages fetched self))
  = ([], snd (get_new_messages fetched self)).
Proof.
  unfold get_new_messages.
  destruct (client_connected self) eqn:Ec; simpl.
  - destruct (collect (rev fetched) (last_message_id self) []) as [out l'] eqn:E.
    cbn [fst snd client_connected last_message_id negb].
    rewrite (@TelegramFacts.collect_settled (rev fetched) (last_message_id self) []
               l' []); [reflexivity|].
    rewrite E. simpl. lia.
  - rewrite Ec. reflexivity.
Qed.

End LoopFacts.

(** X11.  One turn of [_main_loop] handles each new message once and only
    adds to what is there.  There is one outcome for each message that
    [get_new_messages] returned; the configuration, the symbol and the
    target profit of the manager are as before; the requests sent so far are
    still there, with the new ones after them; the registry holds the orders
    it held, in the same order, followed by at most one new order for each
    message, none of them activated.  A second turn on the same fetch
    processes nothing and changes nothing, whatever the terminal answers. *)
Theorem main_loop_turn_only_adds
        (unicode_isalnum : N -> bool) (answers : nat -> terminal)
        (fetched : list Message) (bot : TelegramManager * State) :
  let r := main_loop_turn unicode_isalnum answers fetched bot in
  let s := snd bot in
  let s' := snd (snd r) in
  List.length (fst r) = List.length (fst (get_new_messages fetched (fst bot))) /\
  fst (snd r) = snd (get_new_messages fetched (fst bot)) /\
  trading_config (self s') = trading_config (self s) /\
  symbol (self s') = symbol (self s) /\
  target_profit (self s') = target_profit (self s) /\
  (exists requests, sent s' = sent s ++ requests) /\
  (exists orders,
      pending_orders (self s') = pending_orders (self s) ++ orders /\
      (List.length orders <= List.length (fst r))%nat /\
      Forall (fun o => is_activated o = false) orders) /\
  (forall answers',
      main_loop_turn unicode_isalnum answers' fetched (snd r) = ([], snd r)).
Proof.
  cbv zeta. unfold main_loop_turn.
  pose proof (get_new_messages_again fetched (fst bot)) as Hagain.
  destruct (get_new_messages fetched (fst bot)) as [new_messages telegram].
  pose proof (process_messages_extends unicode_isalnum answers new_messages 0 (snd bot))
    as Hp.
  cbv zeta in Hp.
  destruct (process_messages unicode_isalnum answers 0 new_messages (snd bot))
    as [outcomes manager].
  cbn [fst snd] in *. destruct Hp as [Hl [Hc [Hs [Ht [Hr [orders [Ho [Hn Hf]]]]]]]].
  split; [exact Hl|]. split; [reflexivity|].
  split; [exact Hc|]. split; [exact Hs|]. split; [exact Ht|].
  split; [exact Hr|]. split.
  - exists orders. split; [exact Ho|]. split; [rewrite Hl; exact Hn|exact Hf].
  - intros answers'. rewrite Hagain. reflexivity.
Qed.

(** ** The stop loss of what is sent *)

Section StopLossFacts.

Variable unicode_isalnum : N -> bool.

(** The requests one message adds, each with the stop loss read from the
    message. *)
Lemma process_message_requests (mt5 : terminal) (message : text) (s : State) :
  let r := _process_message unicode_isalnum mt5 message s in
  exists requests,
    sent (snd r) = sent s ++ requests /\
    Forall (fun req =>
              Float64.ltb Float64.zero (request_sl req) = true /\
              match fst r with
              | SlUpdate new_sl _ => request_sl req = new_sl
              | NewOrder trade_params _ _ => request_sl req = stop_loss trade_params
              | _ => False
              end) requests.
Proof.
  cbv zeta.
  destruct (falsy (is_sl_update_message unicode_isalnum message)) eqn:Ef.
  - rewrite process_new_order by exact Ef.
    destruct (extract_parameters unicode_isalnum message) as [tp|] eqn:E.
    2:{ exists []. rewrite app_nil_r. split; [reflexivity|constructor]. }
    destruct (is_range_entry tp).
    2:{ exists []. rewrite app_nil_r. split; [reflexivity|constructor]. }
    destruct (get_pending_price tp _ _) as [pp|].
    2:{ exists []. rewrite app_nil_r. split; [reflexivity|constructor]. }
    cbn [fst snd].
    destruct (extract_parameters_inv _ _ E) as [_ [_ [Hsl [Ht _]]]].
    assert (Hpos : Float64.ltb Float64.zero (stop_loss tp) = true).
    { apply Float64Facts.positive_of_truthy; [|exact Ht].
      apply (first_float_nonneg unicode_isalnum Patterns.SL_PATTERNS message
               eq_refl Hsl). }
    destruct (place_pending_order_cases mt5 tp (Some pp) s) as [H|H].
    + rewrite H. exists []. rewrite app_nil_r. split; [reflexivity|constructor].
    + destruct H as [tick [info [price [points [_ [_ [_ [_ [_ [Hsent _]]]]]]]]]].
      eexists. split; [exact Hsent|].
      constructor; [|constructor]. split; [exact Hpos|reflexivity].
  - unfold falsy in Ef.
    destruct (is_sl_update_message unicode_isalnum message) as [v|] eqn:Ev;
      [|discriminate].
    apply negb_false_iff in Ef.
    rewrite (process_sl_update _ mt5 _ s Ev Ef). cbn [fst snd].
    rewrite update_pending_order_sl_spec. cbn [snd sent].
    assert (Hpos : Float64.ltb Float64.zero v = true).
    { apply Float64Facts.positive_of_truthy; [|exact Ef].
      apply (first_float_nonneg unicode_isalnum Patterns.SL_UPDATE_PATTERNS message
               eq_refl Ev). }
    eexists. split; [reflexivity|].
    apply Forall_app. split; apply Forall_map, Forall_forall; intros x _;
      split; [exact Hpos|reflexivity|exact Hpos|reflexivity].
Qed.

End StopLossFacts.

(** X12.  Nothing is sent without a stop loss above zero.  Every request
    that [_process_message] passes to [order_send] carries the stop loss
    read from the message, the new level of an SL update or the stop loss of
    the new order, and that number is strictly greater than zero; so is the
    stop loss of every request sent during a turn of the main loop over any
    messages. *)
Theorem every_request_has_stop_loss (unicode_isalnum : N -> bool) :
  (forall (mt5 : terminal) (message : text) (s : State),
      let r := _process_message unicode_isalnum mt5 message s in
      exists requests,
        sent (snd r) = sent s ++ requests /\
        Forall (fun req =>
                  Float64.ltb Float64.zero (request_sl req) = true /\
                  match fst r with
                  | SlUpdate new_sl _ => request_sl req = new_sl
                  | NewOrder trade_params _ _ =>
                      request_sl req = stop_loss trade_params
                  | _ => False
                  end) requests) /\
  (forall (answers : nat -> terminal) (new_messages : list text) (k : nat) (s : State),
      exists requests,
        sent (snd (process_messages unicode_isalnum answers k new_messages s))
        = sent s ++ requests /\
        Forall (fun req => Float64.ltb Float64.zero (request_sl req) = true)
               requests).
Proof.
  split; [apply process_message_requests|].
  intros answers new_messages.
  induction new_messages as [|message rest IH]; intros k s.
  - exists []. simpl. rewrite app_nil_r. split; [reflexivity|constructor].
  - cbn [process_messages]. unfold bind.
    pose proof (process_message_requests unicode_isalnum (answers k) message s) as H1.
    cbv zeta in H1.
    destruct (_process_message unicode_isalnum (answers k) message s) as [o s1].
    specialize (IH (S k) s1).
    destruct (process_messages unicode_isalnum answers (S k) rest s1) as [os s2].
    unfold ret. cbn [fst snd] in *.
    destruct H1 as [r1 [E1 F1]]. destruct IH as [r2 [E2 F2]].
    exists (r1 ++ r2). rewrite E2, E1, app_assoc. split; [reflexivity|].
    apply Forall_app. split; [|exact F2].
    eapply Forall_impl; [|exact F1]. intros req [H _]. exact H.
Qed.

(** ** [ConfigManager] *)

(** X13.  [_load_config] accepts a configuration exactly when it has the
    three sections [telegram], [mt5] and [trading].  What it returns is the
    configuration as read, and the three properties of the manager then
    never fail with [KeyError].  What it raises names a section that is
    missing, the first one in the order [telegram], [mt5], [trading]. *)
Theorem load_config_validates (V : Type) (config : Config V) :
  match _load_config config with
  | inr loaded =>
      loaded = config /\
      (exists telegram, config_telegram loaded = Some telegram) /\
      (exists mt5, config_mt5 loaded = Some mt5) /\
      (exists trading, config_trading loaded = Some trading)
  | inl section =>
      In section required_sections /\
      config_get section config = None /\
      (section = "mt5" -> config_has "telegram" config = true) /\
      (section = "trading" ->
       config_has "telegram" config = true /\ config_has "mt5" config = true)
  end /\
  ((exists loaded, _load_config config = inr loaded) <->
   forall section, In section required_sections -> config_has section config = true).
Proof.
  unfold _load_config, required_sections, first_missing, config_has,
    config_telegram, config_mt5, config_trading.
  destruct (config_get "telegram" config) as [t|] eqn:Et; simpl.
  - destruct (config_get "mt5" config) as [m|] eqn:Em; simpl.
    + destruct (config_get "trading" config) as [tr|] eqn:Etr; simpl.
      * split.
        { split; [reflexivity|]. rewrite Et, Em, Etr.
          split; [exists t; reflexivity|].
          split; [exists m; reflexivity|exists tr; reflexivity]. }
        split; [|eauto].
        intros _ section [<-|[<-|[<-|[]]]]; [rewrite Et|rewrite Em|rewrite Etr];
          reflexivity.
      * split.
        { split; [right; right; left; reflexivity|]. split; [exact Etr|].
          split; [discriminate|]. intros _. split; reflexivity. }
        split; [intros [l H]; discriminate|].
        intros H. specialize (H "trading" (or_intror (or_intror (or_introl eq_refl)))).
        rewrite Etr in H. discriminate.
    + split.
      { split; [right; left; reflexivity|]. split; [exact Em|].
        split; [reflexivity|discriminate]. }
      split; [intros [l H]; discriminate|].
      intros H. specialize (H "mt5" (or_intror (or_introl eq_refl))).
      rewrite Em in H. discriminate.
  - split.
    { split; [left; reflexivity|]. split; [exact Et|]. split; discriminate. }
    split; [intros [l H]; discriminate|].
    intros H. specialize (H "telegram" (or_introl eq_refl)).
    rewrite Et in H. discriminate.
Qed.
